(** * FashionDB: the login, audit and procedure-probe helpers of [Hand.py]
      and the bootstrap script [create_admin.py]

    The development follows the two Python files.  Python values, the
    library calls they make ([binascii.hexlify], [hashlib.sha256],
    [str.strip]) and the MySQL server behind [mysql.connector] are modelled
    first; the functions of the two files come next, written in a small
    state-and-exception monad over the world they act on; the theorems
    come last. *)

From Stdlib Require Import ZArith List String Ascii Bool Lia Sorted.
From Stdlib.Strings Require Import Byte.
From Stdlib Require DecimalString QArith_base.
Import ListNotations.
Open Scope string_scope.
Open Scope list_scope.
Open Scope Z_scope.

(** ** Python text and bytes *)

Module Py.

(** A Python [str] is modelled by a Rocq [string] whose characters are the
    code points 0..255; [len] is [String.length].  A [bytes] object is a
    list of [byte]. *)
Definition bytes := list byte.

Definition byte_of_N (n : N) : byte := byte_of_ascii (ascii_of_N n).

(** [str.encode()]: UTF-8.  Code points below 128 take one byte, the
    others (up to 255 here) two. *)
Definition encode_char (c : ascii) : bytes :=
  let n := N_of_ascii c in
  if (n <? 128)%N then [byte_of_N n]
  else [byte_of_N (192 + n / 64); byte_of_N (128 + n mod 64)].

Fixpoint encode (s : string) : bytes :=
  match s with
  | EmptyString => []
  | String c rest => encode_char c ++ encode rest
  end.

(** The sixteen lower-case digits [binascii.hexlify] and [hexdigest] use. *)
Definition hex_digit (n : N) : ascii :=
  if (n <? 10)%N then ascii_of_N (48 + n) else ascii_of_N (87 + n).

(** [binascii.hexlify(b).decode()]: two digits per byte, high nibble first. *)
Fixpoint hexlify (b : bytes) : string :=
  match b with
  | [] => EmptyString
  | x :: rest =>
      let n := Byte.to_N x in
      String (hex_digit (n / 16)) (String (hex_digit (n mod 16)) (hexlify rest))
  end.

Definition is_hex_digit (c : ascii) : bool :=
  let n := N_of_ascii c in
  ((48 <=? n) && (n <=? 57) || (97 <=? n) && (n <=? 102))%N.

Fixpoint all_chars (p : ascii -> bool) (s : string) : bool :=
  match s with
  | EmptyString => true
  | String c rest => p c && all_chars p rest
  end.

(** [str.isspace] on one character, for the code points 0..255. *)
Definition isspace (c : ascii) : bool :=
  let n := N_of_ascii c in
  ((9 <=? n) && (n <=? 13) || (28 <=? n) && (n <=? 32)
   || (n =? 133) || (n =? 160))%N.

Fixpoint lstrip (s : string) : string :=
  match s with
  | EmptyString => EmptyString
  | String c rest => if isspace c then lstrip rest else s
  end.

(** [rstrip] drops the trailing run of white space: a character is kept
    when it is not white space or when something is kept after it. *)
Fixpoint rstrip (s : string) : string :=
  match s with
  | EmptyString => EmptyString
  | String c rest =>
      match rstrip rest with
      | EmptyString => if isspace c then EmptyString else String c EmptyString
      | kept => String c kept
      end
  end.

(** [str.strip()] with no argument. *)
Definition strip (s : string) : string := rstrip (lstrip s).

(** [len(s)] as an integer. *)
Definition len (s : string) : Z := Z.of_nat (String.length s).

(** [str(n)] of an [int]. *)
Definition str_of_int (n : Z) : string :=
  DecimalString.NilZero.string_of_int (Z.to_int n).

(** [s.startswith(prefix)] *)
Definition startswith (prefix s : string) : bool := String.prefix prefix s.

(** [str.lower] on one character and on a string (ASCII letters; the
    Latin-1 capitals 192..222 but 215 as well). *)
Definition lower_char (c : ascii) : ascii :=
  let n := N_of_ascii c in
  if ((65 <=? n) && (n <=? 90) || (192 <=? n) && (n <=? 222) && negb (n =? 215))%N
  then ascii_of_N (n + 32) else c.

Fixpoint lower (s : string) : string :=
  match s with
  | EmptyString => EmptyString
  | String c rest => String (lower_char c) (lower rest)
  end.

(** *** Python values

    The values the program handles: [None], [int], [str], [float],
    [datetime.date] and time stamps.  A float is carried, passed as a
    parameter, formatted and (by [int]) truncated, never computed with: it
    is modelled by its exact value and its [repr] text. *)
Record float := mkFloat { exact : QArith_base.Q; repr : string }.

Inductive value :=
| PyNone
| PyInt (n : Z)
| PyStr (s : string)
| PyFloat (x : float)
| PyDate (days : Z)          (* days since 1970-01-01 *)
| PyDatetime (secs : Z).     (* seconds since 1970-01-01 00:00:00 *)

(** A [dict] with string keys, in insertion order; also a row of a
    [DataFrame], keyed by column name. *)
Definition dict := list (string * value).

Fixpoint get (d : dict) (key : string) : option value :=
  match d with
  | [] => None
  | (k, v) :: rest => if String.eqb k key then Some v else get rest key
  end.

Inductive exn :=
| TypeError
| ValueError
| KeyError (key : string)
| IndexError
| ConnectorError.          (* mysql.connector.Error and its subclasses *)

(** [x == "text"] for a value [x]: only a [str] can be equal to a [str]. *)
Definition eq_str (x : value) (text : string) : bool :=
  match x with
  | PyStr s => String.eqb s text
  | _ => false
  end.

(** Truth value of [d] in [if d:] where [d] is [None] or a [dict]. *)
Definition truthy (d : option dict) : bool :=
  match d with
  | Some (_ :: _) => true
  | _ => false
  end.

Definition pad_digits (width : nat) (n : Z) : string :=
  let digits := str_of_int n in
  String.append (string_of_list_ascii
                   (repeat "0"%char (width - String.length digits))) digits.

(** Year, month and day of a day number (proleptic Gregorian calendar). *)
Definition civil (days : Z) : Z * Z * Z :=
  let z := days + 719468 in
  let era := z / 146097 in
  let doe := z - era * 146097 in
  let yoe := (doe - doe / 1460 + doe / 36524 - doe / 146096) / 365 in
  let doy := doe - (365 * yoe + yoe / 4 - yoe / 100) in
  let mp := (5 * doy + 2) / 153 in
  let d := doy - (153 * mp + 2) / 5 + 1 in
  let m := if mp <? 10 then mp + 3 else mp - 9 in
  let y := yoe + era * 400 + (if m <=? 2 then 1 else 0) in
  (y, m, d).

Definition iso_date (days : Z) : string :=
  let '(y, m, d) := civil days in
  String.append (pad_digits 4 y)
    (String.append "-" (String.append (pad_digits 2 m)
       (String.append "-" (pad_digits 2 d)))).

Definition iso_time (secs : Z) : string :=
  String.append (pad_digits 2 (secs / 3600))
    (String.append ":" (String.append (pad_digits 2 (secs / 60 mod 60))
       (String.append ":" (pad_digits 2 (secs mod 60))))).

(** [str(x)], which is also what an f-string field [{x}] shows. *)
Definition str (x : value) : string :=
  match x with
  | PyNone => "None"
  | PyInt n => str_of_int n
  | PyStr s => s
  | PyFloat f => repr f
  | PyDate days => iso_date days
  | PyDatetime secs =>
      String.append (iso_date (secs / 86400))
        (String.append " " (iso_time (secs mod 86400)))
  end.

Definition is_digit (c : ascii) : bool :=
  let n := N_of_ascii c in ((48 <=? n) && (n <=? 57))%N.

(** The digits of a decimal literal, where one underscore may separate
    two digits. *)
Fixpoint digits_value (acc : Z) (after_digit : bool) (s : string) : option Z :=
  match s with
  | EmptyString => if after_digit then Some acc else None
  | String c rest =>
      if is_digit c
      then digits_value (10 * acc + Z.of_N (N_of_ascii c - 48)) true rest
      else if Ascii.eqb c "_"%char
           then if after_digit then digits_value acc false rest else None
           else None
  end.

(** [int(s)] of a [str]: white space around, an optional sign, digits. *)
Definition int_of_str (s : string) : option Z :=
  match strip s with
  | String "+"%char rest => digits_value 0 false rest
  | String "-"%char rest => option_map Z.opp (digits_value 0 false rest)
  | body => digits_value 0 false body
  end.

(** [int(x)]: the integer itself, the parsed text, the float truncated
    towards zero; [TypeError] for the values [int] does not accept. *)
Definition int (x : value) : exn + Z :=
  match x with
  | PyInt n => inr n
  | PyStr s => match int_of_str s with Some n => inr n | None => inl ValueError end
  | PyFloat f =>
      inr (Z.quot (QArith_base.Qnum (exact f)) (Z.pos (QArith_base.Qden (exact f))))
  | PyNone | PyDate _ | PyDatetime _ => inl TypeError
  end.

End Py.

(** ** SHA-256, as [hashlib.sha256] computes it (FIPS 180-4) *)

Module Sha256.

Definition word_mask : Z := 4294967295.

(** Arithmetic on 32-bit words wraps around. *)
Definition wrap32 (x : Z) : Z := x mod 4294967296.

Definition rotate_right (n x : Z) : Z :=
  Z.lor (Z.shiftr x n) (wrap32 (Z.shiftl x (32 - n))).

Definition choose (x y z : Z) : Z :=
  Z.lxor (Z.land x y) (Z.land (Z.lxor x word_mask) z).

Definition majority (x y z : Z) : Z :=
  Z.lxor (Z.lxor (Z.land x y) (Z.land x z)) (Z.land y z).

Definition big_sigma0 (x : Z) : Z :=
  Z.lxor (Z.lxor (rotate_right 2 x) (rotate_right 13 x)) (rotate_right 22 x).

Definition big_sigma1 (x : Z) : Z :=
  Z.lxor (Z.lxor (rotate_right 6 x) (rotate_right 11 x)) (rotate_right 25 x).

Definition small_sigma0 (x : Z) : Z :=
  Z.lxor (Z.lxor (rotate_right 7 x) (rotate_right 18 x)) (Z.shiftr x 3).

Definition small_sigma1 (x : Z) : Z :=
  Z.lxor (Z.lxor (rotate_right 17 x) (rotate_right 19 x)) (Z.shiftr x 10).

(** The constants are the leading 32 fraction bits of the square roots
    (initial hash value) and cube roots (round constants) of the first
    primes, which is how the standard defines them. *)
Definition is_prime (n : nat) : bool :=
  forallb (fun d => negb (Nat.eqb (Nat.modulo n d) 0)) (seq 2 (n - 2)).

Definition first_primes : list Z :=
  map Z.of_nat (filter is_prime (seq 2 310)).

(** Largest [r] below [2^bits] with [r^3 <= n], one bit at a time. *)
Fixpoint cube_root_bits (bits : nat) (n r : Z) : Z :=
  match bits with
  | O => r
  | S lower =>
      let candidate := r + 2 ^ Z.of_nat lower in
      cube_root_bits lower n
        (if candidate * candidate * candidate <=? n then candidate else r)
  end.

Definition cube_root_fraction (p : Z) : Z :=
  wrap32 (cube_root_bits 36 (p * 2 ^ 96) 0).

Definition square_root_fraction (p : Z) : Z :=
  wrap32 (Z.sqrt (p * 2 ^ 64)).

Definition round_constants : list Z :=
  Eval vm_compute in map cube_root_fraction first_primes.

Definition initial_hash : list Z :=
  Eval vm_compute in map square_root_fraction (firstn 8 first_primes).

(** Padding: a one bit, zeros up to 56 modulo 64 bytes, then the bit
    length of the message on eight bytes, most significant first. *)
Definition be_bytes (count : nat) (x : Z) : list Z :=
  map (fun i => Z.shiftr x (8 * Z.of_nat (count - 1 - i)) mod 256) (seq 0 count).

Definition pad (message : list Z) : list Z :=
  let n := Z.of_nat (List.length message) in
  let zeros := Z.to_nat ((55 - n) mod 64) in
  message ++ [128] ++ repeat 0 zeros ++ be_bytes 8 (8 * n).

Fixpoint be_words (fuel : nat) (data : list Z) : list Z :=
  match fuel, data with
  | S fuel', b0 :: b1 :: b2 :: b3 :: rest =>
      (b0 * 16777216 + b1 * 65536 + b2 * 256 + b3) :: be_words fuel' rest
  | _, _ => []
  end.

(** The message schedule, latest word first while it is being extended. *)
Fixpoint extend_schedule (steps : nat) (recent : list Z) : list Z :=
  match steps with
  | O => recent
  | S steps' =>
      let w :=
        wrap32 (small_sigma1 (nth 1 recent 0) + nth 6 recent 0
                + small_sigma0 (nth 14 recent 0) + nth 15 recent 0) in
      extend_schedule steps' (w :: recent)
  end.

Definition schedule (block : list Z) : list Z :=
  rev (extend_schedule 48 (rev block)).

Record Regs := mkRegs { ra : Z; rb : Z; rc : Z; rd : Z; re : Z; rf : Z; rg : Z; rh : Z }.

Definition round (s : Regs) (kw : Z * Z) : Regs :=
  let t1 := rh s + big_sigma1 (re s) + choose (re s) (rf s) (rg s) + fst kw + snd kw in
  let t2 := big_sigma0 (ra s) + majority (ra s) (rb s) (rc s) in
  mkRegs (wrap32 (t1 + t2)) (ra s) (rb s) (rc s)
         (wrap32 (rd s + t1)) (re s) (rf s) (rg s).

Definition compress (h : Regs) (block : list Z) : Regs :=
  let s := fold_left round (combine round_constants (schedule block)) h in
  mkRegs (wrap32 (ra h + ra s)) (wrap32 (rb h + rb s)) (wrap32 (rc h + rc s))
         (wrap32 (rd h + rd s)) (wrap32 (re h + re s)) (wrap32 (rf h + rf s))
         (wrap32 (rg h + rg s)) (wrap32 (rh h + rh s)).

Fixpoint absorb (fuel : nat) (h : Regs) (words : list Z) : Regs :=
  match fuel with
  | O => h
  | S fuel' =>
      match words with
      | [] => h
      | _ => absorb fuel' (compress h (firstn 16 words)) (skipn 16 words)
      end
  end.

Definition start : Regs :=
  mkRegs (nth 0 initial_hash 0) (nth 1 initial_hash 0) (nth 2 initial_hash 0)
         (nth 3 initial_hash 0) (nth 4 initial_hash 0) (nth 5 initial_hash 0)
         (nth 6 initial_hash 0) (nth 7 initial_hash 0).

Definition regs_words (h : Regs) : list Z :=
  [ra h; rb h; rc h; rd h; re h; rf h; rg h; rh h].

(** [hashlib.sha256(data).digest()] *)
Definition digest (data : Py.bytes) : Py.bytes :=
  let padded := pad (map (fun b => Z.of_N (Byte.to_N b)) data) in
  let words := be_words (List.length padded) padded in
  let h := absorb (List.length words) start words in
  map (fun x => Py.byte_of_N (Z.to_N x)) (flat_map (be_bytes 4) (regs_words h)).

(** [hashlib.sha256(data).hexdigest()] *)
Definition hexdigest (data : Py.bytes) : string := Py.hexlify (digest data).

End Sha256.


(** ** The MySQL server behind [mysql.connector]

    Only the two tables the program owns, [app_users] and [audit_log],
    and the catalog view [information_schema.parameters] are modelled
    row by row, from the [CREATE TABLE] statements of [Hand.py].  The
    business tables (items, inventory, sales, ...) are created elsewhere:
    they are represented by the ledger of the statements and routine
    calls committed against them. *)

Module MySQL.

(** [app_users]: every column but the key is nullable. *)
Record AppUser := mkAppUser {
  app_user_id : Z;                    (* INT PRIMARY KEY AUTO_INCREMENT *)
  username : option string;           (* VARCHAR(100) UNIQUE *)
  role : option string;               (* VARCHAR(50) *)
  password_hash : option string;      (* VARCHAR(128) *)
  salt : option string;               (* VARCHAR(64) *)
  created_at : Z                      (* TIMESTAMP DEFAULT CURRENT_TIMESTAMP *)
}.

(** [audit_log] *)
Record AuditRow := mkAuditRow {
  audit_id : Z;                       (* INT PRIMARY KEY AUTO_INCREMENT *)
  audit_app_user_id : option Z;       (* app_user_id INT *)
  audit_username : option string;     (* username VARCHAR(100) *)
  action : option string;             (* VARCHAR(100) *)
  table_name : option string;         (* VARCHAR(100) *)
  row_id : option string;             (* VARCHAR(100) *)
  details : option string;            (* TEXT *)
  audit_created_at : Z                (* created_at TIMESTAMP DEFAULT CURRENT_TIMESTAMP *)
}.

(** One row of [information_schema.parameters]; the mode is NULL for the
    return value of a function. *)
Record RoutineParameter := mkRoutineParameter {
  specific_schema : string;
  specific_name : string;
  parameter_mode : option string
}.

(** Work done on the business tables. *)
Inductive Entry :=
| Executed (text : string) (params : list Py.value)
| Called (routine : string) (params : list Py.value).

Record Server := mkServer {
  collation : string -> string -> bool;   (* how the server compares text *)
  app_users : list AppUser;               (* in insertion order *)
  next_app_user_id : Z;
  audit_log : list AuditRow;              (* in insertion order *)
  next_audit_id : Z;
  parameters : list RoutineParameter;
  commits_itself : string -> bool;        (* routines whose body commits *)
  ledger : list Entry;                    (* committed business work *)
  listed_first : Z -> Z -> bool           (* ORDER BY: among rows with equal sort
                                             keys, is the row with the first id
                                             listed before the other one? *)
}.

Definition with_app_users (rows : list AppUser) (next : Z) (s : Server) : Server :=
  mkServer (collation s) rows next (audit_log s) (next_audit_id s)
           (parameters s) (commits_itself s) (ledger s) (listed_first s).

Definition with_audit_log (rows : list AuditRow) (next : Z) (s : Server) : Server :=
  mkServer (collation s) (app_users s) (next_app_user_id s) rows next
           (parameters s) (commits_itself s) (ledger s) (listed_first s).

Definition with_ledger (entries : list Entry) (s : Server) : Server :=
  mkServer (collation s) (app_users s) (next_app_user_id s) (audit_log s)
           (next_audit_id s) (parameters s) (commits_itself s) entries (listed_first s).

(** The statements [run_modification] is called with. *)
Inductive Statement :=
| CreateTableIfNotExists (table : string)
    (* CREATE TABLE IF NOT EXISTS app_users / Purchase_Orders / audit_log *)
| InsertAppUser (username role password_hash salt : string)
    (* INSERT INTO app_users (username, role, password_hash, salt)
       VALUES (%s,%s,%s,%s) *)
| InsertAuditLog (app_user_id : option Z) (username : Py.value)
                 (action table_name row_id details : string)
    (* INSERT INTO audit_log (app_user_id, username, action, table_name,
       row_id, details) VALUES (%s,%s,%s,%s,%s,%s) *)
| Modify (text : string) (params : list Py.value).
    (* any statement on the business tables *)

(** The queries [run_query] is called with. *)
Inductive Query :=
| SelectAppUserByUsername (username : string)
    (* SELECT * FROM app_users WHERE username = %s *)
| CountRoutineParameters (schema routine : string)
    (* SELECT COUNT( * ) AS cnt FROM information_schema.parameters
       WHERE specific_schema = %s AND specific_name = %s
         AND parameter_mode IN ('IN','INOUT') *)
| SelectAuditLog
    (* SELECT * FROM audit_log ORDER BY created_at DESC LIMIT 500 *)
| SelectAppUsers
    (* SELECT app_user_id, username, role, created_at FROM app_users
       ORDER BY created_at DESC *)
| Select (text : string) (params : list Py.value).
    (* any other text handed to [run_query]: the queries on the business
       tables, and what the user types into the SQL Runner *)

Inductive Error :=
| DuplicateEntry (key : string)   (* error 1062: a UNIQUE index rejects the row *)
| ServerError                     (* any other error raised by the driver *)
| ConnectionError.                (* [mysql.connector.connect] failed *)

(** [column = text] in a WHERE clause or a UNIQUE index: NULL equals
    nothing. *)
Definition same_text (s : Server) (column : option string) (text : string) : bool :=
  match column with
  | Some c => collation s c text
  | None => false
  end.

(** A parameter bound to a text column: [None] becomes NULL, a string is
    stored as it is, another value as its text. *)
Definition text_cell (x : Py.value) : option string :=
  match x with
  | Py.PyNone => None
  | other => Some (Py.str other)
  end.

(** The statement is executed at time [now].  The result is the error
    the server raises, or the tables after the statement together with
    the business work it has done and that awaits the commit. *)
Definition execute (q : Statement) (now : Z) (s : Server)
  : Error + (Server * list Entry) :=
  match q with
  | CreateTableIfNotExists _ => inr (s, [])
  | InsertAppUser u r h salt_text =>
      if existsb (fun row => same_text s (username row) u) (app_users s)
      then inl (DuplicateEntry u)
      else
        let row := mkAppUser (next_app_user_id s) (Some u) (Some r) (Some h)
                             (Some salt_text) now in
        inr (with_app_users (app_users s ++ [row]) (next_app_user_id s + 1) s, [])
  | InsertAuditLog uid u a t r d =>
      let row := mkAuditRow (next_audit_id s) uid (text_cell u) (Some a)
                            (Some t) (Some r) (Some d) now in
      inr (with_audit_log (audit_log s ++ [row]) (next_audit_id s + 1) s, [])
  | Modify text params => inr (s, [Executed text params])
  end.

(** COMMIT makes the work of the open transaction durable. *)
Definition commit (work : list Entry) (s : Server) : Server :=
  with_ledger (ledger s ++ work) s.

(** *** Result sets *)

Definition Frame := list Py.dict.

Definition cell (column : option string) : Py.value :=
  match column with
  | Some text => Py.PyStr text
  | None => Py.PyNone
  end.

Definition int_cell (column : option Z) : Py.value :=
  match column with
  | Some n => Py.PyInt n
  | None => Py.PyNone
  end.

(** A row of [SELECT * FROM app_users]: all six columns. *)
Definition app_user_row (u : AppUser) : Py.dict :=
  [ ("app_user_id", Py.PyInt (app_user_id u));
    ("username", cell (username u));
    ("role", cell (role u));
    ("password_hash", cell (password_hash u));
    ("salt", cell (salt u));
    ("created_at", Py.PyDatetime (created_at u)) ].

(** A row of [SELECT app_user_id, username, role, created_at FROM app_users]. *)
Definition app_user_listing_row (u : AppUser) : Py.dict :=
  [ ("app_user_id", Py.PyInt (app_user_id u));
    ("username", cell (username u));
    ("role", cell (role u));
    ("created_at", Py.PyDatetime (created_at u)) ].

Definition audit_row (a : AuditRow) : Py.dict :=
  [ ("audit_id", Py.PyInt (audit_id a));
    ("app_user_id", int_cell (audit_app_user_id a));
    ("username", cell (audit_username a));
    ("action", cell (action a));
    ("table_name", cell (table_name a));
    ("row_id", cell (row_id a));
    ("details", cell (details a));
    ("created_at", Py.PyDatetime (audit_created_at a)) ].

(** ORDER BY: the rows by increasing key.  The server leaves the order
    of rows with equal keys open: [before x y] tells whether it lists [x]
    before [y] when their keys are equal.  The rows are inserted one by
    one, each before the first row that has a greater key or that it is
    to be listed before. *)
Fixpoint insert_by {A : Type} (key : A -> Z) (before : A -> A -> bool) (x : A)
    (sorted : list A) : list A :=
  match sorted with
  | [] => [x]
  | y :: rest =>
      if (key x <? key y) || ((key x =? key y) && before x y)
      then x :: sorted
      else y :: insert_by key before x rest
  end.

Definition order_by {A : Type} (key : A -> Z) (before : A -> A -> bool)
    (rows : list A) : list A :=
  fold_left (fun sorted x => insert_by key before x sorted) rows [].

(** ORDER BY ... DESC *)
Definition order_by_desc {A : Type} (key : A -> Z) (before : A -> A -> bool)
    (rows : list A) : list A :=
  rev (order_by key before rows).

(** The tie-break of the server on the two tables, by primary key. *)
Definition audit_before (s : Server) (x y : AuditRow) : bool :=
  listed_first s (audit_id x) (audit_id y).

Definition user_before (s : Server) (x y : AppUser) : bool :=
  listed_first s (app_user_id x) (app_user_id y).

Definition counted_mode (p : RoutineParameter) : bool :=
  match parameter_mode p with
  | Some mode => String.eqb mode "IN" || String.eqb mode "INOUT"
  | None => false
  end.

(** The catalog rows the counting query selects. *)
Definition input_parameters (s : Server) (schema routine : string) : list RoutineParameter :=
  filter (fun p => collation s (specific_schema p) schema
                   && collation s (specific_name p) routine
                   && counted_mode p)
         (parameters s).

(** A text may hold several statements, separated by semicolons; the
    driver sends the whole text and the server runs every statement of
    it.  [single_statement] tells that nothing but white space follows
    the first semicolon of the text, if it has one.  A single statement
    handed to [run_query] or to [call_function_sql_scalar] is taken to
    read only. *)
Fixpoint single_statement (text : string) : bool :=
  match text with
  | EmptyString => true
  | String c rest =>
      if Ascii.eqb c ";" then Py.all_chars Py.isspace rest else single_statement rest
  end.

(** The text of a query, as far as it is not fixed by the program. *)
Definition plain (q : Query) : bool :=
  match q with
  | Select text _ => single_statement text
  | _ => true
  end.

(** The rows a query returns.  [results] is what the server answers for
    the business tables; a query on them returns its first result set. *)
Definition result_set (q : Query) (results : list Frame) (s : Server) : Frame :=
  match q with
  | SelectAppUserByUsername u =>
      map app_user_row (filter (fun row => same_text s (username row) u) (app_users s))
  | CountRoutineParameters schema routine =>
      [[("cnt", Py.PyInt (Z.of_nat (List.length (input_parameters s schema routine))))]]
  | SelectAuditLog =>
      map audit_row
          (firstn 500 (order_by_desc audit_created_at (audit_before s) (audit_log s)))
  | SelectAppUsers =>
      map app_user_listing_row (order_by_desc created_at (user_before s) (app_users s))
  | Select _ _ => hd [] results
  end.

End MySQL.

(** ** The world a script run acts on *)

(** What happens to one database round trip.  [get_db_conn] hands out the
    cached connection, or [None] when connecting has failed ([attempted]
    tells whether the attempt is made now, and its error shown, or a
    cached [None] is returned); on a connection the statement runs and
    the server answers, or the driver raises while it executes ([Fails],
    inside the [try] of the helpers); or the cached connection is no
    longer connected and [cnx.cursor()], which the helpers call before
    their [try], raises ([Lost]). *)
Inductive Reply :=
| Answers (results : list MySQL.Frame)
| NoConnection (attempted : bool)
| Fails
| Lost.

(** What the user is shown: [st.error], [st.success], [st.warning],
    [st.info], and [print] in the command-line script.  A message that
    formats an exception keeps the exception. *)
Inductive Shown :=
| st_error (text : string)
| st_error_with (prefix : string) (e : MySQL.Error)
| st_success (text : string)
| st_warning (text : string)
| st_info (text : string)
| st_write (text : string)
| st_dataframe (df : MySQL.Frame)
| printed (text : string)
| printed_with (prefix : string) (e : MySQL.Error).

Record World := mkWorld {
  server : MySQL.Server;
  pending : list MySQL.Entry;     (* open transaction of the cached connection *)
  replies : list Reply;           (* the round trips to come, next one first *)
  urandom : nat -> byte;          (* the bytes [os.urandom] will deliver *)
  drawn : nat;                    (* how many of them have been delivered *)
  now : Z;                        (* the clock, in seconds *)
  database : string;              (* DB_CONFIG['database'] *)
  app_user : option Py.dict;      (* st.session_state["app_user"] *)
  screen : list Shown;            (* oldest message first *)
  sql : string -> MySQL.Server * list MySQL.Entry -> MySQL.Server * list MySQL.Entry
                                  (* what a text that holds further statements
                                     (UPDATE, DELETE, COMMIT, ...) makes of the
                                     server and of the open transaction: SQL is
                                     not interpreted here *)
}.

Definition with_server (s : MySQL.Server) (w : World) : World :=
  mkWorld s (pending w) (replies w) (urandom w) (drawn w) (now w)
          (database w) (app_user w) (screen w) (sql w).

Definition with_pending (p : list MySQL.Entry) (w : World) : World :=
  mkWorld (server w) p (replies w) (urandom w) (drawn w) (now w)
          (database w) (app_user w) (screen w) (sql w).

Definition with_replies (r : list Reply) (w : World) : World :=
  mkWorld (server w) (pending w) r (urandom w) (drawn w) (now w)
          (database w) (app_user w) (screen w) (sql w).

Definition with_drawn (n : nat) (w : World) : World :=
  mkWorld (server w) (pending w) (replies w) (urandom w) n (now w)
          (database w) (app_user w) (screen w) (sql w).

Definition with_now (t : Z) (w : World) : World :=
  mkWorld (server w) (pending w) (replies w) (urandom w) (drawn w) t
          (database w) (app_user w) (screen w) (sql w).

Definition with_app_user (u : option Py.dict) (w : World) : World :=
  mkWorld (server w) (pending w) (replies w) (urandom w) (drawn w) (now w)
          (database w) u (screen w) (sql w).

Definition with_screen (s : list Shown) (w : World) : World :=
  mkWorld (server w) (pending w) (replies w) (urandom w) (drawn w) (now w)
          (database w) (app_user w) s (sql w).

(** A piece of script returns a value, asks for a rerun ([st.rerun()]
    stops the run) or raises. *)
Inductive Outcome (A : Type) :=
| Returns (a : A)
| Reruns
| Raises (e : Py.exn).

Arguments Returns {A} a.
Arguments Reruns {A}.
Arguments Raises {A} e.

Definition Script (A : Type) : Type := World -> Outcome A * World.

Definition ret {A : Type} (a : A) : Script A := fun w => (Returns a, w).

Definition bind {A B : Type} (m : Script A) (k : A -> Script B) : Script B :=
  fun w =>
    match m w with
    | (Returns a, w') => k a w'
    | (Reruns, w') => (Reruns, w')
    | (Raises e, w') => (Raises e, w')
    end.

Definition raise {A : Type} (e : Py.exn) : Script A := fun w => (Raises e, w).

(** [try: m except: handler] with a bare [except], which catches the
    exceptions raised by [m]. *)
Definition try_except {A : Type} (m : Script A) (handler : Script A) : Script A :=
  fun w =>
    match m w with
    | (Raises _, w') => handler w'
    | other => other
    end.

Declare Scope script_scope.
Delimit Scope script_scope with script.
Notation "x <- m ;; k" := (bind m (fun x => k))
  (at level 61, m at next level, right associativity) : script_scope.
Notation "m ;; k" := (bind m (fun _ => k))
  (at level 61, right associativity) : script_scope.
Open Scope script_scope.

Definition world : Script World := fun w => (Returns w, w).

Definition update (f : World -> World) : Script unit := fun w => (Returns tt, f w).

Definition show (m : Shown) : Script unit :=
  update (fun w => with_screen (screen w ++ [m]) w).

(** The next round trip; when the list is exhausted the server answers
    with no result set. *)
Definition next_reply : Script Reply :=
  fun w =>
    match replies w with
    | [] => (Returns (Answers []), w)
    | r :: rest => (Returns r, with_replies rest w)
    end.

(** [cur.execute(text)]: besides what the first statement of the text
    returns, the server runs the statements that follow it. *)
Definition runs_further (text : string) : Script unit :=
  if MySQL.single_statement text then ret tt
  else update (fun w =>
                 let after := sql w text (server w, pending w) in
                 with_pending (snd after) (with_server (fst after) w)).

(** [os.urandom(n)] always delivers [n] bytes. *)
Definition os_urandom (n : nat) : Script Py.bytes :=
  fun w =>
    (Returns (map (fun i => urandom w (drawn w + i)%nat) (seq 0 n)),
     with_drawn (drawn w + n)%nat w).

(** [st.rerun()] *)
Definition st_rerun {A : Type} : Script A := fun w => (Reruns, w).

(** [d[key]] *)
Definition getitem (d : Py.dict) (key : string) : Script Py.value :=
  match Py.get d key with
  | Some v => ret v
  | None => raise (Py.KeyError key)
  end.

(** [row.get(key)]: [None] when the key is missing. *)
Definition row_get (row : Py.dict) (key : string) : Py.value :=
  match Py.get row key with
  | Some v => v
  | None => Py.PyNone
  end.

(** [int(x)] in a script. *)
Definition int_ (x : Py.value) : Script Z :=
  match Py.int x with
  | inr n => ret n
  | inl e => raise e
  end.

(** An f-string: its pieces, joined. *)
Definition fstring (pieces : list string) : string := String.concat "" pieces.

(** [cnx.rollback()] and [cnx.commit()] on the cached connection. *)
Definition rollback : Script unit := update (with_pending []).

Definition commit_with (s : MySQL.Server) (work : list MySQL.Entry) : Script unit :=
  update (fun w => with_pending [] (with_server (MySQL.commit (pending w ++ work) s) w)).

(** ** [Hand.py] *)

Module Hand.

Import MySQL.

(** *** DB helpers *)

(** [get_db_conn()]: the connection is described by what the round trip
    made on it will meet. *)
Definition get_db_conn : Script Reply :=
  cnx <- next_reply ;;
  match cnx with
  | NoConnection true =>
      show (st_error_with "DB connection error: " ConnectionError) ;; ret cnx
  | _ => ret cnx
  end.

(** [cur.execute(query)] in [run_query]: the queries the program writes
    out for its own tables are single statements; another text is run
    as it is. *)
Definition further_statements (query : Query) : Script unit :=
  match query with
  | Select text _ => runs_further text
  | _ => ret tt
  end.

(** [run_query(query, params)]: the rows, or an empty frame when there
    is no connection or the query raises.  [cnx.cursor()] stands before
    the [try]: on a lost connection its error leaves the function. *)
Definition run_query (query : Query) : Script Frame :=
  cnx <- get_db_conn ;;
  match cnx with
  | NoConnection _ => ret []
  | Lost => raise Py.ConnectorError
  | Fails =>
      further_statements query ;;
      show (st_error_with "Query error: " ServerError) ;; ret []
  | Answers results =>
      further_statements query ;;
      w <- world ;; ret (result_set query results (server w))
  end.

(** [run_modification(query, params)]: execute and commit, or show the
    error, roll back and return [False].  [cnx.cursor()] stands before
    the [try]. *)
Definition run_modification (query : Statement) : Script bool :=
  cnx <- get_db_conn ;;
  match cnx with
  | NoConnection _ => show (st_error "No DB connection.") ;; ret false
  | Lost => raise Py.ConnectorError
  | Fails =>
      show (st_error_with "Execution error: " ServerError) ;;
      rollback ;; ret false
  | Answers _ =>
      w <- world ;;
      match execute query (now w) (server w) with
      | inr (s, work) => commit_with s work ;; ret true
      | inl e =>
          show (st_error_with "Execution error: " e) ;;
          rollback ;; ret false
      end
  end.

(** [cur.callproc]: the routine's work joins the open transaction,
    unless the routine commits by itself. *)
Definition callproc (proc_name : string) (params : list Py.value) : Script unit :=
  w <- world ;;
  if commits_itself (server w) proc_name
  then commit_with (server w) [Called proc_name params]
  else update (with_pending (pending w ++ [Called proc_name params])).

(** [call_proc(proc_name, params)]: the result sets, or [None].  There
    is no commit and no rollback here, and [cnx.cursor()] stands before
    the [try]. *)
Definition call_proc (proc_name : string) (params : list Py.value)
  : Script (option (list Frame)) :=
  cnx <- get_db_conn ;;
  match cnx with
  | NoConnection _ => show (st_error "No DB connection.") ;; ret None
  | Lost => raise Py.ConnectorError
  | Fails => show (st_error_with "Stored procedure error: " ServerError) ;; ret None
  | Answers results => callproc proc_name params ;; ret (Some results)
  end.

(** [call_function_sql_scalar(func_sql, params)]: the first column of
    the first row, or [None]; [cnx.cursor()] stands before the [try]. *)
Definition call_function_sql_scalar (func_sql : string) (params : list Py.value)
  : Script Py.value :=
  cnx <- get_db_conn ;;
  match cnx with
  | NoConnection _ => show (st_error "No DB connection.") ;; ret Py.PyNone
  | Lost => raise Py.ConnectorError
  | Fails =>
      runs_further func_sql ;;
      show (st_error_with "Function call error: " ServerError) ;; ret Py.PyNone
  | Answers results =>
      runs_further func_sql ;;
      match hd [] results with
      | ((_, v) :: _) :: _ => ret v
      | _ => ret Py.PyNone
      end
  end.

(** [get_proc_param_count(proc_name)] *)
Definition get_proc_param_count (proc_name : string) : Script (option Z) :=
  w <- world ;;
  df <- run_query (CountRoutineParameters (database w) proc_name) ;;
  match df with
  | [] => ret None
  | first :: _ =>
      try_except
        (cnt <- getitem first "cnt" ;; n <- int_ cnt ;; ret (Some n))
        (ret None)
  end.

(** [column_exists(table_name, column_name)]: the count query on
    [information_schema.columns]; there is no [try] around [int]. *)
Definition column_exists (table_name column_name : string) : Script bool :=
  w <- world ;;
  df <- run_query
          (Select "SELECT COUNT( * ) cnt FROM information_schema.columns WHERE table_schema = %s AND table_name = %s AND column_name = %s"
                  [Py.PyStr (database w); Py.PyStr table_name; Py.PyStr column_name]) ;;
  match df with
  | [] => ret false
  | first :: _ =>
      cnt <- getitem first "cnt" ;; n <- int_ cnt ;; ret (0 <? n)
  end.

(** *** support tables creation *)

Definition ensure_app_users_table : Script unit :=
  run_modification (CreateTableIfNotExists "app_users") ;; ret tt.

Definition ensure_purchase_orders_table : Script unit :=
  run_modification (CreateTableIfNotExists "Purchase_Orders") ;; ret tt.

Definition ensure_audit_log_table : Script unit :=
  run_modification (CreateTableIfNotExists "audit_log") ;; ret tt.

(** *** security: password hashing *)

Definition make_salt : Script string :=
  random <- os_urandom 16 ;; ret (Py.hexlify random).

Definition hash_password (password salt : string) : string :=
  Sha256.hexdigest (Py.encode (String.append salt password)).

Definition create_app_user (username role password : string) : Script bool :=
  salt <- make_salt ;;
  let phash := hash_password password salt in
  run_modification (InsertAppUser username role phash salt).

Definition authenticate_user (username password : string)
  : Script (option Py.dict) :=
  df <- run_query (SelectAppUserByUsername username) ;;
  match df with
  | [] => ret None
  | row :: _ =>
      let salt := row_get row "salt" in
      let stored := row_get row "password_hash" in
      match salt, stored with
      | Py.PyNone, _ => ret None
      | _, Py.PyNone => ret None
      | Py.PyStr salt_text, _ =>
          if Py.eq_str stored (hash_password password salt_text)
          then ret (Some row)              (* row.to_dict() *)
          else ret None
      | _, _ => raise Py.TypeError         (* salt + password *)
      end
  end.

(** *** audit logging *)

Definition audit_log (app_user_id : option Z) (username : Py.value)
    (action table_name : string) (row_id : Py.value) (details : string)
  : Script unit :=
  run_modification
    (InsertAuditLog app_user_id username action table_name (Py.str row_id) details) ;;
  ret tt.

(** *** session & login *)

Definition login_user (username password : string) : Script bool :=
  user <- authenticate_user username password ;;
  match user with
  | Some ((_ :: _) as d) =>
      update (with_app_user user) ;;
      role <- getitem d "role" ;;
      show (st_success (fstring ["Logged in as "; username; " ("; Py.str role; ")"])) ;;
      ret true
  | _ =>
      show (st_error "Invalid username or password") ;;
      ret false
  end.

Definition logout : Script unit := update (with_app_user None).

Definition current_role : Script Py.value :=
  w <- world ;;
  match app_user w with
  | Some ((_ :: _) as user) => getitem user "role"
  | _ => ret Py.PyNone
  end.

Definition current_user_id : Script (option Z) :=
  w <- world ;;
  match app_user w with
  | Some ((_ :: _) as user) =>
      id <- getitem user "app_user_id" ;; n <- int_ id ;; ret (Some n)
  | _ => ret None
  end.

(** [st.session_state['app_user']['username']] *)
Definition session_username : Script Py.value :=
  w <- world ;;
  match app_user w with
  | Some user => getitem user "username"
  | None => raise Py.TypeError
  end.

(** The call every audited handler ends with:
    [audit_log(current_user_id(), st.session_state['app_user']['username'],
    action, table, row_id, details)] followed by [st.rerun()]. *)
Definition record_and_rerun (action table_name : string) (row_id : Py.value)
    (details : string) : Script unit :=
  uid <- current_user_id ;;
  uname <- session_username ;;
  audit_log uid uname action table_name row_id details ;;
  st_rerun.

(** [role in (a, b)] *)
Definition role_in (role : Py.value) (allowed : list string) : bool :=
  existsb (Py.eq_str role) allowed.

(** *** The pages

    One run of the script serves one action of the user.  The values the
    user has entered or selected are the arguments of the handler; the
    queries that only fill a page's tables and select boxes are not
    repeated here. *)

(** Items *)
Definition create_item (name size color : string) (price : Py.float)
    (collection_id : Py.value) : Script unit :=
  role <- current_role ;;
  if Py.eq_str role "admin" then
    ok <- run_modification
            (Modify "INSERT INTO Clothing_Items (name, size, color, price, collection_id) VALUES (%s,%s,%s,%s,%s)"
                    [Py.PyStr name; Py.PyStr size; Py.PyStr color; Py.PyFloat price;
                     collection_id]) ;;
    if ok then
      show (st_success "Item created.") ;;
      record_and_rerun "CREATE_ITEM" "Clothing_Items" (Py.PyStr "") (fstring [name])
    else ret tt
  else ret tt.

Definition update_item (sel : Py.value) (new_name : string) (new_price : Py.float)
  : Script unit :=
  role <- current_role ;;
  if role_in role ["admin"; "manager"] then
    ok <- run_modification
            (Modify "UPDATE Clothing_Items SET name=%s, price=%s WHERE item_id=%s"
                    [Py.PyStr new_name; Py.PyFloat new_price; sel]) ;;
    if ok then
      show (st_success "Updated.") ;;
      record_and_rerun "UPDATE_ITEM" "Clothing_Items" sel
        (fstring ["name->"; new_name; ",price->"; Py.str (Py.PyFloat new_price)])
    else ret tt
  else ret tt.

Definition delete_item (to_del : Py.value) : Script unit :=
  role <- current_role ;;
  if Py.eq_str role "admin" then
    ok <- run_modification
            (Modify "DELETE FROM Clothing_Items WHERE item_id=%s" [to_del]) ;;
    if ok then
      show (st_success "Deleted.") ;;
      record_and_rerun "DELETE_ITEM" "Clothing_Items" to_del "deleted"
    else ret tt
  else ret tt.

(** Inventory *)
Definition apply_stock_change (chosen_inv : Py.value) (delta : Z) : Script unit :=
  ok <- run_modification
          (Modify "UPDATE Inventory SET quantity_in_stock = quantity_in_stock + %s WHERE inventory_id = %s"
                  [Py.PyInt delta; chosen_inv]) ;;
  if ok then
    show (st_success "Inventory updated.") ;;
    record_and_rerun "UPDATE_INVENTORY" "Inventory" chosen_inv
      (fstring ["delta="; Py.str (Py.PyInt delta)])
  else ret tt.

Definition zero_inventory (chosen_inv : Py.value) : Script unit :=
  role <- current_role ;;
  if Py.eq_str role "admin" then
    ok <- run_modification
            (Modify "UPDATE Inventory SET quantity_in_stock = 0 WHERE inventory_id = %s"
                    [chosen_inv]) ;;
    if ok then
      show (st_success "Inventory quantity set to 0.") ;;
      record_and_rerun "ZERO_INVENTORY" "Inventory" chosen_inv "set to 0"
    else ret tt
  else ret tt.

Definition delete_inventory (chosen_inv : Py.value) : Script unit :=
  role <- current_role ;;
  if Py.eq_str role "admin" then
    ok <- run_modification
            (Modify "DELETE FROM Inventory WHERE inventory_id = %s" [chosen_inv]) ;;
    if ok then
      show (st_success "Inventory row deleted.") ;;
      record_and_rerun "DELETE_INVENTORY" "Inventory" chosen_inv "deleted"
    else ret tt
  else ret tt.

(** Sales: the parameters of the ProcessSale call, chosen from the
    probed parameter count. *)
Definition sale_params (cnt : option Z) (sel_item sel_store : Py.value) (qty : Z)
    (payment : string) : Script (list Py.value) :=
  match cnt with
  | None =>
      show (st_warning "Could not determine ProcessSale parameter count; attempting 4-arg call.") ;;
      ret [sel_item; sel_store; Py.PyInt qty; Py.PyStr payment]
  | Some n =>
      if n >=? 5 then
        (* assume signature: (p_sale_date, p_store_id, p_item_id, p_quantity, p_payment) *)
        w <- world ;;
        let sale_date := Py.PyDate (now w / 86400) in
        ret [sale_date; sel_store; sel_item; Py.PyInt qty; Py.PyStr payment]
      else
        (* assume signature: (p_item_id, p_store_id, p_quantity, p_payment) *)
        ret [sel_item; sel_store; Py.PyInt qty; Py.PyStr payment]
  end.

Definition proc_sale (sel_item sel_store : Py.value) (qty : Z) (payment : string)
  : Script unit :=
  cnt <- get_proc_param_count "ProcessSale" ;;
  params <- sale_params cnt sel_item sel_store qty payment ;;
  res <- call_proc "ProcessSale" params ;;
  match res with
  | Some _ =>
      show (st_success "ProcessSale invoked. Check Sales and Inventory.") ;;
      record_and_rerun "PROCESS_SALE" "Sales" (Py.PyStr "")
        (fstring ["item="; Py.str sel_item; ",store="; Py.str sel_store;
                  ",qty="; Py.str (Py.PyInt qty)])
  | None => ret tt
  end.

(** Purchase Orders *)
Definition q_supplier : string :=
  "SELECT f.supplier_id, s.name AS supplier_name, MIN(f.cost_per_meter) AS min_cost FROM Clothing_Item_Fabrics cif JOIN Fabrics f ON cif.fabric_id = f.fabric_id JOIN Suppliers s ON f.supplier_id = s.supplier_id WHERE cif.item_id = %s GROUP BY f.supplier_id, s.name ORDER BY min_cost ASC LIMIT 1".

Definition auto_create_po (sel_alert item_id : Py.value) : Script unit :=
  sup_df <- run_query (Select q_supplier [item_id]) ;;
  match sup_df with
  | [] =>
      show (st_error "No supplier found for this item (no fabrics mapped). Create fabric mappings first.")
  | sup_row :: _ =>
      sup <- getitem sup_row "supplier_id" ;;
      supplier_id <- int_ sup ;;
      inv_row <- run_query
                   (Select "SELECT inventory_id, quantity_in_stock, reorder_level FROM Inventory WHERE item_id = %s"
                           [item_id]) ;;
      qty_order <- match inv_row with
                   | [] => ret 10
                   | inv :: _ =>
                       level <- getitem inv "reorder_level" ;;
                       rq <- int_ level ;;
                       ret (Z.max 10 (rq * 2))
                   end ;;
      w <- world ;;
      let expected_delivery := Py.PyDate ((now w + 7 * 86400) / 86400) in
      ok <- run_modification
              (Modify "INSERT INTO Purchase_Orders (item_id, supplier_id, quantity_ordered, expected_delivery, notes) VALUES (%s,%s,%s,%s,%s)"
                      [item_id; Py.PyInt supplier_id; Py.PyInt qty_order; expected_delivery;
                       Py.PyStr (fstring ["Auto PO from alert "; Py.str sel_alert])]) ;;
      if ok then
        show (st_success (fstring ["Purchase Order created: item "; Py.str item_id;
                                   ", supplier "; Py.str (Py.PyInt supplier_id);
                                   ", qty "; Py.str (Py.PyInt qty_order)])) ;;
        po_df <- run_query
                   (Select "SELECT po_id FROM Purchase_Orders ORDER BY created_at DESC LIMIT 1" []) ;;
        match po_df with
        | [] => ret tt
        | po_row :: _ =>
            po <- getitem po_row "po_id" ;;
            po_id <- int_ po ;;
            run_modification
              (Modify "UPDATE Inventory_Alerts SET message = CONCAT(message, ' | PO_CREATED:', %s) WHERE alert_id = %s"
                      [Py.PyStr (Py.str (Py.PyInt po_id)); sel_alert]) ;;
            record_and_rerun "CREATE_PO" "Purchase_Orders" (Py.PyInt po_id)
              (fstring ["from alert "; Py.str sel_alert; ", qty="; Py.str (Py.PyInt qty_order);
                        ", supplier="; Py.str (Py.PyInt supplier_id)])
        end
      else ret tt
  end.

(** Suppliers & Fabrics *)
Definition add_supplier (name email phone addr : string) : Script unit :=
  role <- current_role ;;
  if role_in role ["admin"; "procurement"] then
    ok <- run_modification
            (Modify "INSERT INTO Suppliers (name, email, phone, address) VALUES (%s,%s,%s,%s)"
                    [Py.PyStr name; Py.PyStr email; Py.PyStr phone; Py.PyStr addr]) ;;
    if ok then
      show (st_success "Supplier added.") ;;
      record_and_rerun "CREATE_SUPPLIER" "Suppliers" (Py.PyStr "") (fstring [name])
    else ret tt
  else ret tt.

Definition add_fabric (mat : string) (supplied : Py.value) (cost : Py.float)
  : Script unit :=
  role <- current_role ;;
  if role_in role ["admin"; "procurement"] then
    match supplied with
    | Py.PyNone => show (st_error "Select a supplier.")
    | _ =>
        ok <- run_modification
                (Modify "INSERT INTO Fabrics (material, supplier_id, cost_per_meter) VALUES (%s,%s,%s)"
                        [Py.PyStr mat; supplied; Py.PyFloat cost]) ;;
        if ok then
          show (st_success "Fabric added.") ;;
          record_and_rerun "CREATE_FABRIC" "Fabrics" (Py.PyStr "") (fstring [mat])
        else ret tt
    end
  else ret tt.

(** Collections & Designers *)
Definition add_designer (name email phone style : string) : Script unit :=
  role <- current_role ;;
  if Py.eq_str role "admin" then
    ok <- run_modification
            (Modify "INSERT INTO Designers (name, email, phone, style) VALUES (%s,%s,%s,%s)"
                    [Py.PyStr name; Py.PyStr email; Py.PyStr phone; Py.PyStr style]) ;;
    if ok then
      show (st_success "Designer added.") ;;
      record_and_rerun "CREATE_DESIGNER" "Designers" (Py.PyStr "") (fstring [name])
    else ret tt
  else ret tt.

Definition add_collection (colname season : string) (year : Z)
    (designer_choice : Py.value) : Script unit :=
  role <- current_role ;;
  if role_in role ["admin"; "manager"] then
    match designer_choice with
    | Py.PyNone => show (st_error "You must select a designer.")
    | _ =>
        ok <- run_modification
                (Modify "INSERT INTO Collections (name, season, year, designer_id) VALUES (%s,%s,%s,%s)"
                        [Py.PyStr colname; Py.PyStr season; Py.PyInt year; designer_choice]) ;;
        if ok then
          show (st_success "Collection added.") ;;
          record_and_rerun "CREATE_COLLECTION" "Collections" (Py.PyStr "") (fstring [colname])
        else ret tt
    end
  else ret tt.

(** Alerts & Triggers *)
Definition simulate_reorder_trigger (choose : Py.value) (new_qty : Z) : Script unit :=
  ok <- run_modification
          (Modify "UPDATE Inventory SET quantity_in_stock = %s WHERE inventory_id = %s"
                  [Py.PyInt new_qty; choose]) ;;
  if ok then
    show (st_success "Inventory updated. Trigger will insert alert if condition met.") ;;
    record_and_rerun "SIMULATE_REORDER_TRIGGER" "Inventory" choose
      (fstring ["set_qty="; Py.str (Py.PyInt new_qty)])
  else ret tt.

(** Procedures & Functions *)
Definition compute_scalar (func_sql : string) (selected : Py.value) : Script unit :=
  val <- call_function_sql_scalar func_sql [selected] ;;
  show (st_write (Py.str val)).

Definition show_designer_portfolio (sel_d : Py.value) : Script unit :=
  res <- call_proc "GetDesignerPortfolio" [sel_d] ;;
  match res with
  | Some (first :: others) =>
      fold_right (fun dfp rest => show (st_dataframe dfp) ;; rest) (ret tt) (first :: others)
  | _ => show (st_warning "No data returned for this designer.")
  end.

Definition monthly_sales_report (sel_store : Py.value) (month year : Z) : Script unit :=
  res <- call_proc "MonthlySalesReport" [sel_store; Py.PyInt month; Py.PyInt year] ;;
  match res with
  | Some (first :: _) => show (st_dataframe first)
  | _ => show (st_warning "No data found for this period.")
  end.

(** Dashboard, Reports and the tables of the other pages: a query whose
    rows are displayed. *)
Definition display (q : Query) (nothing : string) : Script unit :=
  df <- run_query q ;;
  match df with
  | [] => show (st_info nothing)
  | _ => show (st_dataframe df)
  end.

(** Admin (App Users): the form *)
Definition create_app_user_form (uname role_sel pw : string) : Script unit :=
  role <- current_role ;;
  if Py.eq_str role "admin" then
    if (Py.len (Py.strip uname) =? 0) || (Py.len (Py.strip pw) <? 4) then
      show (st_error "Username non-empty and password >= 4 chars")
    else
      ok <- create_app_user (Py.strip uname) role_sel (Py.strip pw) ;;
      if ok then
        show (st_success "App user created.") ;;
        record_and_rerun "CREATE_APP_USER" "app_users" (Py.PyStr "") (fstring [uname])
      else ret tt
  else ret tt.

(** Admin (App Users): the top of the page, before the form *)
Definition admin_page_listing : Script unit :=
  role <- current_role ;;
  (if negb (Py.eq_str role "admin") then
     show (st_warning "Only Admins can manage app users. Login as an admin to create app users.")
   else ret tt) ;;
  display SelectAppUsers "No app users found.".

(** Audit Log: the page *)
Definition audit_log_page : Script unit :=
  display SelectAuditLog "No audit logs yet.".

(** SQL Runner: the test is on how the text begins, and the text goes
    to [run_query] as it was typed, with whatever follows the first
    statement. *)
Definition run_select (q : string) : Script unit :=
  let q_trim := Py.lower (Py.strip q) in
  if negb (Py.startswith "select" q_trim) then
    show (st_error "Only SELECT queries are allowed.")
  else display (Select q []) "No results.".

(** The sidebar *)
Definition click_login (login_username login_password : string) : Script unit :=
  w <- world ;;
  if Py.truthy (app_user w) then ret tt
  else login_user (Py.strip login_username) login_password ;; ret tt.

Definition click_logout : Script unit :=
  w <- world ;;
  if Py.truthy (app_user w) then logout else ret tt.

(** What the user can do in one run of the script. *)
Inductive Action :=
| Visit (q : Query) (nothing : string)
| ClickLogin (login_username login_password : string)
| ClickLogout
| SubmitCreateItem (name size color : string) (price : Py.float) (collection_id : Py.value)
| ClickApplyUpdate (sel : Py.value) (new_name : string) (new_price : Py.float)
| ClickDeleteItem (to_del : Py.value)
| ClickApplyStockChange (chosen_inv : Py.value) (delta : Z)
| ClickZeroInventory (chosen_inv : Py.value)
| ClickDeleteInventory (chosen_inv : Py.value)
| SubmitProcessSale (sel_item sel_store : Py.value) (qty : Z) (payment : string)
| ClickAutoCreatePO (sel_alert item_id : Py.value)
| SubmitAddSupplier (name email phone addr : string)
| SubmitAddFabric (mat : string) (supplied : Py.value) (cost : Py.float)
| SubmitAddDesigner (name email phone style : string)
| SubmitAddCollection (colname season : string) (year : Z) (designer_choice : Py.value)
| ClickSimulateTrigger (choose : Py.value) (new_qty : Z)
| ClickCompute (func_sql : string) (selected : Py.value)
| ClickShowDesignerPortfolio (sel_d : Py.value)
| ClickMonthlySalesReport (sel_store : Py.value) (month year : Z)
| SubmitCreateAppUser (uname role_sel pw : string)
| ClickRunSelect (q : string).

Definition handle (a : Action) : Script unit :=
  match a with
  | Visit q nothing => display q nothing
  | ClickLogin u p => click_login u p
  | ClickLogout => click_logout
  | SubmitCreateItem name size color price collection_id =>
      create_item name size color price collection_id
  | ClickApplyUpdate sel new_name new_price => update_item sel new_name new_price
  | ClickDeleteItem to_del => delete_item to_del
  | ClickApplyStockChange chosen_inv delta => apply_stock_change chosen_inv delta
  | ClickZeroInventory chosen_inv => zero_inventory chosen_inv
  | ClickDeleteInventory chosen_inv => delete_inventory chosen_inv
  | SubmitProcessSale sel_item sel_store qty payment =>
      proc_sale sel_item sel_store qty payment
  | ClickAutoCreatePO sel_alert item_id => auto_create_po sel_alert item_id
  | SubmitAddSupplier name email phone addr => add_supplier name email phone addr
  | SubmitAddFabric mat supplied cost => add_fabric mat supplied cost
  | SubmitAddDesigner name email phone style => add_designer name email phone style
  | SubmitAddCollection colname season year designer_choice =>
      add_collection colname season year designer_choice
  | ClickSimulateTrigger choose new_qty => simulate_reorder_trigger choose new_qty
  | ClickCompute func_sql selected => compute_scalar func_sql selected
  | ClickShowDesignerPortfolio sel_d => show_designer_portfolio sel_d
  | ClickMonthlySalesReport sel_store month year =>
      monthly_sales_report sel_store month year
  | SubmitCreateAppUser uname role_sel pw => create_app_user_form uname role_sel pw
  | ClickRunSelect q => run_select q
  end.

(** One run of [Hand.py]: the three tables are ensured, then the action
    is served. *)
Definition script (a : Action) : Script unit :=
  ensure_app_users_table ;;
  ensure_purchase_orders_table ;;
  ensure_audit_log_table ;;
  handle a.

End Hand.

(** ** [create_admin.py] *)

Module CreateAdmin.

Import MySQL.

Definition make_salt : Script string :=
  random <- os_urandom 16 ;; ret (Py.hexlify random).

Definition hash_password (password salt : string) : string :=
  Sha256.hexdigest (Py.encode (String.append salt password)).

(** [create_admin(username, password)].  The script opens a connection
    of its own ([connect] and [conn.cursor()] are outside the [try]),
    inserts, commits and closes; only [mysql.connector.Error] is
    caught. *)
Definition create_admin (username password : string) : Script unit :=
  salt <- make_salt ;;
  let phash := hash_password password salt in
  conn <- next_reply ;;
  match conn with
  | NoConnection _ => raise Py.ConnectorError
  | Lost => raise Py.ConnectorError
  | Fails => show (printed_with "Error:" ServerError)
  | Answers _ =>
      w <- world ;;
      match execute (InsertAppUser username "admin" phash salt) (now w) (server w) with
      | inr (s, work) =>
          update (with_server (commit work s)) ;;
          show (printed "Admin user created.")
      | inl e => show (printed_with "Error:" e)
      end
  end.

(** The [__main__] block; the two arguments are what [input] reads. *)
Definition main (typed_username typed_password : string) : Script unit :=
  let uname := Py.strip typed_username in
  let pw := Py.strip typed_password in
  if (Py.len uname =? 0) || (Py.len pw <? 4) then
    show (printed "Invalid input.")
  else create_admin uname pw.

End CreateAdmin.

(** ** A session: runs of the two programs, and time passing *)

Inductive Event :=
| User (a : Hand.Action)                 (* one run of Hand.py *)
| Bootstrap (typed_username typed_password : string)   (* one run of create_admin.py *)
| Elapse (seconds : nat).

Definition step (w : World) (e : Event) : World :=
  match e with
  | User a => snd (Hand.script a w)
  | Bootstrap u p => snd (CreateAdmin.main u p w)
  | Elapse seconds => with_now (now w + Z.of_nat seconds) w
  end.

Definition run (events : list Event) (w : World) : World :=
  fold_left step events w.

(** *** Worlds used in the examples *)

Definition empty_server : MySQL.Server :=
  MySQL.mkServer String.eqb [] 1 [] 1 [] (fun _ => false) [] (fun _ _ => false).

(** The random source that delivers the bytes 0, 1, 2, ... *)
Definition counting_bytes (i : nat) : byte := Py.byte_of_N (N.of_nat i).

Definition fresh_world : World :=
  mkWorld empty_server [] [] counting_bytes 0 1700000000 "fashion_business" None []
          (fun _ s => s).

(** Is the next round trip answered by the server? *)
Definition answers_next (w : World) : bool :=
  match replies w with
  | [] => true
  | Answers _ :: _ => true
  | _ => false
  end.

(** ** Vocabulary of the theorems *)

(** A catalog that lists the five parameters of ProcessSale and the
    return value of a function. *)
Definition catalog_with_process_sale : list MySQL.RoutineParameter :=
  [ MySQL.mkRoutineParameter "fashion_business" "ProcessSale" (Some "IN");
    MySQL.mkRoutineParameter "fashion_business" "ProcessSale" (Some "IN");
    MySQL.mkRoutineParameter "fashion_business" "ProcessSale" (Some "IN");
    MySQL.mkRoutineParameter "fashion_business" "ProcessSale" (Some "IN");
    MySQL.mkRoutineParameter "fashion_business" "ProcessSale" (Some "INOUT");
    MySQL.mkRoutineParameter "fashion_business" "GetProfitMargin" None;
    MySQL.mkRoutineParameter "fashion_business" "GetProfitMargin" (Some "IN") ].

Definition world_with_catalog : World :=
  with_server (MySQL.mkServer String.eqb [] 1 [] 1 catalog_with_process_sale
                              (fun _ => false) [] (fun _ _ => false))
              fresh_world.

Definition four_args (sel_item sel_store : Py.value) (qty : Z) (payment : string)
  : list Py.value :=
  [sel_item; sel_store; Py.PyInt qty; Py.PyStr payment].

Definition five_args (sale_date sel_store sel_item : Py.value) (qty : Z)
    (payment : string) : list Py.value :=
  [sale_date; sel_store; sel_item; Py.PyInt qty; Py.PyStr payment].

Definition Preserves (R : World -> World -> Prop) {A : Type} (m : Script A) : Prop :=
  forall w, R w (snd (m w)).

(** Every stored audit row has an id below the counter and a time stamp
    not after the clock. *)
Definition audit_ok (w : World) : Prop :=
  Forall (fun r => MySQL.audit_id r < MySQL.next_audit_id (server w)
                   /\ MySQL.audit_created_at r <= now w)
         (MySQL.audit_log (server w)).

(** Within one run: the old rows are still there, in place; the rows
    added carry the ids handed out meanwhile and the time of the run. *)
Definition audit_grows (w w' : World) : Prop :=
  now w' = now w
  /\ MySQL.next_audit_id (server w) <= MySQL.next_audit_id (server w')
  /\ exists added,
       MySQL.audit_log (server w') = MySQL.audit_log (server w) ++ added
       /\ Forall (fun r => MySQL.next_audit_id (server w) <= MySQL.audit_id r
                           /\ MySQL.audit_id r < MySQL.next_audit_id (server w')
                           /\ MySQL.audit_created_at r = now w) added.

(** Between two states of a session: the audit rows of the first are a
    prefix of the audit rows of the second. *)
Definition audit_extends (w w' : World) : Prop :=
  exists added, MySQL.audit_log (server w') = MySQL.audit_log (server w) ++ added.

(** The row [audit_log(...)] inserts into the world [w]. *)
Definition recorded_row (w : World) (app_user_id : option Z) (username : Py.value)
    (action table_name : string) (row_id : Py.value) (details : string)
  : MySQL.AuditRow :=
  MySQL.mkAuditRow (MySQL.next_audit_id (server w)) app_user_id
                   (MySQL.text_cell username) (Some action) (Some table_name)
                   (Some (Py.str row_id)) (Some details) (now w).

(** A session used as an example: alice is registered and logs in, time
    passes, an item is created, the bootstrap script adds an admin. *)
Definition sample_session : list Event :=
  [ User (Hand.ClickLogin "alice" "pass1234");
    Elapse 30;
    User (Hand.SubmitCreateItem "Scarf" "M" "red" (Py.mkFloat (QArith_base.Qmake 499 1) "499.0")
                                (Py.PyInt 2));
    Bootstrap "root" "secret" ].

Definition world_with_alice : World :=
  snd (Hand.create_app_user "alice" "admin" "pass1234" fresh_world).

(** The bytes the next call of [os.urandom(n)] delivers in [w]. *)
Definition drawn_bytes (w : World) (n : nat) : Py.bytes :=
  map (fun i => urandom w (drawn w + i)%nat) (seq 0 n).

(** The salt the next call of [make_salt()] returns in [w]. *)
Definition new_salt (w : World) : string := Py.hexlify (drawn_bytes w 16).

(** The row a successful [create_app_user(username, role, password)]
    stores when it is called in [w]. *)
Definition registered_row (w : World) (username role password : string)
  : MySQL.AppUser :=
  MySQL.mkAppUser (MySQL.next_app_user_id (server w)) (Some username) (Some role)
    (Some (Sha256.hexdigest (Py.encode (String.append (new_salt w) password))))
    (Some (new_salt w)) (now w).

(** The rows [SELECT * FROM app_users WHERE username = %s] finds. *)
Definition matching_rows (w : World) (username : string) : list MySQL.AppUser :=
  filter (fun row => MySQL.same_text (server w) (MySQL.username row) username)
         (MySQL.app_users (server w)).

Definition username_taken (w : World) (username : string) : bool :=
  existsb (fun row => MySQL.same_text (server w) (MySQL.username row) username)
          (MySQL.app_users (server w)).

(** No stored credential has this username. *)
Definition unknown_username (w : World) (username : string) : Prop :=
  matching_rows w username = [].

(** The username is registered and the digest recomputed from the stored
    salt and the supplied password is not the stored digest. *)
Definition wrong_password (w : World) (username password : string) : Prop :=
  exists row others salt stored,
    matching_rows w username = row :: others
    /\ MySQL.salt row = Some salt
    /\ MySQL.password_hash row = Some stored
    /\ Hand.hash_password password salt <> stored.

(** The server compares a text with itself as equal. *)
Definition collation_reflexive (w : World) : Prop :=
  forall text, MySQL.collation (server w) text text = true.

(** The world after one [run_query]: a round trip is consumed and, when
    it failed, the error is shown.  It does not depend on the query. *)
Definition after_query (w : World) : World :=
  snd (Hand.run_query (MySQL.Select "" []) w).

(** The argument list of the ProcessSale call, by the probed count. *)
Definition sale_call_args (cnt : option Z) (clock : Z) (sel_item sel_store : Py.value)
    (qty : Z) (payment : string) : list Py.value :=
  match cnt with
  | Some n =>
      if 5 <=? n
      then five_args (Py.PyDate (clock / 86400)) sel_store sel_item qty payment
      else four_args sel_item sel_store qty payment
  | None => four_args sel_item sel_store qty payment
  end.

(** Alice, an admin, has logged in. *)
Definition alice_logged_in : World :=
  snd (Hand.login_user "alice" "pass1234" world_with_alice).

(** Six round trips: the three [CREATE TABLE IF NOT EXISTS], then three
    more of which the last one raises. *)
Definition last_of_six_fails : list Reply :=
  [Answers []; Answers []; Answers []; Answers []; Answers []; Fails].

(** Five round trips: the three [CREATE TABLE IF NOT EXISTS], then two
    more of which the last one raises. *)
Definition last_of_five_fails : list Reply :=
  [Answers []; Answers []; Answers []; Answers []; Fails].

Definition sale_of_two_scarves : Hand.Action :=
  Hand.SubmitProcessSale (Py.PyInt 3) (Py.PyInt 7) 2 "Cash".

Definition new_scarf : Hand.Action :=
  Hand.SubmitCreateItem "Scarf" "M" "red" (Py.mkFloat (QArith_base.Qmake 499 1) "499.0")
                        (Py.PyInt 2).

(** Committed business work is still there, in place. *)
Definition ledger_grows (w w' : World) : Prop :=
  exists more, MySQL.ledger (server w') = MySQL.ledger (server w) ++ more.

(** Is the next round trip refused because there is no connection? *)
Definition no_connection_next (w : World) : bool :=
  match replies w with
  | NoConnection _ :: _ => true
  | _ => false
  end.

(** Neither the tables and the ledger of the server nor the open
    transaction of the connection have changed. *)
Definition database_untouched (w w' : World) : Prop :=
  server w' = server w /\ pending w' = pending w.

(** A table with one credential that was inserted by hand, without a
    salt. *)
Definition world_with_unsalted_user : World :=
  with_server
    (MySQL.mkServer String.eqb
       [MySQL.mkAppUser 1 (Some "legacy") (Some "admin") (Some "5f4dcc3b") None 1690000000]
       2 [] 1 [] (fun _ => false) [] (fun _ _ => false))
    fresh_world.

(** The roles each action is reserved for, as the pages test them; [None]
    for the actions the pages offer to every visitor. *)
Definition required_roles (a : Hand.Action) : option (list string) :=
  match a with
  | Hand.SubmitCreateItem _ _ _ _ _ => Some ["admin"]
  | Hand.ClickApplyUpdate _ _ _ => Some ["admin"; "manager"]
  | Hand.ClickDeleteItem _ => Some ["admin"]
  | Hand.ClickZeroInventory _ => Some ["admin"]
  | Hand.ClickDeleteInventory _ => Some ["admin"]
  | Hand.SubmitAddSupplier _ _ _ _ => Some ["admin"; "procurement"]
  | Hand.SubmitAddFabric _ _ _ => Some ["admin"; "procurement"]
  | Hand.SubmitAddDesigner _ _ _ _ => Some ["admin"]
  | Hand.SubmitAddCollection _ _ _ _ => Some ["admin"; "manager"]
  | Hand.SubmitCreateAppUser _ _ _ => Some ["admin"]
  | _ => None
  end.

(** The usernames stored in [app_users], NULLs left out, in insertion
    order. *)
Definition stored_usernames (w : World) : list string :=
  flat_map (fun row => match MySQL.username row with
                       | Some name => [name]
                       | None => []
                       end)
           (MySQL.app_users (server w)).

(** The credentials are still there, unchanged and in place; the way the
    server compares text has not changed; and distinct usernames have
    stayed distinct. *)
Definition users_grow (w w' : World) : Prop :=
  MySQL.collation (server w') = MySQL.collation (server w)
  /\ (exists added,
        MySQL.app_users (server w') = MySQL.app_users (server w) ++ added)
  /\ (collation_reflexive w -> NoDup (stored_usernames w) ->
      NoDup (stored_usernames w')).

(** All the work, committed or still pending on the connection. *)
Definition work_so_far (w : World) : list MySQL.Entry :=
  MySQL.ledger (server w) ++ pending w.

(** The two statements of the button "Auto-create PO for selected alert",
    pressed for the alert [sel_alert] on the item [item_id] at the time
    [clock]: an order of at least 10 pieces due 7 days after the day of
    [clock], and the mark put on the alert. *)
Definition purchase_order_work (clock : Z) (sel_alert item_id : Py.value)
    (e : MySQL.Entry) : Prop :=
  (exists supplier_id qty_order,
      e = MySQL.Executed
            "INSERT INTO Purchase_Orders (item_id, supplier_id, quantity_ordered, expected_delivery, notes) VALUES (%s,%s,%s,%s,%s)"
            [item_id; Py.PyInt supplier_id; Py.PyInt qty_order;
             Py.PyDate (clock / 86400 + 7);
             Py.PyStr (fstring ["Auto PO from alert "; Py.str sel_alert])]
      /\ 10 <= qty_order)
  \/ (exists po_id,
         e = MySQL.Executed
               "UPDATE Inventory_Alerts SET message = CONCAT(message, ' | PO_CREATED:', %s) WHERE alert_id = %s"
               [Py.PyStr (Py.str (Py.PyInt po_id)); sel_alert]).

(** Since the world [w0] the clock has not moved and no work has been
    done but the work of the button. *)
Definition only_purchase_order_work (w0 : World) (sel_alert item_id : Py.value)
    (w : World) : Prop :=
  now w = now w0
  /\ forall e, In e (work_so_far w) ->
               In e (work_so_far w0) \/ purchase_order_work (now w0) sel_alert item_id e.

(** Alice presses the button for alert 9 on item 3: the cheapest supplier
    is 5, the reorder level of the item is 8, and the new order gets the
    id 41. *)
Definition alert_replies : list Reply :=
  [ Answers [[[("supplier_id", Py.PyInt 5); ("supplier_name", Py.PyStr "Loom & Co")]]];
    Answers [[[("inventory_id", Py.PyInt 2); ("quantity_in_stock", Py.PyInt 1);
               ("reorder_level", Py.PyInt 8)]]];
    Answers [];
    Answers [[[("po_id", Py.PyInt 41)]]];
    Answers [];
    Answers [] ].

Definition world_with_alert : World := with_replies alert_replies alice_logged_in.

Definition order_of_sixteen : MySQL.Entry :=
  MySQL.Executed
    "INSERT INTO Purchase_Orders (item_id, supplier_id, quantity_ordered, expected_delivery, notes) VALUES (%s,%s,%s,%s,%s)"
    [Py.PyInt 3; Py.PyInt 5; Py.PyInt 16; Py.PyDate 19682; Py.PyStr "Auto PO from alert 9"].

(** Nothing is pending on the connection and the committed work is
    [committed]. *)
Definition settled (committed : list MySQL.Entry) (w : World) : Prop :=
  pending w = [] /\ MySQL.ledger (server w) = committed.

(** The mark put on an alert for which an order has been created. *)
Definition alert_mark (sel_alert : Py.value) (po_id : Z) : MySQL.Entry :=
  MySQL.Executed
    "UPDATE Inventory_Alerts SET message = CONCAT(message, ' | PO_CREATED:', %s) WHERE alert_id = %s"
    [Py.PyStr (Py.str (Py.PyInt po_id)); sel_alert].

(** The probe and the call of ProcessSale are answered; the audit INSERT
    goes through or raises. *)
Definition sale_replies (r1 r2 r3 : list MySQL.Frame) (audit_goes_through : bool)
    (rest : list Reply) : list Reply :=
  Answers r1 :: Answers r2 :: (if audit_goes_through then Answers r3 else Fails) :: rest.

(** Is the cached connection lost, so that the next [cnx.cursor()]
    raises? *)
Definition lost_next (w : World) : bool :=
  match replies w with
  | Lost :: _ => true
  | _ => false
  end.

(** The texts an action hands to the server are single statements: the
    query of a page, the function call of the Procedures & Functions
    page, and what is typed into the SQL Runner. *)
Definition plain_action (a : Hand.Action) : bool :=
  match a with
  | Hand.Visit q _ => MySQL.plain q
  | Hand.ClickCompute func_sql _ => MySQL.single_statement func_sql
  | Hand.ClickRunSelect q => MySQL.single_statement q
  | _ => true
  end.

Definition plain_event (e : Event) : bool :=
  match e with
  | User a => plain_action a
  | _ => true
  end.

(** One audit record stamped in the current second, on a server that
    lists, among rows with equal sort keys, the row with the greater id
    first. *)
Definition world_with_record_of_this_second : World :=
  with_server
    (MySQL.mkServer String.eqb [] 1
       [MySQL.mkAuditRow 1 (Some 1) (Some "alice") (Some "DELETE_ITEM")
                         (Some "Clothing_Items") (Some "12") (Some "deleted") 1700000000]
       2 [] (fun _ => false) [] (fun first second => second <? first))
    fresh_world.

(** The same table on a server that obeys the statements which follow
    the first one of a text: here, a DELETE on the audit table and a
    COMMIT, which also commits the sale that was pending on the
    connection. *)
Definition pending_sale : MySQL.Entry :=
  MySQL.Called "ProcessSale" [Py.PyInt 3; Py.PyInt 7; Py.PyInt 2; Py.PyStr "Cash"].

Definition world_with_obedient_server : World :=
  mkWorld (server world_with_record_of_this_second) [pending_sale] [] counting_bytes 0
          1700000000 "fashion_business" None []
          (fun _ state =>
             (MySQL.commit (snd state)
                (MySQL.with_audit_log [] (MySQL.next_audit_id (fst state)) (fst state)),
              [])).

Definition select_then_delete : string :=
  "select 1; DELETE FROM audit_log; COMMIT".

(** * Theorems *)

(** ** Running a script by hand *)

Lemma bind_returns :
  forall (A B : Type) (m : Script A) (k : A -> Script B) (w w' : World) (a : A),
    m w = (Returns a, w') -> bind m k w = k a w'.
Proof. intros A B m k w w' a H. unfold bind. rewrite H. reflexivity. Qed.

Lemma next_reply_answers :
  forall w, answers_next w = true ->
    exists results, next_reply w = (Returns (Answers results), with_replies (tl (replies w)) w).
Proof.
  intros w H. unfold answers_next in H. unfold next_reply.
  destruct (replies w) as [|[results|attempted| |] rest] eqn:E; try discriminate.
  - exists []. destruct w; simpl in *; subst; reflexivity.
  - exists results. reflexivity.
Qed.

(** Unfolds the helpers of [Hand.py] down to the world they act on. *)
Ltac run_script :=
  unfold Hand.run_query, Hand.run_modification, Hand.call_proc, Hand.callproc,
         Hand.get_db_conn, Hand.audit_log, commit_with, rollback, show, update,
         world, next_reply, bind, ret, raise, try_except, getitem, int_ in *.

(** ** The procedure-arity probe *)

(** C8, as the code has it: with the server answering, the probe returns
    the number of catalogued IN and INOUT parameters of the routine, which
    is 0 for a routine the catalog does not know; it returns [None] when
    there is no connection or the query raises.  (On a connection that
    has been lost the error of [cnx.cursor()] leaves [run_query], and
    the probe with it.) *)
Theorem probe_counts_catalogued_inputs :
  forall (w : World) (proc_name : string),
    fst (Hand.get_proc_param_count proc_name w) =
    if lost_next w then Raises Py.ConnectorError
    else
      Returns (if answers_next w
               then Some (Z.of_nat (List.length
                            (MySQL.input_parameters (server w) (database w) proc_name)))
               else None).
Proof.
  intros w proc_name. unfold Hand.get_proc_param_count, answers_next, lost_next.
  run_script.
  destruct (replies w) as [|[results|[|]| |] rest]; reflexivity.
Qed.

Example probe_five_parameters :
  fst (Hand.get_proc_param_count "ProcessSale" world_with_catalog) = Returns (Some 5).
Proof. reflexivity. Qed.

(** C8, counterexample: for a routine absent from the catalog the probe
    returns 0, not [None]. *)
Lemma probe_absent_routine_is_zero :
  MySQL.input_parameters (server world_with_catalog) "fashion_business" "NoSuchRoutine" = []
  /\ fst (Hand.get_proc_param_count "NoSuchRoutine" world_with_catalog) = Returns (Some 0)
  /\ fst (Hand.get_proc_param_count "NoSuchRoutine" world_with_catalog) <> Returns None.
Proof. repeat split. discriminate. Qed.

(** ** The ProcessSale call site *)

(** The probe returns, unless the connection has been lost: its [try]
    catches what [int] raises. *)
Lemma probe_returns :
  forall (w : World) (proc_name : string),
    if lost_next w
    then Hand.get_proc_param_count proc_name w
         = (Raises Py.ConnectorError, with_replies (tl (replies w)) w)
    else exists cnt, fst (Hand.get_proc_param_count proc_name w) = Returns cnt.
Proof.
  intros w proc_name. unfold Hand.get_proc_param_count, lost_next. run_script.
  destruct (replies w) as [|[results|[|]| |] rest];
    first [reflexivity | eexists; reflexivity].
Qed.



(** ** What every run of the script preserves

    A relation between the world before and the world after that is
    reflexive, transitive and kept by the steps that change the world
    (showing a message, taking the next round trip, drawing random bytes,
    [run_modification], [callproc], setting the session's user) is kept
    by every function of [Hand.py] and by every run of the script, as
    long as the texts handed to [run_query] and to
    [call_function_sql_scalar] are single statements. *)

Create HintDb script_steps.

Section Preservation.

Variable R : World -> World -> Prop.
Hypothesis R_refl : forall w, R w w.
Hypothesis R_trans : forall w1 w2 w3, R w1 w2 -> R w2 w3 -> R w1 w3.
Hypothesis R_show : forall m, Preserves R (show m).
Hypothesis R_next_reply : Preserves R next_reply.
Hypothesis R_urandom : forall n, Preserves R (os_urandom n).
Hypothesis R_modification : forall q, Preserves R (Hand.run_modification q).
Hypothesis R_callproc : forall name params, Preserves R (Hand.callproc name params).
Hypothesis R_session : forall u, Preserves R (update (with_app_user u)).

Lemma preserves_ret : forall (A : Type) (a : A), Preserves R (ret a).
Proof. intros A a w. apply R_refl. Qed.

Lemma preserves_raise : forall (A : Type) (e : Py.exn), Preserves R (@raise A e).
Proof. intros A e w. apply R_refl. Qed.

Lemma preserves_rerun : forall (A : Type), Preserves R (@st_rerun A).
Proof. intros A w. apply R_refl. Qed.

Lemma preserves_world : Preserves R world.
Proof. intros w. apply R_refl. Qed.

Lemma preserves_bind :
  forall (A B : Type) (m : Script A) (k : A -> Script B),
    Preserves R m -> (forall a, Preserves R (k a)) -> Preserves R (bind m k).
Proof.
  intros A B m k Hm Hk w. unfold bind.
  specialize (Hm w). destruct (m w) as [[a| |e] w1]; simpl in *; try assumption.
  eapply R_trans; [exact Hm | apply Hk].
Qed.

Lemma preserves_try :
  forall (A : Type) (m handler : Script A),
    Preserves R m -> Preserves R handler -> Preserves R (try_except m handler).
Proof.
  intros A m handler Hm Hh w. unfold try_except.
  specialize (Hm w). destruct (m w) as [[a| |e] w1]; simpl in *; try assumption.
  eapply R_trans; [exact Hm | apply Hh].
Qed.

Lemma preserves_getitem : forall d key, Preserves R (getitem d key).
Proof.
  intros d key. unfold getitem.
  destruct (Py.get d key); [apply preserves_ret | apply preserves_raise].
Qed.

Lemma preserves_int : forall x, Preserves R (int_ x).
Proof.
  intros x. unfold int_.
  destruct (Py.int x); [apply preserves_raise | apply preserves_ret].
Qed.

Hint Resolve preserves_ret preserves_raise preserves_rerun preserves_world
  preserves_getitem preserves_int R_show R_next_reply R_urandom
  R_modification R_callproc R_session : script_steps.

(** Walks through a script: sequencing, branches, then the known steps. *)
Ltac preserving :=
  cbv zeta;
  repeat first
    [ solve [auto with script_steps]
    | apply preserves_bind; [ | intro ]
    | apply preserves_try
    | match goal with
      | |- Preserves _ (match ?x with _ => _ end) => destruct x
      | |- Preserves _ (if ?x then _ else _) => destruct x
      | |- Preserves _ (let _ := _ in _) => cbv zeta
      end ].

Hint Extern 1 (MySQL.plain _ = true) => first [assumption | reflexivity] : script_steps.
Hint Extern 1 (MySQL.single_statement _ = true) =>
  first [assumption | reflexivity] : script_steps.

Lemma preserves_get_db_conn : Preserves R Hand.get_db_conn.
Proof. unfold Hand.get_db_conn. preserving. Qed.
Hint Resolve preserves_get_db_conn : script_steps.

Lemma preserves_runs_further :
  forall text, MySQL.single_statement text = true -> Preserves R (runs_further text).
Proof. intros text H. unfold runs_further. rewrite H. apply preserves_ret. Qed.
Hint Resolve preserves_runs_further : script_steps.

Lemma preserves_further_statements :
  forall q, MySQL.plain q = true -> Preserves R (Hand.further_statements q).
Proof.
  intros q H. destruct q; simpl in *;
    first [apply preserves_ret | apply preserves_runs_further; exact H].
Qed.
Hint Resolve preserves_further_statements : script_steps.

Lemma preserves_run_query :
  forall q, MySQL.plain q = true -> Preserves R (Hand.run_query q).
Proof. intros q H. unfold Hand.run_query. preserving. Qed.
Hint Resolve preserves_run_query : script_steps.

Lemma preserves_call_proc :
  forall name params, Preserves R (Hand.call_proc name params).
Proof. intros name params. unfold Hand.call_proc. preserving. Qed.
Hint Resolve preserves_call_proc : script_steps.

Lemma preserves_call_function :
  forall func_sql params,
    MySQL.single_statement func_sql = true ->
    Preserves R (Hand.call_function_sql_scalar func_sql params).
Proof. intros func_sql params H. unfold Hand.call_function_sql_scalar. preserving. Qed.
Hint Resolve preserves_call_function : script_steps.

Lemma preserves_get_proc_param_count :
  forall name, Preserves R (Hand.get_proc_param_count name).
Proof. intro name. unfold Hand.get_proc_param_count. preserving. Qed.
Hint Resolve preserves_get_proc_param_count : script_steps.

Lemma preserves_ensure_tables :
  Preserves R Hand.ensure_app_users_table
  /\ Preserves R Hand.ensure_purchase_orders_table
  /\ Preserves R Hand.ensure_audit_log_table.
Proof.
  unfold Hand.ensure_app_users_table, Hand.ensure_purchase_orders_table,
         Hand.ensure_audit_log_table.
  repeat split; preserving.
Qed.

Lemma preserves_create_app_user :
  forall username role password,
    Preserves R (Hand.create_app_user username role password).
Proof.
  intros username role password.
  unfold Hand.create_app_user, Hand.make_salt. preserving.
Qed.
Hint Resolve preserves_create_app_user : script_steps.

Lemma preserves_authenticate_user :
  forall username password, Preserves R (Hand.authenticate_user username password).
Proof. intros username password. unfold Hand.authenticate_user. preserving. Qed.
Hint Resolve preserves_authenticate_user : script_steps.

Lemma preserves_audit_log :
  forall uid uname action table_name row_id details,
    Preserves R (Hand.audit_log uid uname action table_name row_id details).
Proof. intros. unfold Hand.audit_log. preserving. Qed.
Hint Resolve preserves_audit_log : script_steps.

Lemma preserves_login_user :
  forall username password, Preserves R (Hand.login_user username password).
Proof. intros username password. unfold Hand.login_user. preserving. Qed.
Hint Resolve preserves_login_user : script_steps.

Lemma preserves_session_reads :
  Preserves R Hand.current_role /\ Preserves R Hand.current_user_id
  /\ Preserves R Hand.session_username /\ Preserves R Hand.logout.
Proof.
  unfold Hand.current_role, Hand.current_user_id, Hand.session_username, Hand.logout.
  repeat split; preserving.
Qed.

Lemma preserves_record_and_rerun :
  forall action table_name row_id details,
    Preserves R (Hand.record_and_rerun action table_name row_id details).
Proof.
  intros. destruct preserves_session_reads as (Hrole & Hid & Hname & Hout).
  unfold Hand.record_and_rerun. preserving.
Qed.
Hint Resolve preserves_record_and_rerun : script_steps.

Lemma preserves_sale_params :
  forall cnt sel_item sel_store qty payment,
    Preserves R (Hand.sale_params cnt sel_item sel_store qty payment).
Proof. intros. unfold Hand.sale_params. preserving. Qed.
Hint Resolve preserves_sale_params : script_steps.

Lemma preserves_display :
  forall q nothing, MySQL.plain q = true -> Preserves R (Hand.display q nothing).
Proof. intros q nothing H. unfold Hand.display. preserving. Qed.
Hint Resolve preserves_display : script_steps.

Lemma preserves_show_all :
  forall frames : list MySQL.Frame,
    Preserves R (fold_right (fun dfp rest => show (st_dataframe dfp) ;; rest)
                            (ret tt) frames).
Proof.
  induction frames as [|dfp frames IH]; simpl.
  - apply preserves_ret.
  - apply preserves_bind; [apply R_show | intro; exact IH].
Qed.

Theorem handle_preserves :
  forall a, plain_action a = true -> Preserves R (Hand.handle a).
Proof.
  destruct preserves_session_reads as (Hrole & Hid & Hname & Hout).
  intros [] Hplain; simpl in Hplain; simpl;
    unfold Hand.create_item, Hand.update_item, Hand.delete_item,
           Hand.apply_stock_change, Hand.zero_inventory, Hand.delete_inventory,
           Hand.proc_sale, Hand.auto_create_po, Hand.add_supplier, Hand.add_fabric,
           Hand.add_designer, Hand.add_collection, Hand.simulate_reorder_trigger,
           Hand.compute_scalar, Hand.show_designer_portfolio,
           Hand.monthly_sales_report, Hand.create_app_user_form, Hand.run_select,
           Hand.click_login, Hand.click_logout;
    preserving; apply preserves_show_all.
Qed.

Theorem script_preserves :
  forall a, plain_action a = true -> Preserves R (Hand.script a).
Proof.
  intros a Hplain. destruct preserves_ensure_tables as (H1 & H2 & H3).
  unfold Hand.script. preserving. apply handle_preserves. exact Hplain.
Qed.

End Preservation.

(** ** The audit log *)

Lemma audit_grows_unchanged :
  forall w w',
    now w' = now w ->
    MySQL.audit_log (server w') = MySQL.audit_log (server w) ->
    MySQL.next_audit_id (server w') = MySQL.next_audit_id (server w) ->
    audit_grows w w'.
Proof.
  intros w w' Hnow Hlog Hnext. unfold audit_grows. rewrite Hnow, Hnext, Hlog.
  split; [reflexivity|]. split; [lia|].
  exists []. rewrite app_nil_r. split; [reflexivity | constructor].
Qed.

Lemma audit_grows_refl : forall w, audit_grows w w.
Proof. intro w. apply audit_grows_unchanged; reflexivity. Qed.

Lemma audit_grows_trans :
  forall w1 w2 w3, audit_grows w1 w2 -> audit_grows w2 w3 -> audit_grows w1 w3.
Proof.
  intros w1 w2 w3 (Hn12 & Hle12 & a12 & Hlog12 & Hall12)
                  (Hn23 & Hle23 & a23 & Hlog23 & Hall23).
  unfold audit_grows. split; [congruence|]. split; [lia|].
  exists (a12 ++ a23). split.
  - rewrite Hlog23, Hlog12, app_assoc. reflexivity.
  - apply Forall_app. split.
    + eapply Forall_impl; [|exact Hall12]. simpl. intros r (H1 & H2 & H3).
      repeat split; [lia | lia | assumption].
    + eapply Forall_impl; [|exact Hall23]. simpl. intros r (H1 & H2 & H3).
      repeat split; [lia | lia | congruence].
Qed.

Lemma audit_grows_modification :
  forall q, Preserves audit_grows (Hand.run_modification q).
Proof.
  intros q w. unfold Hand.run_modification. run_script.
  destruct (replies w) as [|[results|[|]| |] rest]; simpl;
    try (apply audit_grows_unchanged; reflexivity).
  - destruct q as [table|u r h s|uid u a t rid d|text params]; simpl;
      try (apply audit_grows_unchanged; reflexivity).
    + destruct (existsb _ _); simpl; apply audit_grows_unchanged; reflexivity.
    + unfold audit_grows; simpl. split; [reflexivity|]. split; [lia|].
      eexists. split; [reflexivity|].
      constructor; [|constructor]. simpl. repeat split; lia.
  - destruct q as [table|u r h s|uid u a t rid d|text params]; simpl;
      try (apply audit_grows_unchanged; reflexivity).
    + destruct (existsb _ _); simpl; apply audit_grows_unchanged; reflexivity.
    + unfold audit_grows; simpl. split; [reflexivity|]. split; [lia|].
      eexists. split; [reflexivity|].
      constructor; [|constructor]. simpl. repeat split; lia.
Qed.

Lemma audit_grows_callproc :
  forall name params, Preserves audit_grows (Hand.callproc name params).
Proof.
  intros name params w. unfold Hand.callproc. run_script.
  destruct (MySQL.commits_itself (server w) name); simpl;
    apply audit_grows_unchanged; reflexivity.
Qed.

Lemma audit_grows_next_reply : Preserves audit_grows next_reply.
Proof.
  intro w. unfold next_reply. destruct (replies w); simpl;
    apply audit_grows_unchanged; reflexivity.
Qed.

(** No run of [Hand.py] that hands single statements to the server
    removes or changes an audit row. *)
Lemma script_audit_grows :
  forall a, plain_action a = true -> Preserves audit_grows (Hand.script a).
Proof.
  apply script_preserves.
  - exact audit_grows_refl.
  - exact audit_grows_trans.
  - intros m w. apply audit_grows_unchanged; reflexivity.
  - exact audit_grows_next_reply.
  - intros n w. apply audit_grows_unchanged; reflexivity.
  - exact audit_grows_modification.
  - exact audit_grows_callproc.
  - intros u w. apply audit_grows_unchanged; reflexivity.
Qed.

(** Nor does a run of [create_admin.py]. *)
Lemma bootstrap_audit_grows :
  forall typed_username typed_password,
    Preserves audit_grows (CreateAdmin.main typed_username typed_password).
Proof.
  intros tu tp w. unfold CreateAdmin.main, CreateAdmin.create_admin, CreateAdmin.make_salt.
  destruct (_ || _); run_script; unfold os_urandom; simpl.
  - apply audit_grows_unchanged; reflexivity.
  - destruct (replies w) as [|[results|attempted| |] rest]; simpl;
      try (apply audit_grows_unchanged; reflexivity);
      destruct (existsb _ _); simpl; apply audit_grows_unchanged; reflexivity.
Qed.

Lemma audit_ok_grows :
  forall w w', audit_grows w w' -> audit_ok w -> audit_ok w'.
Proof.
  intros w w' (Hnow & Hle & added & Hlog & Hall) Hok. unfold audit_ok in *.
  rewrite Hlog. apply Forall_app. split.
  - eapply Forall_impl; [|exact Hok]. simpl. intros r (H1 & H2). split; lia.
  - eapply Forall_impl; [|exact Hall]. simpl. intros r (H1 & H2 & H3). split; lia.
Qed.

Lemma step_audit :
  forall w e,
    plain_event e = true ->
    audit_extends w (step w e) /\ (audit_ok w -> audit_ok (step w e)).
Proof.
  intros w e Hplain.
  assert (Hgrow : forall w', audit_grows w w' ->
                    audit_extends w w' /\ (audit_ok w -> audit_ok w')).
  { intros w' H. split; [|apply audit_ok_grows; exact H].
    destruct H as (_ & _ & added & Hlog & _). exists added. exact Hlog. }
  destruct e as [a|tu tp|seconds]; simpl.
  - apply Hgrow, script_audit_grows. exact Hplain.
  - apply Hgrow, bootstrap_audit_grows.
  - split.
    + exists []. simpl. rewrite app_nil_r. reflexivity.
    + unfold audit_ok. simpl. intro Hok.
      eapply Forall_impl; [|exact Hok]. simpl. intros r (H1 & H2). split; lia.
Qed.

Lemma run_audit :
  forall events w,
    forallb plain_event events = true ->
    audit_extends w (run events w) /\ (audit_ok w -> audit_ok (run events w)).
Proof.
  induction events as [|e events IH]; intros w Hplain; simpl.
  - split; [|tauto]. exists []. rewrite app_nil_r. reflexivity.
  - simpl in Hplain. apply andb_true_iff in Hplain. destruct Hplain as (He & Hrest).
    destruct (step_audit w e He) as ((a1 & H1) & Hok1).
    destruct (IH (step w e) Hrest) as ((a2 & H2) & Hok2).
    split; [|tauto]. exists (a1 ++ a2). unfold run in H2. simpl in H2.
    unfold run. rewrite H2, H1, app_assoc. reflexivity.
Qed.

(** *** Listing in creation order *)

(** A row whose key is greater than every key listed goes last,
    whatever the server does with equal keys. *)
Lemma insert_by_last :
  forall (A : Type) (key : A -> Z) (before : A -> A -> bool) (x : A) (sorted : list A),
    Forall (fun y => key y < key x) sorted ->
    MySQL.insert_by key before x sorted = sorted ++ [x].
Proof.
  intros A key before x sorted H. induction H as [|y rest Hy Hrest IH]; simpl.
  - reflexivity.
  - destruct (key x <? key y) eqn:E; [apply Z.ltb_lt in E; lia|].
    destruct (key x =? key y) eqn:E'; [apply Z.eqb_eq in E'; lia|].
    simpl. rewrite IH. reflexivity.
Qed.

Lemma insert_by_Forall :
  forall (A : Type) (key : A -> Z) (before : A -> A -> bool) (P : A -> Prop) (x : A)
         (sorted : list A),
    P x -> Forall P sorted -> Forall P (MySQL.insert_by key before x sorted).
Proof.
  intros A key before P x sorted Hx H. induction H as [|y rest Hy Hrest IH]; simpl.
  - constructor; [assumption | constructor].
  - destruct (_ || _); constructor; try assumption.
    constructor; assumption.
Qed.

Lemma fold_insert_Forall :
  forall (A : Type) (key : A -> Z) (before : A -> A -> bool) (P : A -> Prop)
         (rows acc : list A),
    Forall P rows -> Forall P acc ->
    Forall P (fold_left (fun sorted x => MySQL.insert_by key before x sorted) rows acc).
Proof.
  intros A key before P rows. induction rows as [|x rows IH]; intros acc Hrows Hacc; simpl.
  - exact Hacc.
  - inversion Hrows; subst. apply IH; [assumption|].
    apply insert_by_Forall; assumption.
Qed.

Lemma order_by_newest_last :
  forall (A : Type) (key : A -> Z) (before : A -> A -> bool) (rows : list A) (x : A),
    Forall (fun y => key y < key x) rows ->
    MySQL.order_by key before (rows ++ [x]) = MySQL.order_by key before rows ++ [x].
Proof.
  intros A key before rows x H. unfold MySQL.order_by. rewrite fold_left_app. simpl.
  apply insert_by_last. apply fold_insert_Forall; [exact H | constructor].
Qed.

(** The listing is by increasing key. *)
Lemma insert_by_sorted :
  forall (A : Type) (key : A -> Z) (before : A -> A -> bool) (x : A) (sorted : list A),
    StronglySorted (fun a b => key a <= key b) sorted ->
    StronglySorted (fun a b => key a <= key b) (MySQL.insert_by key before x sorted).
Proof.
  intros A key before x sorted H. induction H as [|y rest Hrest IH Hy]; simpl.
  - constructor; constructor.
  - destruct ((key x <? key y) || ((key x =? key y) && before x y)) eqn:E.
    + assert (Hxy : key x <= key y).
      { apply orb_true_iff in E. destruct E as [E|E].
        - apply Z.ltb_lt in E. lia.
        - apply andb_true_iff in E. destruct E as (E & _). apply Z.eqb_eq in E. lia. }
      constructor; [constructor; assumption|].
      constructor; [exact Hxy|].
      eapply Forall_impl; [|exact Hy]. simpl. intros z Hz. lia.
    + apply orb_false_iff in E. destruct E as (E & _). apply Z.ltb_ge in E.
      constructor; [exact IH|].
      apply insert_by_Forall; assumption.
Qed.

Lemma order_by_sorted :
  forall (A : Type) (key : A -> Z) (before : A -> A -> bool) (rows : list A),
    StronglySorted (fun a b => key a <= key b) (MySQL.order_by key before rows).
Proof.
  intros A key before rows. unfold MySQL.order_by.
  assert (H : forall acc,
             StronglySorted (fun a b => key a <= key b) acc ->
             StronglySorted (fun a b => key a <= key b)
               (fold_left (fun sorted x => MySQL.insert_by key before x sorted) rows acc)).
  { induction rows as [|x rows IH]; intros acc Hacc; simpl; [exact Hacc|].
    apply IH. apply insert_by_sorted. exact Hacc. }
  apply H. constructor.
Qed.

(** A row whose key is not below any key listed is put after the rows
    with a smaller key, somewhere among the rows with its own key. *)
Lemma insert_by_among_equals :
  forall (A : Type) (key : A -> Z) (before : A -> A -> bool) (x : A) (sorted : list A),
    StronglySorted (fun a b => key a <= key b) sorted ->
    Forall (fun y => key y <= key x) sorted ->
    exists earlier equals,
      sorted = earlier ++ equals
      /\ MySQL.insert_by key before x sorted = earlier ++ x :: equals
      /\ Forall (fun y => key y = key x) equals.
Proof.
  intros A key before x sorted Hsorted. induction Hsorted as [|y rest Hrest IH Hy];
    intro Hle; simpl.
  - exists [], []. repeat split. constructor.
  - inversion Hle as [|y' rest' Hyx Hrestx]; subst.
    destruct ((key x <? key y) || ((key x =? key y) && before x y)) eqn:E.
    + exists [], (y :: rest). split; [reflexivity|]. split; [reflexivity|].
      assert (Hxy : key x = key y).
      { apply orb_true_iff in E. destruct E as [E|E].
        - apply Z.ltb_lt in E. lia.
        - apply andb_true_iff in E. destruct E as (E & _). apply Z.eqb_eq in E. exact E. }
      constructor; [lia|].
      apply Forall_forall. intros z Hz.
      pose proof (proj1 (Forall_forall _ _) Hy z Hz) as H1.
      pose proof (proj1 (Forall_forall _ _) Hrestx z Hz) as H2.
      cbv beta in *. lia.
    + destruct (IH Hrestx) as (earlier & equals & Hsplit & Hins & Heq).
      exists (y :: earlier), equals. simpl. rewrite Hins, <- Hsplit.
      repeat split. exact Heq.
Qed.

Lemma order_by_newest_among_equals :
  forall (A : Type) (key : A -> Z) (before : A -> A -> bool) (rows : list A) (x : A),
    Forall (fun y => key y <= key x) rows ->
    exists earlier equals,
      MySQL.order_by key before rows = earlier ++ equals
      /\ MySQL.order_by key before (rows ++ [x]) = earlier ++ x :: equals
      /\ Forall (fun y => key y = key x) equals.
Proof.
  intros A key before rows x H.
  destruct (insert_by_among_equals A key before x (MySQL.order_by key before rows)
              (order_by_sorted A key before rows)) as (earlier & equals & H1 & H2 & H3).
  - unfold MySQL.order_by. apply fold_insert_Forall; [exact H | constructor].
  - exists earlier, equals. split; [exact H1|]. split; [|exact H3].
    unfold MySQL.order_by in *. rewrite fold_left_app. simpl. exact H2.
Qed.
(** What an audit INSERT that reaches the server leaves on it. *)
Lemma audit_insert_reaches :
  forall (w : World) (uid : option Z) (uname : Py.value) (action table_name : string)
         (row_id : Py.value) (details : string),
    answers_next w = true ->
    server (snd (Hand.audit_log uid uname action table_name row_id details w))
    = MySQL.commit (pending w)
        (MySQL.with_audit_log
           (MySQL.audit_log (server w)
            ++ [recorded_row w uid uname action table_name row_id details])
           (MySQL.next_audit_id (server w) + 1) (server w)).
Proof.
  intros w uid uname action table_name row_id details Hnext.
  unfold answers_next in Hnext. unfold recorded_row, Hand.audit_log. run_script.
  destruct (replies w) as [|[results|[|]| |] rest]; try discriminate;
    simpl; rewrite app_nil_r; reflexivity.
Qed.




Example sample_session_audit :
  map MySQL.audit_row (MySQL.audit_log (server (run sample_session world_with_alice)))
  = [[("audit_id", Py.PyInt 1); ("app_user_id", Py.PyInt 1);
      ("username", Py.PyStr "alice"); ("action", Py.PyStr "CREATE_ITEM");
      ("table_name", Py.PyStr "Clothing_Items"); ("row_id", Py.PyStr "");
      ("details", Py.PyStr "Scarf"); ("created_at", Py.PyDatetime 1700000030)]].
Proof. vm_compute. reflexivity. Qed.

(** ** Registration and authentication *)

Arguments Sha256.hexdigest : simpl never.
Arguments Py.hexlify : simpl never.
Arguments Py.encode : simpl never.
Arguments Hand.hash_password : simpl never.

Lemma existsb_filter_nil :
  forall (A : Type) (f : A -> bool) (l : list A),
    existsb f l = false <-> filter f l = [].
Proof.
  intros A f l. induction l as [|x l IH]; simpl; [tauto|].
  destruct (f x); simpl; [split; discriminate | exact IH].
Qed.

Lemma answers_not_lost : forall w, answers_next w = true -> lost_next w = false.
Proof.
  intros w H. unfold answers_next in H. unfold lost_next.
  destruct (replies w) as [|[results|attempted| |] rest]; try discriminate; reflexivity.
Qed.

(** What [create_app_user] does, case by case. *)
Lemma create_app_user_outcome :
  forall (w : World) (username role password : string),
    exists w1,
      Hand.create_app_user username role password w
      = ((if lost_next w then Raises Py.ConnectorError
          else Returns (answers_next w && negb (username_taken w username))), w1)
      /\ MySQL.collation (server w1) = MySQL.collation (server w)
      /\ now w1 = now w
      /\ replies w1 = tl (replies w)
      /\ MySQL.app_users (server w1)
         = (if answers_next w && negb (username_taken w username)
            then MySQL.app_users (server w) ++ [registered_row w username role password]
            else MySQL.app_users (server w))
      /\ (answers_next w = true -> username_taken w username = true ->
          screen w1 = screen w
                      ++ [st_error_with "Execution error: " (MySQL.DuplicateEntry username)]).
Proof.
  intros w username role password.
  unfold Hand.create_app_user, Hand.make_salt, os_urandom, answers_next, lost_next,
         username_taken.
  run_script. simpl.
  destruct (replies w) as [|[results|[|]| |] rest] eqn:Hreplies; simpl;
    try (destruct (existsb _ _) eqn:Htaken; simpl);
    eexists; repeat split; intros;
    try reflexivity; try discriminate; exact Hreplies.
Qed.

(** A registration that has returned [True] was answered, on a free
    username. *)
Lemma create_app_user_returned_true :
  forall (w w1 : World) (username role password : string),
    Hand.create_app_user username role password w = (Returns true, w1) ->
    answers_next w = true /\ username_taken w username = false
    /\ MySQL.collation (server w1) = MySQL.collation (server w)
    /\ MySQL.app_users (server w1)
       = MySQL.app_users (server w) ++ [registered_row w username role password].
Proof.
  intros w w1 username role password Hrun.
  destruct (create_app_user_outcome w username role password)
    as (w1' & Hrun' & Hcoll & _ & _ & Husers & _).
  rewrite Hrun in Hrun'. injection Hrun' as Hok Hw. subst w1'.
  destruct (lost_next w); [discriminate|]. injection Hok as Hok.
  rewrite <- Hok in Husers. symmetry in Hok.
  apply andb_true_iff in Hok. destruct Hok as (Hnext & Hfree).
  apply negb_true_iff in Hfree. repeat split; assumption.
Qed.

Lemma run_query_lookup :
  forall (w : World) (username : string),
    Hand.run_query (MySQL.SelectAppUserByUsername username) w
    = ((if lost_next w then Raises Py.ConnectorError
        else Returns (if answers_next w
                      then map MySQL.app_user_row (matching_rows w username)
                      else [])),
       after_query w).
Proof.
  intros w username. unfold after_query, answers_next, lost_next, matching_rows.
  run_script.
  destruct (replies w) as [|[results|[|]| |] rest]; reflexivity.
Qed.

(** [authenticate_user] after its query. *)
Lemma authenticate_user_unfold :
  forall (w : World) (username password : string),
    Hand.authenticate_user username password w
    = if lost_next w then (Raises Py.ConnectorError, after_query w)
      else
        match (if answers_next w
               then map MySQL.app_user_row (matching_rows w username)
               else []) with
        | [] => (Returns None, after_query w)
        | row :: _ =>
            match row_get row "salt", row_get row "password_hash" with
            | Py.PyNone, _ => (Returns None, after_query w)
            | _, Py.PyNone => (Returns None, after_query w)
            | Py.PyStr salt_text, stored =>
                if Py.eq_str stored (Hand.hash_password password salt_text)
                then (Returns (Some row), after_query w)
                else (Returns None, after_query w)
            | _, _ => (Raises Py.TypeError, after_query w)
            end
        end.
Proof.
  intros w username password. unfold Hand.authenticate_user.
  pose proof (run_query_lookup w username) as Hquery.
  destruct (lost_next w).
  - unfold bind. rewrite Hquery. reflexivity.
  - rewrite (bind_returns _ _ _ _ _ _ _ Hquery).
    destruct (if answers_next w then _ else _) as [|row others]; [reflexivity|].
    destruct (row_get row "salt"); destruct (row_get row "password_hash");
      try reflexivity.
    unfold ret. destruct (Py.eq_str _ _); reflexivity.
Qed.

Lemma authenticate_user_fails :
  forall (w : World) (username password : string),
    unknown_username w username \/ wrong_password w username password ->
    Hand.authenticate_user username password w
    = ((if lost_next w then Raises Py.ConnectorError else Returns None), after_query w).
Proof.
  intros w username password H. rewrite authenticate_user_unfold.
  destruct (lost_next w); [reflexivity|].
  destruct (answers_next w); [|reflexivity].
  destruct H as [Hunknown | (row & others & salt & stored & Hrows & Hsalt & Hhash & Hne)].
  - unfold unknown_username in Hunknown. rewrite Hunknown. reflexivity.
  - rewrite Hrows. simpl. unfold row_get. simpl. rewrite Hsalt, Hhash. simpl.
    destruct (String.eqb stored (Hand.hash_password password salt)) eqn:E; [|reflexivity].
    apply String.eqb_eq in E. congruence.
Qed.

Lemma login_user_raises :
  forall (w w' : World) (username password : string) (e : Py.exn),
    Hand.authenticate_user username password w = (Raises e, w') ->
    Hand.login_user username password w = (Raises e, w').
Proof.
  intros w w' username password e H. unfold Hand.login_user, bind. rewrite H. reflexivity.
Qed.

Lemma login_user_fails :
  forall (w : World) (username password : string),
    Hand.authenticate_user username password w = (Returns None, after_query w) ->
    Hand.login_user username password w
    = (Returns false,
       with_screen (screen (after_query w) ++ [st_error "Invalid username or password"])
                   (after_query w)).
Proof.
  intros w username password H. unfold Hand.login_user.
  rewrite (bind_returns _ _ _ _ _ _ _ H). reflexivity.
Qed.

(** C2: when the username is not registered, and when it is registered
    but the digest recomputed from the supplied password differs from the
    stored one, [authenticate_user] returns [None] and [login_user]
    returns [False] after showing "Invalid username or password"; the
    outcome and the world left behind are the same for any two failing
    attempts, whichever of the two causes each one has.  (On a connection
    that has been lost the error of [cnx.cursor()] leaves both functions,
    in both cases alike, and nothing is shown.) *)
Theorem authentication_failure_is_uniform :
  forall (w : World) (username password other_username other_password : string),
    unknown_username w username \/ wrong_password w username password ->
    unknown_username w other_username \/ wrong_password w other_username other_password ->
    fst (Hand.authenticate_user username password w)
    = (if lost_next w then Raises Py.ConnectorError else Returns None)
    /\ Hand.authenticate_user username password w
       = Hand.authenticate_user other_username other_password w
    /\ fst (Hand.login_user username password w)
       = (if lost_next w then Raises Py.ConnectorError else Returns false)
    /\ (if lost_next w then
          screen (snd (Hand.login_user username password w)) = screen w
        else
          exists earlier,
            screen (snd (Hand.login_user username password w))
            = earlier ++ [st_error "Invalid username or password"])
    /\ app_user (snd (Hand.login_user username password w)) = app_user w
    /\ Hand.login_user username password w
       = Hand.login_user other_username other_password w.
Proof.
  intros w username password other_username other_password H H'.
  pose proof (authenticate_user_fails w _ _ H) as Ha.
  pose proof (authenticate_user_fails w _ _ H') as Ha'.
  assert (Hsession : app_user (after_query w) = app_user w
                     /\ (lost_next w = true -> screen (after_query w) = screen w)).
  { unfold after_query, lost_next. run_script.
    destruct (replies w) as [|[results|[|]| |] rest]; split; try reflexivity;
      intro; discriminate. }
  destruct Hsession as (Hsession & Hscreen).
  destruct (lost_next w).
  - rewrite (login_user_raises w _ _ _ _ Ha), (login_user_raises w _ _ _ _ Ha'), Ha, Ha'.
    repeat split; auto.
  - rewrite (login_user_fails w _ _ Ha), (login_user_fails w _ _ Ha'), Ha, Ha'.
    repeat split; [eexists; reflexivity | exact Hsession].
Qed.

Lemma authentication_failure_is_uniform_witness :
  (unknown_username world_with_alice "bob" \/ wrong_password world_with_alice "bob" "pass1234")
  /\ (unknown_username world_with_alice "alice" \/ wrong_password world_with_alice "alice" "wrong")
  /\ fst (Hand.authenticate_user "bob" "pass1234" world_with_alice) = Returns None
  /\ Hand.login_user "bob" "pass1234" world_with_alice
     = Hand.login_user "alice" "wrong" world_with_alice.
Proof.
  assert (Hbob : unknown_username world_with_alice "bob"
                 \/ wrong_password world_with_alice "bob" "pass1234").
  { left. vm_compute. reflexivity. }
  assert (Halice : unknown_username world_with_alice "alice"
                   \/ wrong_password world_with_alice "alice" "wrong").
  { right. unfold wrong_password. eexists. eexists. eexists. eexists.
    split; [vm_compute; reflexivity|].
    split; [vm_compute; reflexivity|].
    split; [vm_compute; reflexivity|].
    vm_compute. intro H. discriminate H. }
  split; [exact Hbob|]. split; [exact Halice|].
  pose proof (authentication_failure_is_uniform
                world_with_alice "bob" "pass1234" "alice" "wrong" Hbob Halice) as H.
  change (lost_next world_with_alice) with false in H.
  split; [apply H | apply H].
Defined.

Lemma same_text_collation :
  forall (s1 s2 : MySQL.Server) (column : option string) (text : string),
    MySQL.collation s1 = MySQL.collation s2 ->
    MySQL.same_text s1 column text = MySQL.same_text s2 column text.
Proof. intros s1 s2 column text H. unfold MySQL.same_text. rewrite H. reflexivity. Qed.

(** After a successful registration the query for the username finds the
    new row and no other. *)
Lemma registered_row_is_found :
  forall (w w1 : World) (username role password : string),
    collation_reflexive w ->
    Hand.create_app_user username role password w = (Returns true, w1) ->
    matching_rows w1 username = [registered_row w username role password].
Proof.
  intros w w1 username role password Hrefl Hrun.
  destruct (create_app_user_returned_true w w1 username role password Hrun)
    as (_ & Hfree & Hcoll & Husers).
  unfold username_taken in Hfree.
  unfold matching_rows. rewrite Husers, filter_app.
  rewrite (filter_ext _ (fun row => MySQL.same_text (server w) (MySQL.username row) username))
    by (intro row; apply same_text_collation; exact Hcoll).
  apply existsb_filter_nil in Hfree. rewrite Hfree. simpl.
  rewrite Hcoll, (Hrefl username). reflexivity.
Qed.
(** The keys of a row of [SELECT * FROM app_users]. *)
Lemma app_user_row_get :
  forall row : MySQL.AppUser,
    Py.get (MySQL.app_user_row row) "role" = Some (MySQL.cell (MySQL.role row))
    /\ Py.get (MySQL.app_user_row row) "username" = Some (MySQL.cell (MySQL.username row))
    /\ Py.get (MySQL.app_user_row row) "password_hash"
       = Some (MySQL.cell (MySQL.password_hash row))
    /\ Py.get (MySQL.app_user_row row) "salt" = Some (MySQL.cell (MySQL.salt row)).
Proof. intro row. repeat split. Qed.

(** [authenticate_user] when the row found holds the digest of the
    supplied password. *)
Lemma authenticate_user_succeeds :
  forall (w : World) (username password : string) (row : MySQL.AppUser)
         (others : list MySQL.AppUser) (salt : string),
    answers_next w = true ->
    matching_rows w username = row :: others ->
    MySQL.salt row = Some salt ->
    MySQL.password_hash row = Some (Hand.hash_password password salt) ->
    Hand.authenticate_user username password w
    = (Returns (Some (MySQL.app_user_row row)), after_query w).
Proof.
  intros w username password row others salt Hnext Hrows Hsalt Hhash.
  rewrite authenticate_user_unfold, (answers_not_lost w Hnext), Hnext, Hrows.
  cbn [map]. unfold row_get.
  destruct (app_user_row_get row) as (_ & _ & Hh & Hs).
  rewrite Hh, Hs, Hsalt, Hhash. cbn [MySQL.cell Py.eq_str].
  rewrite String.eqb_refl. reflexivity.
Qed.

(** C1: right after a successful [create_app_user(username, role,
    password)], with the server answering the query, [authenticate_user
    (username, password)] returns a credential, and its role is the role
    given at registration. *)
Theorem authenticate_after_register :
  forall (w w1 : World) (username role password : string),
    collation_reflexive w ->
    Hand.create_app_user username role password w = (Returns true, w1) ->
    answers_next w1 = true ->
    exists credential,
      fst (Hand.authenticate_user username password w1) = Returns (Some credential)
      /\ Py.get credential "role" = Some (Py.PyStr role)
      /\ Py.get credential "username" = Some (Py.PyStr username).
Proof.
  intros w w1 username role password Hrefl Hrun Hnext.
  exists (MySQL.app_user_row (registered_row w username role password)).
  rewrite (authenticate_user_succeeds w1 username password
             (registered_row w username role password) [] (new_salt w) Hnext
             (registered_row_is_found w w1 username role password Hrefl Hrun)
             eq_refl eq_refl).
  split; [reflexivity|].
  destruct (app_user_row_get (registered_row w username role password)) as (Hr & Hu & _).
  rewrite Hr, Hu. split; reflexivity.
Qed.

Lemma authenticate_after_register_witness :
  collation_reflexive fresh_world
  /\ Hand.create_app_user "alice" "manager" "pass1234" fresh_world
     = (Returns true, snd (Hand.create_app_user "alice" "manager" "pass1234" fresh_world))
  /\ answers_next (snd (Hand.create_app_user "alice" "manager" "pass1234" fresh_world)) = true
  /\ exists credential,
       fst (Hand.authenticate_user "alice" "pass1234"
              (snd (Hand.create_app_user "alice" "manager" "pass1234" fresh_world)))
       = Returns (Some credential)
       /\ Py.get credential "role" = Some (Py.PyStr "manager")
       /\ Py.get credential "username" = Some (Py.PyStr "alice").
Proof.
  assert (Hrefl : collation_reflexive fresh_world).
  { intro text. apply String.eqb_refl. }
  assert (Hrun : Hand.create_app_user "alice" "manager" "pass1234" fresh_world
                 = (Returns true,
                    snd (Hand.create_app_user "alice" "manager" "pass1234" fresh_world))).
  { vm_compute. reflexivity. }
  assert (Hnext : answers_next
                    (snd (Hand.create_app_user "alice" "manager" "pass1234" fresh_world))
                  = true).
  { vm_compute. reflexivity. }
  split; [exact Hrefl|]. split; [exact Hrun|]. split; [exact Hnext|].
  exact (authenticate_after_register fresh_world _ "alice" "manager" "pass1234"
           Hrefl Hrun Hnext).
Defined.

(** C3, counterexample: the credential [authenticate_user] returns for
    alice carries the stored digest and the stored salt. *)
Lemma authenticate_hands_out_digest_and_salt :
  exists credential,
    fst (Hand.authenticate_user "alice" "pass1234" world_with_alice)
    = Returns (Some credential)
    /\ Py.get credential "password_hash"
       = Some (Py.PyStr "e97cc2c3450d30a22146ccbf69f74289f5166352f5ac79fc65f9f4b64552c3e1")
    /\ Py.get credential "salt" = Some (Py.PyStr "000102030405060708090a0b0c0d0e0f")
    /\ map MySQL.password_hash (MySQL.app_users (server world_with_alice))
       = [Some "e97cc2c3450d30a22146ccbf69f74289f5166352f5ac79fc65f9f4b64552c3e1"]
    /\ map MySQL.salt (MySQL.app_users (server world_with_alice))
       = [Some "000102030405060708090a0b0c0d0e0f"].
Proof. eexists. vm_compute. repeat split. Qed.

(** C3, as the code has it: on a successful match [authenticate_user]
    returns the whole row of the credential as a dictionary, with the six
    columns of the table; the stored digest and the stored salt are in it
    under the keys [password_hash] and [salt]. *)
Theorem authenticate_returns_whole_row :
  forall (w w1 : World) (username password : string) (credential : Py.dict),
    Hand.authenticate_user username password w = (Returns (Some credential), w1) ->
    exists row salt,
      In row (MySQL.app_users (server w))
      /\ MySQL.same_text (server w) (MySQL.username row) username = true
      /\ MySQL.salt row = Some salt
      /\ MySQL.password_hash row = Some (Hand.hash_password password salt)
      /\ credential = MySQL.app_user_row row
      /\ map fst credential
         = ["app_user_id"; "username"; "role"; "password_hash"; "salt"; "created_at"]
      /\ Py.get credential "password_hash"
         = Some (Py.PyStr (Hand.hash_password password salt))
      /\ Py.get credential "salt" = Some (Py.PyStr salt).
Proof.
  intros w w1 username password credential H.
  rewrite authenticate_user_unfold in H.
  destruct (lost_next w); [discriminate|].
  destruct (answers_next w); [|discriminate].
  destruct (matching_rows w username) as [|row others] eqn:Hrows; [discriminate|].
  assert (Hin : In row (matching_rows w username)) by (rewrite Hrows; left; reflexivity).
  unfold matching_rows in Hin. apply filter_In in Hin. destruct Hin as (Hin & Hsame).
  simpl in H. unfold row_get in H. simpl in H.
  destruct (MySQL.salt row) as [salt|] eqn:Hsalt; simpl in H; [|discriminate].
  destruct (MySQL.password_hash row) as [stored|] eqn:Hhash; simpl in H; [|discriminate].
  destruct (String.eqb stored (Hand.hash_password password salt)) eqn:E; [|discriminate].
  apply String.eqb_eq in E. subst stored.
  injection H as Hcred _. subst credential.
  exists row, salt. simpl. rewrite Hsalt, Hhash. repeat split; assumption.
Qed.

Lemma authenticate_returns_whole_row_witness :
  Hand.authenticate_user "alice" "pass1234" world_with_alice
  = (Returns (Some (MySQL.app_user_row
                      (registered_row fresh_world "alice" "admin" "pass1234"))),
     after_query world_with_alice)
  /\ exists row salt,
       In row (MySQL.app_users (server world_with_alice))
       /\ MySQL.same_text (server world_with_alice) (MySQL.username row) "alice" = true
       /\ MySQL.salt row = Some salt
       /\ MySQL.password_hash row = Some (Hand.hash_password "pass1234" salt)
       /\ MySQL.app_user_row (registered_row fresh_world "alice" "admin" "pass1234")
          = MySQL.app_user_row row
       /\ map fst (MySQL.app_user_row (registered_row fresh_world "alice" "admin" "pass1234"))
          = ["app_user_id"; "username"; "role"; "password_hash"; "salt"; "created_at"]
       /\ Py.get (MySQL.app_user_row (registered_row fresh_world "alice" "admin" "pass1234"))
                 "password_hash"
          = Some (Py.PyStr (Hand.hash_password "pass1234" salt))
       /\ Py.get (MySQL.app_user_row (registered_row fresh_world "alice" "admin" "pass1234"))
                 "salt"
          = Some (Py.PyStr salt).
Proof.
  assert (H : Hand.authenticate_user "alice" "pass1234" world_with_alice
              = (Returns (Some (MySQL.app_user_row
                                  (registered_row fresh_world "alice" "admin" "pass1234"))),
                 after_query world_with_alice)).
  { vm_compute. reflexivity. }
  split; [exact H|].
  exact (authenticate_returns_whole_row world_with_alice _ "alice" "pass1234" _ H).
Defined.

(** ** Salt and digest *)

Lemma hexlify_length :
  forall b : Py.bytes, String.length (Py.hexlify b) = (2 * List.length b)%nat.
Proof.
  induction b as [|x rest IH]; [reflexivity|].
  change (Py.hexlify (x :: rest))
    with (String (Py.hex_digit (Byte.to_N x / 16))
            (String (Py.hex_digit (Byte.to_N x mod 16)) (Py.hexlify rest))).
  simpl String.length. rewrite IH. simpl. lia.
Qed.

Lemma hex_digits_of_byte :
  forall x : byte,
    Py.is_hex_digit (Py.hex_digit (Byte.to_N x / 16)) = true
    /\ Py.is_hex_digit (Py.hex_digit (Byte.to_N x mod 16)) = true.
Proof. intro x. destruct x; split; reflexivity. Qed.

Lemma hexlify_hex :
  forall b : Py.bytes, Py.all_chars Py.is_hex_digit (Py.hexlify b) = true.
Proof.
  induction b as [|x rest IH]; [reflexivity|].
  change (Py.hexlify (x :: rest))
    with (String (Py.hex_digit (Byte.to_N x / 16))
            (String (Py.hex_digit (Byte.to_N x mod 16)) (Py.hexlify rest))).
  destruct (hex_digits_of_byte x) as (Hhigh & Hlow).
  simpl Py.all_chars. rewrite Hhigh, Hlow, IH. reflexivity.
Qed.

(** C4: [make_salt] turns 16 bytes of [os.urandom] into 32 lower-case
    hexadecimal characters; [hash_password], in both files, is the
    SHA-256 hex digest of the salt followed by the password; and the row
    a successful [create_app_user] stores holds that salt and the digest
    of that salt followed by the password. *)
Theorem register_stores_salted_digest :
  forall (w : World) (username role password : string),
    List.length (drawn_bytes w 16) = 16%nat
    /\ Hand.make_salt w = (Returns (Py.hexlify (drawn_bytes w 16)), with_drawn (drawn w + 16) w)
    /\ String.length (new_salt w) = 32%nat
    /\ Py.all_chars Py.is_hex_digit (new_salt w) = true
    /\ (forall salt,
          Hand.hash_password password salt
          = Sha256.hexdigest (Py.encode (String.append salt password))
          /\ CreateAdmin.hash_password password salt
             = Sha256.hexdigest (Py.encode (String.append salt password)))
    /\ (forall w1,
          Hand.create_app_user username role password w = (Returns true, w1) ->
          MySQL.app_users (server w1)
          = MySQL.app_users (server w)
            ++ [MySQL.mkAppUser (MySQL.next_app_user_id (server w)) (Some username)
                  (Some role)
                  (Some (Sha256.hexdigest
                           (Py.encode (String.append (new_salt w) password))))
                  (Some (new_salt w)) (now w)]).
Proof.
  intros w username role password.
  split; [reflexivity|]. split; [reflexivity|].
  split; [unfold new_salt; rewrite hexlify_length; reflexivity|].
  split; [apply hexlify_hex|].
  split; [intro salt; split; reflexivity|].
  intros w1 Hrun.
  destruct (create_app_user_returned_true w w1 username role password Hrun)
    as (_ & _ & _ & Husers).
  exact Husers.
Qed.

Lemma register_stores_salted_digest_witness :
  Hand.create_app_user "alice" "manager" "pass1234" fresh_world
  = (Returns true, snd (Hand.create_app_user "alice" "manager" "pass1234" fresh_world))
  /\ new_salt fresh_world = "000102030405060708090a0b0c0d0e0f"
  /\ MySQL.app_users
       (server (snd (Hand.create_app_user "alice" "manager" "pass1234" fresh_world)))
     = MySQL.app_users (server fresh_world)
       ++ [MySQL.mkAppUser (MySQL.next_app_user_id (server fresh_world)) (Some "alice")
             (Some "manager")
             (Some (Sha256.hexdigest
                      (Py.encode (String.append (new_salt fresh_world) "pass1234"))))
             (Some (new_salt fresh_world)) (now fresh_world)].
Proof.
  assert (Hrun : Hand.create_app_user "alice" "manager" "pass1234" fresh_world
                 = (Returns true,
                    snd (Hand.create_app_user "alice" "manager" "pass1234" fresh_world))).
  { vm_compute. reflexivity. }
  split; [exact Hrun|]. split; [vm_compute; reflexivity|].
  apply (register_stores_salted_digest fresh_world "alice" "manager" "pass1234").
  exact Hrun.
Defined.

(** C5: [create_app_user] with a username that an existing credential
    already has returns [False] and leaves the table of credentials as it
    was, every row unchanged; when the statement reaches the server the
    error shown is the duplicate-entry error of the UNIQUE index, and the
    transaction is rolled back.  (On a connection that has been lost the
    error of [cnx.cursor()] leaves the function; the table is as it
    was.) *)
Theorem register_taken_username_is_rejected :
  forall (w : World) (existing : MySQL.AppUser) (username role password : string),
    collation_reflexive w ->
    In existing (MySQL.app_users (server w)) ->
    MySQL.username existing = Some username ->
    exists w1,
      Hand.create_app_user username role password w
      = ((if lost_next w then Raises Py.ConnectorError else Returns false), w1)
      /\ MySQL.app_users (server w1) = MySQL.app_users (server w)
      /\ In existing (MySQL.app_users (server w1))
      /\ (answers_next w = true ->
          screen w1 = screen w
                      ++ [st_error_with "Execution error: " (MySQL.DuplicateEntry username)]
          /\ pending w1 = []).
Proof.
  intros w existing username role password Hrefl Hin Hname.
  assert (Htaken : username_taken w username = true).
  { unfold username_taken. apply existsb_exists. exists existing.
    split; [exact Hin|]. rewrite Hname. simpl. apply Hrefl. }
  destruct (create_app_user_outcome w username role password)
    as (w1 & Hrun & _ & _ & _ & Husers & Hshown).
  rewrite Htaken, andb_false_r in Hrun, Husers.
  exists w1. split; [exact Hrun|]. split; [exact Husers|].
  split; [rewrite Husers; exact Hin|].
  intro Hnext. split; [apply Hshown; assumption|].
  revert Hrun. unfold Hand.create_app_user, Hand.make_salt, os_urandom.
  unfold answers_next in Hnext. unfold username_taken in Htaken. run_script. simpl.
  destruct (replies w) as [|[results|[|]| |] rest]; try discriminate; simpl;
    rewrite Htaken; simpl; intro Hrun; injection Hrun as Hw; subst w1; reflexivity.
Qed.

Lemma register_taken_username_is_rejected_witness :
  collation_reflexive world_with_alice
  /\ In (registered_row fresh_world "alice" "admin" "pass1234")
        (MySQL.app_users (server world_with_alice))
  /\ exists w1,
       Hand.create_app_user "alice" "cashier" "other-password" world_with_alice
       = (Returns false, w1)
       /\ MySQL.app_users (server w1) = MySQL.app_users (server world_with_alice)
       /\ In (registered_row fresh_world "alice" "admin" "pass1234")
             (MySQL.app_users (server w1))
       /\ (answers_next world_with_alice = true ->
           screen w1 = screen world_with_alice
                       ++ [st_error_with "Execution error: " (MySQL.DuplicateEntry "alice")]
           /\ pending w1 = []).
Proof.
  assert (Hrefl : collation_reflexive world_with_alice).
  { intro text. apply String.eqb_refl. }
  assert (Hin : In (registered_row fresh_world "alice" "admin" "pass1234")
                   (MySQL.app_users (server world_with_alice))).
  { left. vm_compute. reflexivity. }
  split; [exact Hrefl|]. split; [exact Hin|].
  pose proof (register_taken_username_is_rejected world_with_alice _ "alice" "cashier"
                "other-password" Hrefl Hin eq_refl) as H.
  change (lost_next world_with_alice) with false in H. exact H.
Defined.

(** ** Where the password length is checked *)

Lemma current_role_reads :
  forall w, Hand.current_role w = (fst (Hand.current_role w), w).
Proof.
  intro w. unfold Hand.current_role. run_script.
  destruct (app_user w) as [[|entry user]|]; try reflexivity.
  destruct (Py.get (entry :: user) "role"); reflexivity.
Qed.

(** C10: [create_app_user] itself checks nothing about the password: for
    every password, however short, on a free username and with the
    server answering it stores the credential with the digest of that
    password.  The minimum of 4 characters is imposed by its callers:
    with a stripped password shorter than 4 the admin form shows an error
    and the command-line script prints "Invalid input.", and neither
    draws a salt nor makes a round trip to the database; otherwise, with
    a non-empty username, they hand the stripped username and password
    to [create_app_user] and [create_admin]. *)
Theorem password_length_is_checked_by_callers :
  (forall (w : World) (username role password : string),
      answers_next w = true ->
      username_taken w username = false ->
      exists w1,
        Hand.create_app_user username role password w = (Returns true, w1)
        /\ MySQL.app_users (server w1)
           = MySQL.app_users (server w) ++ [registered_row w username role password])
  /\ (forall (w : World) (uname role_sel pw : string),
        Py.len (Py.strip pw) < 4 ->
        let w1 := snd (Hand.create_app_user_form uname role_sel pw w) in
        server w1 = server w /\ replies w1 = replies w /\ drawn w1 = drawn w
        /\ (fst (Hand.current_role w) = Returns (Py.PyStr "admin") ->
            Hand.create_app_user_form uname role_sel pw w
            = (Returns tt,
               with_screen (screen w ++ [st_error "Username non-empty and password >= 4 chars"])
                           w)))
  /\ (forall (w : World) (uname role_sel pw : string),
        4 <= Py.len (Py.strip pw) ->
        0 < Py.len (Py.strip uname) ->
        fst (Hand.current_role w) = Returns (Py.PyStr "admin") ->
        Hand.create_app_user_form uname role_sel pw w
        = (ok <- Hand.create_app_user (Py.strip uname) role_sel (Py.strip pw) ;;
           if ok then
             show (st_success "App user created.") ;;
             Hand.record_and_rerun "CREATE_APP_USER" "app_users" (Py.PyStr "")
                                   (fstring [uname])
           else ret tt) w)
  /\ (forall (w : World) (typed_username typed_password : string),
        Py.len (Py.strip typed_password) < 4 ->
        CreateAdmin.main typed_username typed_password w
        = (Returns tt, with_screen (screen w ++ [printed "Invalid input."]) w))
  /\ (forall (w : World) (typed_username typed_password : string),
        4 <= Py.len (Py.strip typed_password) ->
        0 < Py.len (Py.strip typed_username) ->
        CreateAdmin.main typed_username typed_password w
        = CreateAdmin.create_admin (Py.strip typed_username) (Py.strip typed_password) w).
Proof.
  split; [|split; [|split; [|split]]].
  - intros w username role password Hnext Hfree.
    destruct (create_app_user_outcome w username role password)
      as (w1 & Hrun & _ & _ & _ & Husers & _).
    rewrite (answers_not_lost w Hnext) in Hrun.
    rewrite Hnext, Hfree in Hrun, Husers. simpl in Hrun, Husers.
    exists w1. split; assumption.
  - intros w uname role_sel pw Hshort w1. subst w1.
    apply Z.ltb_lt in Hshort.
    unfold Hand.create_app_user_form, bind.
    rewrite (current_role_reads w).
    destruct (fst (Hand.current_role w)) as [role| |e]; simpl.
    + rewrite Hshort, orb_true_r.
      destruct (Py.eq_str role "admin") eqn:Hadmin; simpl;
        (split; [reflexivity|]); (split; [reflexivity|]); (split; [reflexivity|]);
        intro H.
      * reflexivity.
      * injection H as H. subst role. discriminate Hadmin.
    + repeat split. discriminate.
    + repeat split. discriminate.
  - intros w uname role_sel pw Hlong Hname Hadmin.
    apply Z.ltb_ge in Hlong.
    assert (Hn : (Py.len (Py.strip uname) =? 0) = false) by (apply Z.eqb_neq; lia).
    unfold Hand.create_app_user_form. unfold bind at 1.
    rewrite (current_role_reads w), Hadmin. simpl.
    rewrite Hlong, Hn. reflexivity.
  - intros w tu tp Hshort. apply Z.ltb_lt in Hshort.
    unfold CreateAdmin.main. rewrite Hshort, orb_true_r. reflexivity.
  - intros w tu tp Hlong Hname. apply Z.ltb_ge in Hlong.
    assert (Hn : (Py.len (Py.strip tu) =? 0) = false) by (apply Z.eqb_neq; lia).
    unfold CreateAdmin.main. rewrite Hlong, Hn. reflexivity.
Qed.

(** A three-character password is registered by [create_app_user], and
    turned down by the form and by the script. *)
Lemma password_length_is_checked_by_callers_witness :
  (exists w1,
      Hand.create_app_user "bob" "cashier" "abc" world_with_alice = (Returns true, w1)
      /\ MySQL.app_users (server w1)
         = MySQL.app_users (server world_with_alice)
           ++ [registered_row world_with_alice "bob" "cashier" "abc"])
  /\ CreateAdmin.main "root" " abc " world_with_alice
     = (Returns tt,
        with_screen (screen world_with_alice ++ [printed "Invalid input."]) world_with_alice)
  /\ server (snd (Hand.create_app_user_form "bob" "cashier" "abc" world_with_alice))
     = server world_with_alice.
Proof.
  destruct password_length_is_checked_by_callers as (Hany & Hform & _ & Hcli & _).
  split; [|split].
  - apply Hany; vm_compute; reflexivity.
  - apply Hcli. vm_compute. reflexivity.
  - apply (Hform world_with_alice "bob" "cashier" "abc"). vm_compute. reflexivity.
Defined.

(** ** The audit record and the mutation it follows *)

Lemma ledger_grows_unchanged :
  forall w w', MySQL.ledger (server w') = MySQL.ledger (server w) -> ledger_grows w w'.
Proof. intros w w' H. exists []. rewrite app_nil_r. exact H. Qed.

Lemma ledger_grows_trans :
  forall w1 w2 w3, ledger_grows w1 w2 -> ledger_grows w2 w3 -> ledger_grows w1 w3.
Proof.
  intros w1 w2 w3 (m12 & H12) (m23 & H23). exists (m12 ++ m23).
  rewrite H23, H12, app_assoc. reflexivity.
Qed.

(** [run_modification] returns [True] only once the statement and all
    the work pending on the connection are committed. *)
Lemma run_modification_commits :
  forall (q : MySQL.Statement) (w w1 : World),
    Hand.run_modification q w = (Returns true, w1) ->
    pending w1 = []
    /\ exists s work,
         MySQL.execute q (now w) (server w) = inr (s, work)
         /\ MySQL.ledger (server w1) = MySQL.ledger (server w) ++ pending w ++ work.
Proof.
  intros q w w1. unfold Hand.run_modification. run_script.
  destruct (replies w) as [|[results|[|]| |] rest]; simpl; try discriminate;
    destruct (MySQL.execute q (now w) (server w)) as [e|[s work]] eqn:Hexec;
    simpl; try discriminate;
    intro H; injection H as Hw; subst w1; simpl;
    (split; [reflexivity|]); exists s, work; (split; [reflexivity|]);
    destruct q as [table|u r h st|uid u a t rid d|text params]; simpl in Hexec;
    try (destruct (existsb _ _); try discriminate);
    injection Hexec as Hs Hwork; subst s work; reflexivity.
Qed.

Lemma ledger_grows_modification :
  forall q, Preserves ledger_grows (Hand.run_modification q).
Proof.
  intros q w. unfold Hand.run_modification. run_script.
  destruct (replies w) as [|[results|[|]| |] rest]; simpl;
    try (apply ledger_grows_unchanged; reflexivity);
    destruct (MySQL.execute q (now w) (server w)) as [err|[s work]] eqn:Hexec; simpl;
    try (apply ledger_grows_unchanged; reflexivity);
    destruct q as [table|u r h st|uid u a t rid d|text params]; simpl in Hexec;
    try (destruct (existsb _ _); try discriminate);
    injection Hexec as Hs Hwork; subst s work; eexists; reflexivity.
Qed.

(** No run of [Hand.py] that hands single statements to the server
    undoes committed work. *)
Lemma script_ledger_grows :
  forall a, plain_action a = true -> Preserves ledger_grows (Hand.script a).
Proof.
  apply script_preserves.
  - intro w. apply ledger_grows_unchanged. reflexivity.
  - exact ledger_grows_trans.
  - intros m w. apply ledger_grows_unchanged. reflexivity.
  - intro w. unfold next_reply. destruct (replies w); apply ledger_grows_unchanged; reflexivity.
  - intros n w. apply ledger_grows_unchanged. reflexivity.
  - exact ledger_grows_modification.
  - intros name params w. unfold Hand.callproc. run_script.
    destruct (MySQL.commits_itself (server w) name); simpl.
    + eexists. reflexivity.
    + apply ledger_grows_unchanged. reflexivity.
  - intros u w. apply ledger_grows_unchanged. reflexivity.
Qed.

(** [audit_log] returns nothing, whatever becomes of its INSERT, and
    raises only on a connection that has been lost; called when nothing
    is pending on the connection, it leaves the committed work as it is
    and nothing pending. *)
Lemma audit_log_is_best_effort :
  forall (w : World) uid uname action table_name row_id details,
    let w1 := snd (Hand.audit_log uid uname action table_name row_id details w) in
    fst (Hand.audit_log uid uname action table_name row_id details w)
    = (if lost_next w then Raises Py.ConnectorError else Returns tt)
    /\ (pending w = [] ->
        MySQL.ledger (server w1) = MySQL.ledger (server w) /\ pending w1 = [])
    /\ MySQL.app_users (server w1) = MySQL.app_users (server w).
Proof.
  intros w uid uname action table_name row_id details.
  unfold Hand.audit_log, lost_next. run_script.
  destruct (replies w) as [|[results|[|]| |] rest]; simpl;
    (split; [reflexivity|]); (split; [|reflexivity]);
    intro H; rewrite ?H; simpl; rewrite ?app_nil_r; split; reflexivity.
Qed.

(** On the handlers that change the data through [run_modification], the
    audit record is written after the commit and its failure changes
    nothing: when the INSERT of a new item has gone through, the item is
    committed at the end of the run although the audit INSERT has failed,
    and no audit row is stored. *)
Example item_is_kept_when_audit_fails :
  let w := with_replies last_of_five_fails alice_logged_in in
  let w' := snd (Hand.script new_scarf w) in
  fst (Hand.script new_scarf w) = Reruns
  /\ MySQL.ledger (server w')
     = [MySQL.Executed
          "INSERT INTO Clothing_Items (name, size, color, price, collection_id) VALUES (%s,%s,%s,%s,%s)"
          [Py.PyStr "Scarf"; Py.PyStr "M"; Py.PyStr "red";
           Py.PyFloat (Py.mkFloat (QArith_base.Qmake 499 1) "499.0"); Py.PyInt 2]]
  /\ MySQL.audit_log (server w') = []
  /\ screen w'
     = [st_success "Logged in as alice (admin)"; st_success "Item created.";
        st_error_with "Execution error: " MySQL.ServerError].
Proof. vm_compute. repeat split. Qed.

(** C7 at the Process Sale form: [call_proc] does not commit, so the sale
    is still pending on the connection when [audit_log] is called; when
    the audit INSERT then fails, [run_modification] rolls the connection
    back and the sale is gone, although the user has been told it was
    made.  With the audit INSERT going through, the same run commits the
    sale together with the audit row. *)
Theorem sale_is_lost_when_audit_fails :
  let w := with_replies last_of_six_fails alice_logged_in in
  let w' := snd (Hand.script sale_of_two_scarves w) in
  let sale := MySQL.Called "ProcessSale" [Py.PyInt 3; Py.PyInt 7; Py.PyInt 2; Py.PyStr "Cash"] in
  MySQL.commits_itself (server w) "ProcessSale" = false
  /\ fst (Hand.script sale_of_two_scarves w) = Reruns
  /\ screen w'
     = [st_success "Logged in as alice (admin)";
        st_success "ProcessSale invoked. Check Sales and Inventory.";
        st_error_with "Execution error: " MySQL.ServerError]
  /\ MySQL.ledger (server w') = []
  /\ pending w' = []
  /\ MySQL.audit_log (server w') = []
  /\ (let called := snd (Hand.call_proc "ProcessSale"
                           [Py.PyInt 3; Py.PyInt 7; Py.PyInt 2; Py.PyStr "Cash"]
                           alice_logged_in) in
      pending called = [sale] /\ MySQL.ledger (server called) = [])
  /\ (let served := snd (Hand.script sale_of_two_scarves alice_logged_in) in
      MySQL.ledger (server served) = [sale]
      /\ map MySQL.action (MySQL.audit_log (server served)) = [Some "PROCESS_SALE"]).
Proof. vm_compute. repeat split. Qed.

(** * Further properties of the code *)

(** ** The DB helpers *)

Lemma database_untouched_refl : forall w, database_untouched w w.
Proof. intro w. split; reflexivity. Qed.

Lemma database_untouched_trans :
  forall w1 w2 w3,
    database_untouched w1 w2 -> database_untouched w2 w3 -> database_untouched w1 w3.
Proof. intros w1 w2 w3 (H1 & H2) (H3 & H4). split; congruence. Qed.

Lemma database_untouched_show : forall m, Preserves database_untouched (show m).
Proof. intros m w. split; reflexivity. Qed.

Lemma database_untouched_next_reply : Preserves database_untouched next_reply.
Proof. intro w. unfold next_reply. destruct (replies w); split; reflexivity. Qed.

Lemma database_untouched_session :
  forall u, Preserves database_untouched (update (with_app_user u)).
Proof. intros u w. split; reflexivity. Qed.



(** X2: [run_modification] raises in one case only: the cached
    connection has been lost, so that [cnx.cursor()], which stands
    before the [try], raises; then nothing is shown and nothing is
    rolled back, the server and the pending work are as before.
    Otherwise it returns.  It returns [True] only when the statement has
    been executed and committed together with all the work pending on
    the connection, after which nothing is pending.  When it returns
    [False] an error has been shown and the tables and the committed
    work are as before; the pending work is discarded by the rollback,
    except when there was no connection at all, in which case it stays
    pending. *)
Theorem run_modification_commits_or_reports :
  forall (q : MySQL.Statement) (w : World),
    let w1 := snd (Hand.run_modification q w) in
    if lost_next w then
      fst (Hand.run_modification q w) = Raises Py.ConnectorError
      /\ server w1 = server w
      /\ pending w1 = pending w
      /\ screen w1 = screen w
    else
      exists ok,
        fst (Hand.run_modification q w) = Returns ok
        /\ if ok then
             pending w1 = []
             /\ screen w1 = screen w
             /\ exists s work,
                  MySQL.execute q (now w) (server w) = inr (s, work)
                  /\ server w1 = MySQL.commit (pending w ++ work) s
           else
             server w1 = server w
             /\ (exists shown, screen w1 = screen w ++ shown /\ shown <> [])
             /\ pending w1 = (if no_connection_next w then pending w else []).
Proof.
  intros q w. unfold lost_next, no_connection_next, Hand.run_modification. run_script.
  destruct (replies w) as [|[results|[|]| |] rest]; simpl;
    try (repeat split; reflexivity);
    try (exists false; simpl; split; [reflexivity|]; split; [reflexivity|];
         split; [|reflexivity]; eexists; split;
         [rewrite <- ?app_assoc; reflexivity | discriminate]).
  - destruct (MySQL.execute q (now w) (server w)) as [e|[s work]] eqn:Hexec; simpl.
    + exists false. simpl. split; [reflexivity|]. split; [reflexivity|].
      split; [|reflexivity]. eexists. split; [reflexivity | discriminate].
    + exists true. simpl. split; [reflexivity|]. split; [reflexivity|].
      split; [reflexivity|]. exists s, work. split; reflexivity.
  - destruct (MySQL.execute q (now w) (server w)) as [e|[s work]] eqn:Hexec; simpl.
    + exists false. simpl. split; [reflexivity|]. split; [reflexivity|].
      split; [|reflexivity]. eexists. split; [reflexivity | discriminate].
    + exists true. simpl. split; [reflexivity|]. split; [reflexivity|].
      split; [reflexivity|]. exists s, work. split; reflexivity.
Qed.

(** X3: [call_proc] neither commits nor rolls back.  On a lost
    connection [cnx.cursor()], which stands before the [try], raises:
    nothing is shown, and the server and the open transaction are as
    they were.  When the call does not go through for another reason it
    returns [None], having shown an error, and leaves the server and
    the open transaction as they were; when it goes through it returns the result sets and the
    work of a routine that does not commit by itself is left pending on
    the connection, nothing being added to the committed work. *)
Theorem call_proc_leaves_the_transaction_open :
  forall (proc_name : string) (params : list Py.value) (w : World),
    let w1 := snd (Hand.call_proc proc_name params w) in
    if answers_next w then
      (exists results, fst (Hand.call_proc proc_name params w) = Returns (Some results))
      /\ if MySQL.commits_itself (server w) proc_name then
           MySQL.ledger (server w1)
           = MySQL.ledger (server w) ++ pending w ++ [MySQL.Called proc_name params]
           /\ pending w1 = []
         else
           server w1 = server w
           /\ pending w1 = pending w ++ [MySQL.Called proc_name params]
    else
      fst (Hand.call_proc proc_name params w)
      = (if lost_next w then Raises Py.ConnectorError else Returns None)
      /\ (if lost_next w then screen w1 = screen w
          else exists shown, screen w1 = screen w ++ shown /\ shown <> [])
      /\ server w1 = server w
      /\ pending w1 = pending w.
Proof.
  intros proc_name params w. unfold answers_next, lost_next, Hand.call_proc. run_script.
  destruct (replies w) as [|[results|[|]| |] rest]; simpl;
    destruct (MySQL.commits_itself (server w) proc_name); simpl;
    try (split; [eexists; reflexivity | split; reflexivity]);
    (split; [reflexivity|]; split; [|split; reflexivity]);
    first [reflexivity
          | eexists; split; [rewrite <- ?app_assoc; reflexivity | discriminate]].
Qed.

(** ** Logging in *)

Lemma login_user_succeeds :
  forall (w : World) (username password : string) (row : MySQL.AppUser),
    Hand.authenticate_user username password w
    = (Returns (Some (MySQL.app_user_row row)), after_query w) ->
    Hand.login_user username password w
    = (Returns true,
       with_screen
         (screen (after_query w)
          ++ [st_success (fstring ["Logged in as "; username; " (";
                                   Py.str (MySQL.cell (MySQL.role row)); ")"])])
         (with_app_user (Some (MySQL.app_user_row row)) (after_query w))).
Proof.
  intros w username password row H. unfold Hand.login_user.
  rewrite (bind_returns _ _ _ _ _ _ _ H). reflexivity.
Qed.

(** What the session helpers read when the session holds a row of
    [app_users]. *)
Lemma session_reads_of_row :
  forall (w : World) (row : MySQL.AppUser),
    app_user w = Some (MySQL.app_user_row row) ->
    Hand.current_role w = (Returns (MySQL.cell (MySQL.role row)), w)
    /\ Hand.current_user_id w = (Returns (Some (MySQL.app_user_id row)), w)
    /\ Hand.session_username w = (Returns (MySQL.cell (MySQL.username row)), w).
Proof.
  intros w row H.
  unfold Hand.current_role, Hand.current_user_id, Hand.session_username.
  run_script. rewrite H. repeat split.
Qed.

(** X4: registering, then logging in with the same username and password
    (the server answering the query) succeeds: [login_user] returns
    [True], greets the user with the registered role, and stores the
    credential in the session, from which [current_role] reads the
    registered role, [current_user_id] the id the server gave the new
    row, and the audit calls the registered username; after [logout]
    there is no user and no role. *)
Theorem login_after_register :
  forall (w w1 : World) (username role password : string),
    collation_reflexive w ->
    Hand.create_app_user username role password w = (Returns true, w1) ->
    answers_next w1 = true ->
    let w2 := snd (Hand.login_user username password w1) in
    fst (Hand.login_user username password w1) = Returns true
    /\ screen w2
       = screen w1 ++ [st_success (fstring ["Logged in as "; username; " ("; role; ")"])]
    /\ fst (Hand.current_role w2) = Returns (Py.PyStr role)
    /\ fst (Hand.current_user_id w2)
       = Returns (Some (MySQL.next_app_user_id (server w)))
    /\ fst (Hand.session_username w2) = Returns (Py.PyStr username)
    /\ fst (Hand.current_role (snd (Hand.logout w2))) = Returns Py.PyNone
    /\ fst (Hand.current_user_id (snd (Hand.logout w2))) = Returns None.
Proof.
  intros w w1 username role password Hrefl Hrun Hnext w2.
  pose proof (authenticate_user_succeeds w1 username password
                (registered_row w username role password) [] (new_salt w) Hnext
                (registered_row_is_found w w1 username role password Hrefl Hrun)
                eq_refl eq_refl) as Hauth.
  pose proof (login_user_succeeds w1 username password _ Hauth) as Hlogin.
  assert (Hscreen : screen (after_query w1) = screen w1).
  { unfold after_query, answers_next in *. run_script.
    destruct (replies w1) as [|[results|[|]| |] rest]; try discriminate; reflexivity. }
  subst w2. rewrite Hlogin.
  split; [reflexivity|]. split; [simpl; rewrite Hscreen; reflexivity|].
  cbn [snd].
  match goal with
  | |- context [Hand.current_role ?x] =>
      destruct (session_reads_of_row x (registered_row w username role password) eq_refl)
        as (Hr & Hi & Hu)
  end.
  rewrite Hr, Hi, Hu. repeat split.
Qed.

Lemma login_after_register_witness :
  collation_reflexive fresh_world
  /\ Hand.create_app_user "alice" "admin" "pass1234" fresh_world
     = (Returns true, world_with_alice)
  /\ answers_next world_with_alice = true
  /\ fst (Hand.login_user "alice" "pass1234" world_with_alice) = Returns true
  /\ fst (Hand.current_role (snd (Hand.login_user "alice" "pass1234" world_with_alice)))
     = Returns (Py.PyStr "admin").
Proof.
  assert (Hrefl : collation_reflexive fresh_world).
  { intro text. apply String.eqb_refl. }
  assert (Hrun : Hand.create_app_user "alice" "admin" "pass1234" fresh_world
                 = (Returns true, world_with_alice)).
  { vm_compute. reflexivity. }
  assert (Hnext : answers_next world_with_alice = true).
  { vm_compute. reflexivity. }
  split; [exact Hrefl|]. split; [exact Hrun|]. split; [exact Hnext|].
  pose proof (login_after_register fresh_world world_with_alice "alice" "admin" "pass1234"
                Hrefl Hrun Hnext) as H.
  split; apply H.
Defined.

(** X5: when the query for the credential does not go through because
    there is no connection or because the driver raises, [login_user]
    fails exactly like a login with bad credentials: it returns [False],
    its last message is "Invalid username or password", and the session
    is unchanged, whatever the username and the password.  When the
    cached connection has been lost, the error of [cnx.cursor()] leaves
    [authenticate_user] and [login_user]: nothing is shown and the
    session is unchanged. *)
Theorem login_reports_database_failure_as_bad_credentials :
  forall (w : World) (username password : string),
    answers_next w = false ->
    let w1 := snd (Hand.login_user username password w) in
    if lost_next w then
      fst (Hand.authenticate_user username password w) = Raises Py.ConnectorError
      /\ fst (Hand.login_user username password w) = Raises Py.ConnectorError
      /\ screen w1 = screen w
      /\ app_user w1 = app_user w
    else
      fst (Hand.authenticate_user username password w) = Returns None
      /\ fst (Hand.login_user username password w) = Returns false
      /\ (exists earlier, screen w1 = earlier ++ [st_error "Invalid username or password"])
      /\ app_user w1 = app_user w.
Proof.
  intros w username password Hnext w1. subst w1.
  pose proof (authenticate_user_unfold w username password) as Hauth.
  rewrite Hnext in Hauth.
  assert (Hafter : app_user (after_query w) = app_user w
                   /\ (lost_next w = true -> screen (after_query w) = screen w)).
  { unfold after_query, lost_next. run_script.
    destruct (replies w) as [|[results|[|]| |] rest];
      split; first [reflexivity | discriminate]. }
  destruct Hafter as (Hsession & Hscreen).
  destruct (lost_next w).
  - rewrite (login_user_raises w _ _ _ _ Hauth), Hauth. cbn [fst snd].
    split; [reflexivity|]. split; [reflexivity|].
    split; [apply Hscreen; reflexivity | exact Hsession].
  - rewrite (login_user_fails w _ _ Hauth), Hauth. cbn [fst snd].
    split; [reflexivity|]. split; [reflexivity|].
    split; [eexists; reflexivity | exact Hsession].
Qed.

Lemma login_reports_database_failure_as_bad_credentials_witness :
  answers_next (with_replies [Fails] world_with_alice) = false
  /\ fst (Hand.login_user "alice" "pass1234" (with_replies [Fails] world_with_alice))
     = Returns false.
Proof.
  assert (Hnext : answers_next (with_replies [Fails] world_with_alice) = false).
  { vm_compute. reflexivity. }
  split; [exact Hnext|].
  pose proof (login_reports_database_failure_as_bad_credentials
                (with_replies [Fails] world_with_alice) "alice" "pass1234" Hnext) as H.
  change (lost_next (with_replies [Fails] world_with_alice)) with false in H.
  cbv beta iota zeta in H. apply H.
Defined.

(** X6: a credential whose stored salt or stored digest is NULL cannot
    be authenticated: [authenticate_user] returns [None] for it whatever
    the password supplied (on a connection that has been lost, the error
    of [cnx.cursor()] leaves the function instead). *)
Theorem null_salt_or_digest_never_authenticates :
  forall (w : World) (username password : string) (row : MySQL.AppUser)
         (others : list MySQL.AppUser),
    matching_rows w username = row :: others ->
    MySQL.salt row = None \/ MySQL.password_hash row = None ->
    Hand.authenticate_user username password w
    = ((if lost_next w then Raises Py.ConnectorError else Returns None), after_query w).
Proof.
  intros w username password row others Hrows Hnull.
  rewrite authenticate_user_unfold, Hrows.
  destruct (lost_next w); [reflexivity|].
  destruct (answers_next w); [|reflexivity].
  cbn [map]. unfold row_get.
  destruct (app_user_row_get row) as (_ & _ & Hh & Hs). rewrite Hh, Hs.
  destruct Hnull as [Hn | Hn]; rewrite Hn; cbn [MySQL.cell].
  - reflexivity.
  - destruct (MySQL.cell (MySQL.salt row)); reflexivity.
Qed.

Lemma null_salt_or_digest_never_authenticates_witness :
  matching_rows world_with_unsalted_user "legacy"
  = [MySQL.mkAppUser 1 (Some "legacy") (Some "admin") (Some "5f4dcc3b") None 1690000000]
  /\ Hand.authenticate_user "legacy" "5f4dcc3b" world_with_unsalted_user
     = (Returns None, after_query world_with_unsalted_user).
Proof.
  assert (Hrows : matching_rows world_with_unsalted_user "legacy"
                  = [MySQL.mkAppUser 1 (Some "legacy") (Some "admin") (Some "5f4dcc3b")
                                     None 1690000000]).
  { vm_compute. reflexivity. }
  split; [exact Hrows|].
  assert (Hnull : MySQL.salt (MySQL.mkAppUser 1 (Some "legacy") (Some "admin")
                                (Some "5f4dcc3b") None 1690000000) = None
                  \/ MySQL.password_hash
                       (MySQL.mkAppUser 1 (Some "legacy") (Some "admin")
                          (Some "5f4dcc3b") None 1690000000) = None).
  { left. reflexivity. }
  pose proof (null_salt_or_digest_never_authenticates world_with_unsalted_user "legacy"
                "5f4dcc3b" _ [] Hrows Hnull) as H.
  change (lost_next world_with_unsalted_user) with false in H.
  cbv beta iota in H. exact H.
Defined.

(** ** Roles, the session and the audit record *)

(** X7: the actions reserved for some roles (creating, updating and
    deleting items, emptying and deleting inventory rows, adding
    suppliers, fabrics, designers and collections, creating app users)
    do nothing at all when the role of the session is not one of them,
    and in particular when nobody is logged in: no round trip to the
    database, no message, the world is unchanged. *)
Theorem reserved_actions_need_their_role :
  forall (a : Hand.Action) (roles : list string) (w : World) (role : Py.value),
    required_roles a = Some roles ->
    fst (Hand.current_role w) = Returns role ->
    Hand.role_in role roles = false ->
    Hand.handle a w = (Returns tt, w).
Proof.
  intros a roles w role Hreq Hrole Hnot.
  pose proof (current_role_reads w) as Hreads. rewrite Hrole in Hreads.
  destruct a; simpl in Hreq; try discriminate;
    injection Hreq as Hroles; subst roles; simpl;
    unfold Hand.create_item, Hand.update_item, Hand.delete_item, Hand.zero_inventory,
           Hand.delete_inventory, Hand.add_supplier, Hand.add_fabric, Hand.add_designer,
           Hand.add_collection, Hand.create_app_user_form;
    rewrite (bind_returns _ _ _ _ _ _ _ Hreads);
    try rewrite Hnot;
    try (unfold Hand.role_in in Hnot; simpl in Hnot; rewrite orb_false_r in Hnot;
         rewrite Hnot);
    reflexivity.
Qed.

Lemma reserved_actions_need_their_role_witness :
  required_roles (Hand.SubmitCreateAppUser "eve" "admin" "secret") = Some ["admin"]
  /\ fst (Hand.current_role fresh_world) = Returns Py.PyNone
  /\ Hand.role_in Py.PyNone ["admin"] = false
  /\ Hand.handle (Hand.SubmitCreateAppUser "eve" "admin" "secret") fresh_world
     = (Returns tt, fresh_world).
Proof.
  split; [reflexivity|]. split; [reflexivity|]. split; [reflexivity|].
  apply (reserved_actions_need_their_role
           (Hand.SubmitCreateAppUser "eve" "admin" "secret") ["admin"] fresh_world
           Py.PyNone); reflexivity.
Defined.

(** X8: the Inventory page's "Apply stock change" and the Alerts page's
    "Set quantity and trigger alert" test no role.  With nobody logged
    in and the server answering, the UPDATE is executed and committed,
    the success message is shown, and the run then ends with a
    [TypeError] raised while the arguments of [audit_log] are evaluated:
    no audit row is written for the change. *)
Theorem anonymous_stock_change_is_committed_unaudited :
  forall (w : World) (inventory_id : Py.value) (amount : Z),
    app_user w = None ->
    answers_next w = true ->
    (let w1 := snd (Hand.apply_stock_change inventory_id amount w) in
     fst (Hand.apply_stock_change inventory_id amount w) = Raises Py.TypeError
     /\ MySQL.ledger (server w1)
        = MySQL.ledger (server w) ++ pending w
          ++ [MySQL.Executed
                "UPDATE Inventory SET quantity_in_stock = quantity_in_stock + %s WHERE inventory_id = %s"
                [Py.PyInt amount; inventory_id]]
     /\ screen w1 = screen w ++ [st_success "Inventory updated."]
     /\ MySQL.audit_log (server w1) = MySQL.audit_log (server w))
    /\ (let w1 := snd (Hand.simulate_reorder_trigger inventory_id amount w) in
        fst (Hand.simulate_reorder_trigger inventory_id amount w) = Raises Py.TypeError
        /\ MySQL.ledger (server w1)
           = MySQL.ledger (server w) ++ pending w
             ++ [MySQL.Executed
                   "UPDATE Inventory SET quantity_in_stock = %s WHERE inventory_id = %s"
                   [Py.PyInt amount; inventory_id]]
        /\ screen w1
           = screen w
             ++ [st_success "Inventory updated. Trigger will insert alert if condition met."]
        /\ MySQL.audit_log (server w1) = MySQL.audit_log (server w)).
Proof.
  intros w inventory_id amount Hnobody Hnext. unfold answers_next in Hnext.
  unfold Hand.apply_stock_change, Hand.simulate_reorder_trigger, Hand.record_and_rerun,
         Hand.current_user_id, Hand.session_username.
  run_script.
  destruct (replies w) as [|[results|[|]| |] rest]; try discriminate; simpl;
    repeat (rewrite Hnobody; simpl); repeat split.
Qed.

Lemma anonymous_stock_change_is_committed_unaudited_witness :
  app_user fresh_world = None
  /\ answers_next fresh_world = true
  /\ fst (Hand.apply_stock_change (Py.PyInt 4) (-3) fresh_world) = Raises Py.TypeError
  /\ MySQL.ledger (server (snd (Hand.apply_stock_change (Py.PyInt 4) (-3) fresh_world)))
     = [MySQL.Executed
          "UPDATE Inventory SET quantity_in_stock = quantity_in_stock + %s WHERE inventory_id = %s"
          [Py.PyInt (-3); Py.PyInt 4]].
Proof.
  split; [reflexivity|]. split; [reflexivity|].
  destruct (anonymous_stock_change_is_committed_unaudited fresh_world (Py.PyInt 4) (-3)
              eq_refl eq_refl) as ((Hraise & Hledger & _) & _).
  split; [exact Hraise | exact Hledger].
Defined.

Lemma text_cell_of_cell :
  forall column : option string, MySQL.text_cell (MySQL.cell column) = column.
Proof. intros [text|]; reflexivity. Qed.

(** X9: with the credential of a logged-in user in the session and the
    server answering, the audit call that ends every audited handler
    stores one row that carries the id and the username of that user,
    the action, the table, the row id as text and the details, and then
    asks for a rerun. *)
Theorem audit_row_names_the_session_user :
  forall (w : World) (user : MySQL.AppUser) (action table_name : string)
         (row_id : Py.value) (details : string),
    app_user w = Some (MySQL.app_user_row user) ->
    answers_next w = true ->
    let w1 := snd (Hand.record_and_rerun action table_name row_id details w) in
    fst (Hand.record_and_rerun action table_name row_id details w) = Reruns
    /\ MySQL.audit_log (server w1)
       = MySQL.audit_log (server w)
         ++ [MySQL.mkAuditRow (MySQL.next_audit_id (server w))
               (Some (MySQL.app_user_id user)) (MySQL.username user) (Some action)
               (Some table_name) (Some (Py.str row_id)) (Some details) (now w)].
Proof.
  intros w user action table_name row_id details Hsession Hnext.
  destruct (session_reads_of_row w user Hsession) as (_ & Hid & Hname).
  unfold Hand.record_and_rerun.
  rewrite (bind_returns _ _ _ _ _ _ _ Hid), (bind_returns _ _ _ _ _ _ _ Hname).
  unfold answers_next in Hnext. unfold Hand.audit_log. run_script.
  destruct (replies w) as [|[results|[|]| |] rest]; try discriminate; simpl;
    rewrite text_cell_of_cell; split; reflexivity.
Qed.

Lemma audit_row_names_the_session_user_witness :
  app_user alice_logged_in
  = Some (MySQL.app_user_row (registered_row fresh_world "alice" "admin" "pass1234"))
  /\ answers_next alice_logged_in = true
  /\ map MySQL.audit_username
         (MySQL.audit_log
            (server (snd (Hand.record_and_rerun "DELETE_ITEM" "Clothing_Items" (Py.PyInt 12)
                                                "deleted" alice_logged_in))))
     = [Some "alice"].
Proof.
  assert (Hsession : app_user alice_logged_in
                     = Some (MySQL.app_user_row
                               (registered_row fresh_world "alice" "admin" "pass1234"))).
  { vm_compute. reflexivity. }
  assert (Hnext : answers_next alice_logged_in = true).
  { vm_compute. reflexivity. }
  split; [exact Hsession|]. split; [exact Hnext|].
  destruct (audit_row_names_the_session_user alice_logged_in _ "DELETE_ITEM"
              "Clothing_Items" (Py.PyInt 12) "deleted" Hsession Hnext) as (_ & Hlog).
  rewrite Hlog. vm_compute. reflexivity.
Defined.

(** ** The table of credentials over a session *)

Lemma users_grow_unchanged :
  forall w w',
    MySQL.collation (server w') = MySQL.collation (server w) ->
    MySQL.app_users (server w') = MySQL.app_users (server w) ->
    users_grow w w'.
Proof.
  intros w w' Hcoll Husers. split; [exact Hcoll|]. split.
  - exists []. rewrite app_nil_r. exact Husers.
  - intros _ H. unfold stored_usernames in *. rewrite Husers. exact H.
Qed.

Lemma users_grow_trans :
  forall w1 w2 w3, users_grow w1 w2 -> users_grow w2 w3 -> users_grow w1 w3.
Proof.
  intros w1 w2 w3 (Hc12 & (a12 & Hu12) & Hn12) (Hc23 & (a23 & Hu23) & Hn23).
  split; [congruence|]. split.
  - exists (a12 ++ a23). rewrite Hu23, Hu12, app_assoc. reflexivity.
  - intros Hrefl Hnodup. apply Hn23.
    + intro text. rewrite Hc12. apply Hrefl.
    + apply Hn12; assumption.
Qed.

Lemma stored_username_is_taken :
  forall (w : World) (name : string),
    collation_reflexive w ->
    In name (stored_usernames w) ->
    username_taken w name = true.
Proof.
  intros w name Hrefl Hin. unfold stored_usernames in Hin.
  apply in_flat_map in Hin. destruct Hin as (row & Hrow & Hname).
  unfold username_taken. apply existsb_exists. exists row. split; [exact Hrow|].
  destruct (MySQL.username row) as [stored|]; [|contradiction].
  destruct Hname as [Heq|[]]. subst stored. simpl. apply Hrefl.
Qed.

(** The INSERT of a credential keeps the usernames distinct. *)
Lemma users_grow_insert :
  forall (w w' : World) (u r h s : string) (server' : MySQL.Server)
         (work : list MySQL.Entry),
    MySQL.execute (MySQL.InsertAppUser u r h s) (now w) (server w) = inr (server', work) ->
    MySQL.collation (server w') = MySQL.collation server' ->
    MySQL.app_users (server w') = MySQL.app_users server' ->
    users_grow w w'.
Proof.
  intros w w' u r h s server' work Hexec Hcoll Husers.
  simpl in Hexec.
  destruct (existsb _ _) eqn:Htaken; [discriminate|].
  injection Hexec as Hserver Hwork. subst server'. simpl in Hcoll, Husers.
  split; [exact Hcoll|]. split; [eexists; exact Husers|].
  intros Hrefl Hnodup. unfold stored_usernames in *. rewrite Husers, flat_map_app.
  simpl. apply NoDup_app; [exact Hnodup | constructor; [intros [] | constructor] |].
  intros name Hin [Heq|[]]. subst name.
  pose proof (stored_username_is_taken w u Hrefl Hin) as H.
  unfold username_taken in H. congruence.
Qed.

(** The server after [run_modification]: as before, or after the
    statement and the commit. *)
Lemma run_modification_server :
  forall (q : MySQL.Statement) (w : World),
    server (snd (Hand.run_modification q w)) = server w
    \/ exists s work,
         MySQL.execute q (now w) (server w) = inr (s, work)
         /\ server (snd (Hand.run_modification q w)) = MySQL.commit (pending w ++ work) s.
Proof.
  intros q w. unfold Hand.run_modification. run_script.
  destruct (replies w) as [|[results|[|]| |] rest]; simpl;
    try (left; reflexivity);
    destruct (MySQL.execute q (now w) (server w)) as [e|[s work]] eqn:Hexec; simpl;
    try (left; reflexivity);
    right; exists s, work; split; reflexivity.
Qed.

Lemma users_grow_modification :
  forall q, Preserves users_grow (Hand.run_modification q).
Proof.
  intros q w.
  destruct (run_modification_server q w) as [Hserver | (server' & work & Hexec & Hserver)].
  - apply users_grow_unchanged; rewrite Hserver; reflexivity.
  - destruct q as [table|u r h s|uid u a t rid d|text params].
    + simpl in Hexec. injection Hexec as Hs Hw. subst server'.
      apply users_grow_unchanged; rewrite Hserver; reflexivity.
    + eapply users_grow_insert; [exact Hexec | rewrite Hserver; reflexivity
                                 | rewrite Hserver; reflexivity].
    + simpl in Hexec. injection Hexec as Hs Hw. subst server'.
      apply users_grow_unchanged; rewrite Hserver; reflexivity.
    + simpl in Hexec. injection Hexec as Hs Hw. subst server'.
      apply users_grow_unchanged; rewrite Hserver; reflexivity.
Qed.

Lemma script_users_grow :
  forall a, plain_action a = true -> Preserves users_grow (Hand.script a).
Proof.
  apply script_preserves.
  - intro w. apply users_grow_unchanged; reflexivity.
  - exact users_grow_trans.
  - intros m w. apply users_grow_unchanged; reflexivity.
  - intro w. unfold next_reply.
    destruct (replies w); apply users_grow_unchanged; reflexivity.
  - intros n w. apply users_grow_unchanged; reflexivity.
  - exact users_grow_modification.
  - intros name params w. unfold Hand.callproc. run_script.
    destruct (MySQL.commits_itself (server w) name);
      apply users_grow_unchanged; reflexivity.
  - intros u w. apply users_grow_unchanged; reflexivity.
Qed.

Lemma insert_app_user_executes :
  forall (w : World) (u r h s : string),
    username_taken w u = false ->
    MySQL.execute (MySQL.InsertAppUser u r h s) (now w) (server w)
    = inr (MySQL.with_app_users
             (MySQL.app_users (server w)
              ++ [MySQL.mkAppUser (MySQL.next_app_user_id (server w)) (Some u) (Some r)
                                  (Some h) (Some s) (now w)])
             (MySQL.next_app_user_id (server w) + 1) (server w),
           []).
Proof.
  intros w u r h s Hfree. unfold username_taken in Hfree. simpl.
  rewrite Hfree. reflexivity.
Qed.

Lemma bootstrap_users_grow :
  forall typed_username typed_password,
    Preserves users_grow (CreateAdmin.main typed_username typed_password).
Proof.
  intros tu tp w. unfold CreateAdmin.main, CreateAdmin.create_admin, CreateAdmin.make_salt.
  destruct (_ || _); run_script; unfold os_urandom; simpl.
  - apply users_grow_unchanged; reflexivity.
  - destruct (replies w) as [|[results|attempted| |] rest]; simpl;
      try (apply users_grow_unchanged; reflexivity);
      destruct (existsb _ _) eqn:Htaken; simpl;
      try (apply users_grow_unchanged; reflexivity);
      (eapply users_grow_insert;
       [apply insert_app_user_executes; exact Htaken | reflexivity | reflexivity]).
Qed.

(** X10: whatever the two programs do during a session in which every
    text handed to the server is a single statement, the credentials
    present at its start are still in the table afterwards, unchanged and
    in place (no statement of the programs updates or deletes a
    credential), and, on a server that compares a text equal to itself,
    usernames that were distinct at the start are still distinct: no
    second credential with an existing username is ever stored.  (A text
    typed into the SQL Runner that carries further statements is outside
    this: the server runs them.) *)
Theorem credentials_are_kept_and_usernames_stay_distinct :
  forall (events : list Event) (w : World),
    forallb plain_event events = true ->
    collation_reflexive w ->
    NoDup (stored_usernames w) ->
    (exists added,
        MySQL.app_users (server (run events w)) = MySQL.app_users (server w) ++ added)
    /\ NoDup (stored_usernames (run events w)).
Proof.
  assert (Hstep : forall w e, plain_event e = true -> users_grow w (step w e)).
  { intros w [a|tu tp|seconds] He; simpl.
    - apply script_users_grow. exact He.
    - apply bootstrap_users_grow.
    - apply users_grow_unchanged; reflexivity. }
  assert (Hrun : forall events w,
             forallb plain_event events = true -> users_grow w (run events w)).
  { induction events as [|e events IH]; intros w Hplain; simpl.
    - apply users_grow_unchanged; reflexivity.
    - simpl in Hplain. apply andb_prop in Hplain. destruct Hplain as (He & Hrest).
      eapply users_grow_trans; [apply Hstep; exact He | apply IH; exact Hrest]. }
  intros events w Hplain Hrefl Hnodup.
  destruct (Hrun events w Hplain) as (_ & Hprefix & Hkeep).
  split; [exact Hprefix | apply Hkeep; assumption].
Qed.

Lemma credentials_are_kept_and_usernames_stay_distinct_witness :
  forallb plain_event sample_session = true
  /\ collation_reflexive world_with_alice
  /\ NoDup (stored_usernames world_with_alice)
  /\ NoDup (stored_usernames (run sample_session world_with_alice)).
Proof.
  assert (Hplain : forallb plain_event sample_session = true) by reflexivity.
  assert (Hrefl : collation_reflexive world_with_alice).
  { intro text. apply String.eqb_refl. }
  assert (Hnodup : NoDup (stored_usernames world_with_alice)).
  { change (stored_usernames world_with_alice) with ["alice"].
    constructor; [intros [] | constructor]. }
  split; [exact Hplain|]. split; [exact Hrefl|]. split; [exact Hnodup|].
  apply (credentials_are_kept_and_usernames_stay_distinct sample_session
           world_with_alice Hplain Hrefl Hnodup).
Defined.

(** ** The listing pages *)

(** What [display] shows when the server answers a single statement:
    the rows, or the text given for an empty result. *)
Lemma display_answers :
  forall (q : MySQL.Query) (nothing : string) (w : World),
    MySQL.plain q = true ->
    answers_next w = true ->
    exists results,
      next_reply w = (Returns (Answers results), with_replies (tl (replies w)) w)
      /\ Hand.display q nothing w
         = (Returns tt,
            with_screen
              (screen w
               ++ [match MySQL.result_set q results (server w) with
                   | [] => st_info nothing
                   | first :: others => st_dataframe (first :: others)
                   end])
              (with_replies (tl (replies w)) w)).
Proof.
  intros q nothing w Hplain Hnext. unfold answers_next in Hnext.
  assert (Hfurther : forall w', Hand.further_statements q w' = (Returns tt, w')).
  { intro w'. destruct q; try reflexivity.
    simpl in *. unfold runs_further. rewrite Hplain. reflexivity. }
  unfold Hand.display, Hand.run_query, Hand.get_db_conn, bind, next_reply.
  destruct (replies w) as [|[results|[|]| |] rest] eqn:Hreplies; try discriminate.
  - exists []. split.
    + destruct w; simpl in *; subst; reflexivity.
    + cbn [ret fst snd]. rewrite Hfurther. unfold world, ret, show, update. cbn [fst snd].
      replace (with_replies (tl []) w) with w
        by (destruct w; simpl in *; subst; reflexivity).
      destruct (MySQL.result_set q [] (server w)); reflexivity.
  - exists results. split; [reflexivity|].
    cbn [ret fst snd tl]. rewrite Hfurther. unfold world, ret, show, update. cbn [fst snd].
    change (server (with_replies rest w)) with (server w).
    destruct (MySQL.result_set q results (server w)); reflexivity.
Qed.

Lemma insert_by_length :
  forall (A : Type) (key : A -> Z) (before : A -> A -> bool) (x : A) (sorted : list A),
    List.length (MySQL.insert_by key before x sorted) = S (List.length sorted).
Proof.
  intros A key before x sorted. induction sorted as [|y rest IH]; simpl; [reflexivity|].
  destruct (_ || _); simpl; [reflexivity | rewrite IH; reflexivity].
Qed.

Lemma order_by_desc_length :
  forall (A : Type) (key : A -> Z) (before : A -> A -> bool) (rows : list A),
    List.length (MySQL.order_by_desc key before rows) = List.length rows.
Proof.
  intros A key before rows. unfold MySQL.order_by_desc, MySQL.order_by.
  rewrite length_rev.
  assert (H : forall acc,
             List.length (fold_left (fun sorted x => MySQL.insert_by key before x sorted)
                                    rows acc)
             = (List.length rows + List.length acc)%nat).
  { induction rows as [|x rows IH]; intro acc; simpl; [reflexivity|].
    rewrite IH, insert_by_length. lia. }
  rewrite H. simpl. lia.
Qed.

(** What a record that reaches the server leaves behind. *)
Lemma audit_log_reaches_the_server :
  forall (w : World) (uid : option Z) (uname : Py.value) (action table_name : string)
         (row_id : Py.value) (details : string),
    answers_next w = true ->
    let w1 := snd (Hand.audit_log uid uname action table_name row_id details w) in
    MySQL.audit_log (server w1)
    = MySQL.audit_log (server w)
      ++ [recorded_row w uid uname action table_name row_id details]
    /\ screen w1 = screen w
    /\ replies w1 = tl (replies w).
Proof.
  intros w uid uname action table_name row_id details Hnext.
  unfold answers_next in Hnext. unfold recorded_row, Hand.audit_log. run_script.
  destruct (replies w) as [|[results|[|]| |] rest] eqn:Hreplies; try discriminate;
    simpl; repeat split; exact Hreplies.
Qed.

Lemma audit_log_keeps_the_order_of_ties :
  forall (w : World) (uid : option Z) (uname : Py.value) (action table_name : string)
         (row_id : Py.value) (details : string),
    MySQL.listed_first
      (server (snd (Hand.audit_log uid uname action table_name row_id details w)))
    = MySQL.listed_first (server w).
Proof.
  intros w uid uname action table_name row_id details.
  unfold Hand.audit_log. run_script.
  destruct (replies w) as [|[results|[|]| |] rest]; reflexivity.
Qed.

(** X11: the Audit Log page, opened after a record has reached a
    well-formed audit table, shows at most 500 lines, from the newest
    creation time on.  The new record comes before every record of an
    earlier second; the records stamped in the same second as the new
    one have the same sort key, [ORDER BY created_at] has no second key,
    and the record is listed among them where the server puts it.  When
    every stored record is of an earlier second, the new record is the
    first line. *)
Theorem audit_page_shows_the_newest_record_first :
  forall (w : World) (uid : option Z) (uname : Py.value) (action table_name : string)
         (row_id : Py.value) (details : string),
    audit_ok w ->
    answers_next w = true ->
    let w1 := snd (Hand.audit_log uid uname action table_name row_id details w) in
    answers_next w1 = true ->
    let r := recorded_row w uid uname action table_name row_id details in
    exists same_second older : list MySQL.AuditRow,
      MySQL.order_by_desc MySQL.audit_created_at (MySQL.audit_before (server w))
                          (MySQL.audit_log (server w))
      = same_second ++ older
      /\ Forall (fun old => MySQL.audit_created_at old = now w) same_second
      /\ screen (snd (Hand.audit_log_page w1))
         = screen w
           ++ [st_dataframe
                 (map MySQL.audit_row (firstn 500 (same_second ++ r :: older)))]
      /\ (List.length (firstn 500 (same_second ++ r :: older)) <= 500)%nat
      /\ (Forall (fun old => MySQL.audit_created_at old < now w)
                 (MySQL.audit_log (server w)) ->
          same_second = []).
Proof.
  intros w uid uname action table_name row_id details Hok Hnext w1 Hnext1 r.
  destruct (audit_log_reaches_the_server w uid uname action table_name row_id details Hnext)
    as (Hlog & Hscreen & _).
  pose proof (audit_log_keeps_the_order_of_ties w uid uname action table_name row_id details)
    as Hties.
  fold w1 in Hlog, Hscreen, Hties. fold r in Hlog.
  destruct (order_by_newest_among_equals _ MySQL.audit_created_at
              (MySQL.audit_before (server w)) (MySQL.audit_log (server w)) r)
    as (earlier & equals & Hbefore & Hafter & Hequals).
  { eapply Forall_impl; [|exact Hok]. simpl. intros old (_ & Htime). exact Htime. }
  exists (rev equals), (rev earlier).
  split; [unfold MySQL.order_by_desc; rewrite Hbefore; apply rev_app_distr|].
  split; [apply Forall_rev; exact Hequals|].
  split; [|split].
  - unfold Hand.audit_log_page.
    destruct (display_answers MySQL.SelectAuditLog "No audit logs yet." w1 eq_refl Hnext1)
      as (results & _ & Hshow).
    rewrite Hshow. cbn [snd]. unfold MySQL.result_set, MySQL.order_by_desc.
    unfold MySQL.audit_before at 1. rewrite Hties.
    fold (MySQL.audit_before (server w)).
    rewrite Hlog, Hafter, rev_app_distr. cbn [rev]. rewrite <- app_assoc. cbn [app].
    cbn [screen with_screen with_replies]. rewrite Hscreen.
    destruct (rev equals) as [|first others]; reflexivity.
  - rewrite length_firstn. lia.
  - intro Holder.
    assert (Hnone : equals = []).
    { destruct equals as [|old others]; [reflexivity|]. exfalso.
      assert (Hin : In old (MySQL.order_by MySQL.audit_created_at
                              (MySQL.audit_before (server w))
                              (MySQL.audit_log (server w)))).
      { rewrite Hbefore. apply in_or_app. right. left. reflexivity. }
      assert (Hall : Forall (fun old => MySQL.audit_created_at old < now w)
                            (MySQL.order_by MySQL.audit_created_at
                               (MySQL.audit_before (server w))
                               (MySQL.audit_log (server w)))).
      { unfold MySQL.order_by. apply fold_insert_Forall; [exact Holder | constructor]. }
      pose proof (proj1 (Forall_forall _ _) Hall old Hin) as Hlt.
      inversion Hequals as [|old' others' Heq Hrest]; subst.
      cbv beta in *. unfold r, recorded_row in Heq. simpl in Heq. lia. }
    rewrite Hnone. reflexivity.
Qed.

Lemma audit_page_shows_the_newest_record_first_witness :
  let w := with_now 1700000030 world_with_record_of_this_second in
  audit_ok w
  /\ answers_next w = true
  /\ screen (snd (Hand.audit_log_page
                    (snd (Hand.audit_log (Some 1) (Py.PyStr "alice") "DELETE_ITEM"
                            "Clothing_Items" (Py.PyInt 13) "deleted" w))))
     = screen w
       ++ [st_dataframe
             (map MySQL.audit_row
                  (recorded_row w (Some 1) (Py.PyStr "alice") "DELETE_ITEM"
                                "Clothing_Items" (Py.PyInt 13) "deleted"
                   :: MySQL.audit_log (server w)))].
Proof.
  intro w.
  assert (Hok : audit_ok w).
  { constructor; [split; [reflexivity | discriminate] | constructor]. }
  assert (Hnext : answers_next w = true) by reflexivity.
  assert (Holder : Forall (fun old => MySQL.audit_created_at old < now w)
                          (MySQL.audit_log (server w))).
  { constructor; [reflexivity | constructor]. }
  split; [exact Hok|]. split; [exact Hnext|].
  destruct (audit_page_shows_the_newest_record_first
              w (Some 1) (Py.PyStr "alice") "DELETE_ITEM" "Clothing_Items"
              (Py.PyInt 13) "deleted" Hok Hnext eq_refl)
    as (same_second & older & Hlisting & _ & Hscreen & _ & Hfirst).
  rewrite (Hfirst Holder) in Hlisting, Hscreen.
  cbn [app] in Hlisting, Hscreen. rewrite <- Hlisting in Hscreen.
  exact Hscreen.
Defined.

(** X12: the Admin page lists the app users to every visitor, whatever
    the role of the session and also when nobody is logged in (the
    warning "Only Admins ..." is added, the listing is not withheld).
    The listing has one line per stored credential, and a line has the
    id, the username, the role and the creation time: neither the digest
    nor the salt. *)
Theorem admin_listing_is_shown_to_every_role :
  forall (w : World) (role : Py.value),
    fst (Hand.current_role w) = Returns role ->
    answers_next w = true ->
    MySQL.app_users (server w) <> [] ->
    exists df,
      screen (snd (Hand.admin_page_listing w))
      = screen w
        ++ (if Py.eq_str role "admin" then []
            else [st_warning "Only Admins can manage app users. Login as an admin to create app users."])
        ++ [st_dataframe df]
      /\ List.length df = List.length (MySQL.app_users (server w))
      /\ Forall (fun line => map fst line = ["app_user_id"; "username"; "role"; "created_at"])
                df.
Proof.
  intros w role Hrole Hnext Hsome.
  pose proof (current_role_reads w) as Hreads. rewrite Hrole in Hreads.
  exists (map MySQL.app_user_listing_row
              (MySQL.order_by_desc MySQL.created_at (MySQL.user_before (server w))
                                   (MySQL.app_users (server w)))).
  split; [|split].
  - unfold Hand.admin_page_listing.
    rewrite (bind_returns _ _ _ _ _ _ _ Hreads).
    assert (Hrows : MySQL.order_by_desc MySQL.created_at (MySQL.user_before (server w))
                                        (MySQL.app_users (server w)) <> []).
    { intro H. apply Hsome. apply length_zero_iff_nil.
      rewrite <- (order_by_desc_length _ MySQL.created_at (MySQL.user_before (server w))), H.
      reflexivity. }
    destruct (Py.eq_str role "admin"); cbn [negb].
    + rewrite (bind_returns _ _ _ _ _ _ _ (eq_refl : ret tt w = (Returns tt, w))).
      destruct (display_answers MySQL.SelectAppUsers "No app users found." w eq_refl Hnext)
        as (results & _ & Hshow).
      rewrite Hshow. cbn [snd MySQL.result_set].
      destruct (MySQL.order_by_desc MySQL.created_at (MySQL.user_before (server w))
                                    (MySQL.app_users (server w)));
        [contradiction|reflexivity].
    + set (w' := with_screen
                   (screen w ++ [st_warning "Only Admins can manage app users. Login as an admin to create app users."])
                   w).
      rewrite (bind_returns _ _ _ _ _ _ _
                 (eq_refl : show (st_warning "Only Admins can manage app users. Login as an admin to create app users.") w
                            = (Returns tt, w'))).
      destruct (display_answers MySQL.SelectAppUsers "No app users found." w' eq_refl Hnext)
        as (results & _ & Hshow).
      rewrite Hshow. cbn [snd MySQL.result_set].
      change (server w') with (server w).
      destruct (MySQL.order_by_desc MySQL.created_at (MySQL.user_before (server w))
                                    (MySQL.app_users (server w)));
        [contradiction|].
      simpl. rewrite <- app_assoc. reflexivity.
  - rewrite length_map. apply order_by_desc_length.
  - apply Forall_forall. intros line Hin. apply in_map_iff in Hin.
    destruct Hin as (u & Hline & _). subst line. reflexivity.
Qed.

Lemma admin_listing_is_shown_to_every_role_witness :
  fst (Hand.current_role world_with_alice) = Returns Py.PyNone
  /\ answers_next world_with_alice = true
  /\ MySQL.app_users (server world_with_alice) <> []
  /\ exists df,
       screen (snd (Hand.admin_page_listing world_with_alice))
       = screen world_with_alice
         ++ (if Py.eq_str Py.PyNone "admin" then []
             else [st_warning "Only Admins can manage app users. Login as an admin to create app users."])
         ++ [st_dataframe df]
       /\ List.length df = List.length (MySQL.app_users (server world_with_alice))
       /\ Forall (fun line => map fst line = ["app_user_id"; "username"; "role"; "created_at"])
                 df.
Proof.
  assert (Hrole : fst (Hand.current_role world_with_alice) = Returns Py.PyNone)
    by reflexivity.
  assert (Hnext : answers_next world_with_alice = true) by reflexivity.
  assert (Hsome : MySQL.app_users (server world_with_alice) <> []).
  { vm_compute. intro H. discriminate H. }
  split; [exact Hrole|]. split; [exact Hnext|]. split; [exact Hsome|].
  exact (admin_listing_is_shown_to_every_role world_with_alice Py.PyNone Hrole Hnext Hsome).
Defined.

(** ** The bootstrap script and the application *)

(** A row appended under a username that was free is the one row the
    query for that username finds. *)
Lemma appended_row_is_found :
  forall (w w1 : World) (row : MySQL.AppUser) (name : string),
    collation_reflexive w ->
    MySQL.collation (server w1) = MySQL.collation (server w) ->
    MySQL.app_users (server w1) = MySQL.app_users (server w) ++ [row] ->
    MySQL.username row = Some name ->
    username_taken w name = false ->
    matching_rows w1 name = [row].
Proof.
  intros w w1 row name Hrefl Hcoll Husers Hname Hfree.
  unfold username_taken in Hfree. apply existsb_filter_nil in Hfree.
  unfold matching_rows. rewrite Husers, filter_app.
  rewrite (filter_ext _ (fun r => MySQL.same_text (server w) (MySQL.username r) name))
    by (intro r; apply same_text_collation; exact Hcoll).
  rewrite Hfree. simpl. unfold MySQL.same_text. rewrite Hname, Hcoll, (Hrefl name).
  reflexivity.
Qed.

(** What [create_admin] does, case by case. *)
Lemma create_admin_outcome :
  forall (w : World) (username password : string),
    let out := CreateAdmin.create_admin username password w in
    let w1 := snd out in
    MySQL.collation (server w1) = MySQL.collation (server w)
    /\ MySQL.audit_log (server w1) = MySQL.audit_log (server w)
    /\ MySQL.ledger (server w1) = MySQL.ledger (server w)
    /\ pending w1 = pending w
    /\ app_user w1 = app_user w
    /\ replies w1 = tl (replies w)
    /\ if no_connection_next w || lost_next w then
         fst out = Raises Py.ConnectorError
         /\ screen w1 = screen w
         /\ server w1 = server w
       else if answers_next w then
         if username_taken w username then
           fst out = Returns tt
           /\ screen w1
              = screen w ++ [printed_with "Error:" (MySQL.DuplicateEntry username)]
           /\ server w1 = server w
         else
           fst out = Returns tt
           /\ screen w1 = screen w ++ [printed "Admin user created."]
           /\ MySQL.app_users (server w1)
              = MySQL.app_users (server w) ++ [registered_row w username "admin" password]
       else
         fst out = Returns tt
         /\ screen w1 = screen w ++ [printed_with "Error:" MySQL.ServerError]
         /\ server w1 = server w.
Proof.
  intros w username password.
  unfold CreateAdmin.create_admin, CreateAdmin.make_salt, CreateAdmin.hash_password,
         os_urandom, answers_next, no_connection_next, lost_next, username_taken,
         registered_row, new_salt, drawn_bytes.
  run_script. simpl.
  destruct (replies w) as [|[results|attempted| |] rest] eqn:Hreplies; simpl;
    try (destruct (existsb _ _) eqn:Htaken; simpl);
    unfold MySQL.commit; simpl; rewrite ?app_nil_r;
    repeat (split; [first [reflexivity | exact Hreplies]|]);
    try (split; [reflexivity|]);
    try (split; reflexivity);
    try (split; [destruct (server w); reflexivity|]);
    try (split; [reflexivity|]);
    try (destruct (server w); reflexivity);
    try reflexivity.
Qed.

(** X13: an admin created by [create_admin.py] can log in to the
    application.  With a non-empty stripped username that is free, a
    stripped password of at least 4 characters and the server answering,
    the script prints "Admin user created."; a later [login_user] with
    the stripped username and password returns [True], and the role of
    the session is then "admin". *)
Theorem bootstrap_admin_can_log_in :
  forall (w : World) (typed_username typed_password : string),
    collation_reflexive w ->
    answers_next w = true ->
    0 < Py.len (Py.strip typed_username) ->
    4 <= Py.len (Py.strip typed_password) ->
    username_taken w (Py.strip typed_username) = false ->
    let w1 := snd (CreateAdmin.main typed_username typed_password w) in
    answers_next w1 = true ->
    let login := Hand.login_user (Py.strip typed_username) (Py.strip typed_password) w1 in
    screen w1 = screen w ++ [printed "Admin user created."]
    /\ fst login = Returns true
    /\ fst (Hand.current_role (snd login)) = Returns (Py.PyStr "admin")
    /\ fst (Hand.current_user_id (snd login))
       = Returns (Some (MySQL.next_app_user_id (server w))).
Proof.
  intros w tu tp Hrefl Hnext Hname Hlong Hfree w1 Hnext1 login.
  assert (Hmain : CreateAdmin.main tu tp w
                  = CreateAdmin.create_admin (Py.strip tu) (Py.strip tp) w).
  { unfold CreateAdmin.main.
    assert (Hn : (Py.len (Py.strip tu) =? 0) = false) by (apply Z.eqb_neq; lia).
    assert (Hl : (Py.len (Py.strip tp) <? 4) = false) by (apply Z.ltb_ge; lia).
    rewrite Hn, Hl. reflexivity. }
  destruct (create_admin_outcome w (Py.strip tu) (Py.strip tp))
    as (Hcoll & _ & _ & _ & _ & _ & Hcase).
  assert (Hthere : no_connection_next w || lost_next w = false).
  { unfold answers_next in Hnext. unfold no_connection_next, lost_next.
    destruct (replies w) as [|[results|attempted| |] rest]; try discriminate; reflexivity. }
  cbv zeta in Hcoll, Hcase. rewrite Hthere, Hnext, Hfree in Hcase.
  destruct Hcase as (_ & Hscreen & Husers).
  rewrite <- Hmain in Hcoll, Hscreen, Husers. fold w1 in Hcoll, Hscreen, Husers.
  split; [exact Hscreen|].
  set (row := registered_row w (Py.strip tu) "admin" (Py.strip tp)) in *.
  pose proof (appended_row_is_found w w1 row (Py.strip tu) Hrefl Hcoll Husers
                eq_refl Hfree) as Hfound.
  pose proof (authenticate_user_succeeds w1 (Py.strip tu) (Py.strip tp) row []
                (new_salt w) Hnext1 Hfound eq_refl eq_refl) as Hauth.
  pose proof (login_user_succeeds w1 _ _ row Hauth) as Hlogin.
  subst login. rewrite Hlogin. cbn [fst snd].
  split; [reflexivity|].
  match goal with
  | |- fst (Hand.current_role ?x) = _ /\ _ =>
      destruct (session_reads_of_row x row eq_refl) as (Hr & Hi & _)
  end.
  rewrite Hr, Hi. split; reflexivity.
Qed.

Lemma bootstrap_admin_can_log_in_witness :
  collation_reflexive fresh_world
  /\ username_taken fresh_world (Py.strip " root ") = false
  /\ fst (Hand.login_user (Py.strip " root ") (Py.strip "secret ")
            (snd (CreateAdmin.main " root " "secret " fresh_world)))
     = Returns true
  /\ fst (Hand.current_role
            (snd (Hand.login_user (Py.strip " root ") (Py.strip "secret ")
                    (snd (CreateAdmin.main " root " "secret " fresh_world)))))
     = Returns (Py.PyStr "admin").
Proof.
  assert (Hrefl : collation_reflexive fresh_world).
  { intro text. apply String.eqb_refl. }
  assert (Hfree : username_taken fresh_world (Py.strip " root ") = false) by reflexivity.
  assert (Hname : 0 < Py.len (Py.strip " root ")) by (vm_compute; reflexivity).
  assert (Hlong : 4 <= Py.len (Py.strip "secret ")) by (vm_compute; discriminate).
  split; [exact Hrefl|]. split; [exact Hfree|].
  destruct (bootstrap_admin_can_log_in fresh_world " root " "secret " Hrefl eq_refl
              Hname Hlong Hfree eq_refl) as (_ & Hlogin & Hrole & _).
  split; [exact Hlogin | exact Hrole].
Defined.

(** X14: what [create_admin.py] reports, case by case.  With an empty
    stripped username or a stripped password of less than 4 characters
    it prints "Invalid input." and makes no round trip.  Otherwise, when
    the connection is missing, [mysql.connector.Error] is raised out of
    [create_admin] ([connect] and [conn.cursor()] stand before the
    [try]) and nothing is printed; when the username is taken, "Error:"
    is printed with the error of the duplicate entry; when the driver
    raises for another reason, "Error:" is printed with that error; and
    when the INSERT goes through, "Admin user created." is printed.  The
    database changes in the last case only, and then by exactly one
    credential with the role "admin" under the stripped username.  In no
    case does the script write an audit record or touch the session, the
    committed work or the open transaction of the application. *)
Theorem bootstrap_reports_what_it_did :
  forall (w : World) (typed_username typed_password : string),
    let uname := Py.strip typed_username in
    let pw := Py.strip typed_password in
    let out := CreateAdmin.main typed_username typed_password w in
    let w1 := snd out in
    MySQL.audit_log (server w1) = MySQL.audit_log (server w)
    /\ MySQL.ledger (server w1) = MySQL.ledger (server w)
    /\ pending w1 = pending w
    /\ app_user w1 = app_user w
    /\ if (Py.len uname =? 0) || (Py.len pw <? 4) then
         fst out = Returns tt
         /\ screen w1 = screen w ++ [printed "Invalid input."]
         /\ server w1 = server w
         /\ replies w1 = replies w
       else if no_connection_next w || lost_next w then
         fst out = Raises Py.ConnectorError
         /\ screen w1 = screen w
         /\ server w1 = server w
       else if answers_next w then
         if username_taken w uname then
           fst out = Returns tt
           /\ screen w1 = screen w ++ [printed_with "Error:" (MySQL.DuplicateEntry uname)]
           /\ server w1 = server w
         else
           fst out = Returns tt
           /\ screen w1 = screen w ++ [printed "Admin user created."]
           /\ MySQL.app_users (server w1)
              = MySQL.app_users (server w) ++ [registered_row w uname "admin" pw]
       else
         fst out = Returns tt
         /\ screen w1 = screen w ++ [printed_with "Error:" MySQL.ServerError]
         /\ server w1 = server w.
Proof.
  intros w tu tp uname pw out w1. subst out w1. unfold CreateAdmin.main.
  fold uname pw.
  destruct ((Py.len uname =? 0) || (Py.len pw <? 4)).
  - repeat split.
  - destruct (create_admin_outcome w uname pw)
      as (_ & Haudit & Hledger & Hpending & Hsession & _ & Hcase).
    split; [exact Haudit|]. split; [exact Hledger|]. split; [exact Hpending|].
    split; [exact Hsession|]. exact Hcase.
Qed.

(** ** The shape of a digest *)

Lemma be_bytes_length :
  forall (count : nat) (x : Z), List.length (Sha256.be_bytes count x) = count.
Proof. intros count x. unfold Sha256.be_bytes. rewrite length_map, length_seq. reflexivity. Qed.

Lemma digest_length :
  forall data : Py.bytes, List.length (Sha256.digest data) = 32%nat.
Proof.
  intro data. unfold Sha256.digest. cbv zeta. rewrite length_map.
  generalize (Sha256.absorb
                (List.length
                   (Sha256.be_words
                      (List.length (Sha256.pad (map (fun b => Z.of_N (Byte.to_N b)) data)))
                      (Sha256.pad (map (fun b => Z.of_N (Byte.to_N b)) data))))
                Sha256.start
                (Sha256.be_words
                   (List.length (Sha256.pad (map (fun b => Z.of_N (Byte.to_N b)) data)))
                   (Sha256.pad (map (fun b => Z.of_N (Byte.to_N b)) data)))).
  intro h. unfold Sha256.regs_words. cbn [flat_map].
  rewrite !length_app, !be_bytes_length. reflexivity.
Qed.

(** X15: whatever the password and the salt, [hash_password] returns 64
    lower-case hexadecimal characters, in [Hand.py] and in
    [create_admin.py], and the two functions agree; together with the 32
    characters of a salt this fits the columns [password_hash
    VARCHAR(128)] and [salt VARCHAR(64)] of [app_users]. *)
Theorem hash_password_is_64_hex_digits :
  forall password salt : string,
    String.length (Hand.hash_password password salt) = 64%nat
    /\ Py.all_chars Py.is_hex_digit (Hand.hash_password password salt) = true
    /\ CreateAdmin.hash_password password salt = Hand.hash_password password salt
    /\ forall w : World,
         (String.length (Hand.hash_password password (new_salt w)) <= 128)%nat
         /\ (String.length (new_salt w) <= 64)%nat.
Proof.
  intros password salt.
  assert (Hlen : forall s, String.length (Hand.hash_password password s) = 64%nat).
  { intro s. unfold Hand.hash_password, Sha256.hexdigest.
    rewrite hexlify_length, digest_length. reflexivity. }
  split; [apply Hlen|].
  split; [unfold Hand.hash_password, Sha256.hexdigest; apply hexlify_hex|].
  split; [reflexivity|].
  intro w. rewrite Hlen. unfold new_salt, drawn_bytes.
  rewrite hexlify_length, length_map, length_seq. split; lia.
Qed.

(** ** The form of the Admin page *)

(** A registration that goes through touches nothing but [app_users]. *)
Lemma create_app_user_registers :
  forall (w : World) (username role password : string),
    answers_next w = true ->
    username_taken w username = false ->
    let w1 := snd (Hand.create_app_user username role password w) in
    fst (Hand.create_app_user username role password w) = Returns true
    /\ MySQL.app_users (server w1)
       = MySQL.app_users (server w) ++ [registered_row w username role password]
    /\ MySQL.audit_log (server w1) = MySQL.audit_log (server w)
    /\ MySQL.next_audit_id (server w1) = MySQL.next_audit_id (server w)
    /\ screen w1 = screen w
    /\ app_user w1 = app_user w
    /\ now w1 = now w.
Proof.
  intros w username role password Hnext Hfree.
  unfold answers_next in Hnext. unfold username_taken in Hfree.
  unfold Hand.create_app_user, Hand.make_salt, os_urandom. run_script. simpl.
  destruct (replies w) as [|[results|[|]| |] rest]; try discriminate;
    simpl; rewrite Hfree; simpl; repeat split.
Qed.

(** X16: the form of the Admin page, submitted by a logged-in admin with
    a free username, a long enough password and the server answering.
    The credential is stored under the stripped username with the digest
    of the stripped password; "App user created." is shown; one audit
    row is written, in the name of the admin, whose details are the
    username as it was typed, not stripped, and nothing of the password;
    the run ends with a rerun. *)
Theorem app_user_form_stores_stripped_and_audits_typed_name :
  forall (w : World) (admin : MySQL.AppUser) (uname role_sel pw : string),
    app_user w = Some (MySQL.app_user_row admin) ->
    MySQL.role admin = Some "admin" ->
    0 < Py.len (Py.strip uname) ->
    4 <= Py.len (Py.strip pw) ->
    username_taken w (Py.strip uname) = false ->
    answers_next w = true ->
    answers_next (snd (Hand.create_app_user (Py.strip uname) role_sel (Py.strip pw) w))
    = true ->
    let w' := snd (Hand.create_app_user_form uname role_sel pw w) in
    fst (Hand.create_app_user_form uname role_sel pw w) = Reruns
    /\ MySQL.app_users (server w')
       = MySQL.app_users (server w)
         ++ [registered_row w (Py.strip uname) role_sel (Py.strip pw)]
    /\ MySQL.audit_log (server w')
       = MySQL.audit_log (server w)
         ++ [MySQL.mkAuditRow (MySQL.next_audit_id (server w))
               (Some (MySQL.app_user_id admin)) (MySQL.username admin)
               (Some "CREATE_APP_USER") (Some "app_users") (Some "") (Some uname)
               (now w)]
    /\ screen w' = screen w ++ [st_success "App user created."].
Proof.
  intros w admin uname role_sel pw Hsession Hadmin Hname Hlong Hfree Hnext Hnext1 w'.
  destruct (session_reads_of_row w admin Hsession) as (Hrole & _ & _).
  rewrite Hadmin in Hrole. cbn [MySQL.cell] in Hrole.
  destruct (create_app_user_registers w (Py.strip uname) role_sel (Py.strip pw) Hnext Hfree)
    as (Hok & Husers & Haudit & Hnextid & Hscreen & Hsession1 & Hnow).
  set (w1 := snd (Hand.create_app_user (Py.strip uname) role_sel (Py.strip pw) w)) in *.
  assert (Hrun : Hand.create_app_user (Py.strip uname) role_sel (Py.strip pw) w
                 = (Returns true, w1)).
  { rewrite <- Hok. apply surjective_pairing. }
  set (w2 := with_screen (screen w1 ++ [st_success "App user created."]) w1).
  rewrite Hsession in Hsession1.
  destruct (session_reads_of_row w2 admin Hsession1) as (_ & Hid & Huname).
  destruct (audit_log_is_best_effort w2 (Some (MySQL.app_user_id admin))
              (MySQL.cell (MySQL.username admin)) "CREATE_APP_USER" "app_users"
              (Py.PyStr "") (fstring [uname])) as (Hreturns & _ & Hkept).
  rewrite (answers_not_lost w2 Hnext1) in Hreturns.
  destruct (audit_log_reaches_the_server w2 (Some (MySQL.app_user_id admin))
              (MySQL.cell (MySQL.username admin)) "CREATE_APP_USER" "app_users"
              (Py.PyStr "") (fstring [uname]) Hnext1) as (Hlog & Hshown & _).
  set (w3 := snd (Hand.audit_log (Some (MySQL.app_user_id admin))
                    (MySQL.cell (MySQL.username admin)) "CREATE_APP_USER" "app_users"
                    (Py.PyStr "") (fstring [uname]) w2)) in *.
  assert (Hrecord : Hand.audit_log (Some (MySQL.app_user_id admin))
                      (MySQL.cell (MySQL.username admin)) "CREATE_APP_USER" "app_users"
                      (Py.PyStr "") (fstring [uname]) w2
                    = (Returns tt, w3)).
  { rewrite <- Hreturns. apply surjective_pairing. }
  assert (Hform : Hand.create_app_user_form uname role_sel pw w = (Reruns, w3)).
  { unfold Hand.create_app_user_form.
    rewrite (bind_returns _ _ _ _ _ _ _ Hrole). cbn [Py.eq_str String.eqb Ascii.eqb Bool.eqb].
    assert (Hn : (Py.len (Py.strip uname) =? 0) = false) by (apply Z.eqb_neq; lia).
    assert (Hl : (Py.len (Py.strip pw) <? 4) = false) by (apply Z.ltb_ge; lia).
    rewrite Hn, Hl. cbn [orb].
    rewrite (bind_returns _ _ _ _ _ _ _ Hrun).
    rewrite (bind_returns _ _ _ _ _ _ _
               (eq_refl : show (st_success "App user created.") w1 = (Returns tt, w2))).
    unfold Hand.record_and_rerun.
    rewrite (bind_returns _ _ _ _ _ _ _ Hid).
    rewrite (bind_returns _ _ _ _ _ _ _ Huname).
    rewrite (bind_returns _ _ _ _ _ _ _ Hrecord).
    reflexivity. }
  subst w'. rewrite Hform. cbn [fst snd].
  split; [reflexivity|].
  split; [rewrite Hkept; exact Husers|].
  split.
  - rewrite Hlog. unfold recorded_row.
    change (MySQL.audit_log (server w2)) with (MySQL.audit_log (server w1)).
    change (MySQL.next_audit_id (server w2)) with (MySQL.next_audit_id (server w1)).
    change (now w2) with (now w1).
    rewrite Haudit, Hnextid, Hnow, text_cell_of_cell. reflexivity.
  - rewrite Hshown. unfold w2. cbn [screen with_screen]. rewrite Hscreen. reflexivity.
Qed.

Lemma app_user_form_stores_stripped_and_audits_typed_name_witness :
  let w' := snd (Hand.create_app_user_form " bob " "cashier" "abcd " alice_logged_in) in
  app_user alice_logged_in
  = Some (MySQL.app_user_row (registered_row fresh_world "alice" "admin" "pass1234"))
  /\ username_taken alice_logged_in (Py.strip " bob ") = false
  /\ MySQL.app_users (server w')
     = MySQL.app_users (server alice_logged_in)
       ++ [registered_row alice_logged_in "bob" "cashier" "abcd"]
  /\ MySQL.audit_log (server w')
     = [MySQL.mkAuditRow 1 (Some 1) (Some "alice") (Some "CREATE_APP_USER")
          (Some "app_users") (Some "") (Some " bob ") 1700000000].
Proof.
  assert (Hsession : app_user alice_logged_in
                     = Some (MySQL.app_user_row
                               (registered_row fresh_world "alice" "admin" "pass1234"))).
  { vm_compute. reflexivity. }
  assert (Hfree : username_taken alice_logged_in (Py.strip " bob ") = false).
  { vm_compute. reflexivity. }
  assert (Hname : 0 < Py.len (Py.strip " bob ")) by (vm_compute; reflexivity).
  assert (Hlong : 4 <= Py.len (Py.strip "abcd ")) by (vm_compute; discriminate).
  assert (Hnext : answers_next alice_logged_in = true) by reflexivity.
  assert (Hnext1 : answers_next (snd (Hand.create_app_user (Py.strip " bob ") "cashier"
                                        (Py.strip "abcd ") alice_logged_in)) = true).
  { vm_compute. reflexivity. }
  cbv zeta. split; [exact Hsession|]. split; [exact Hfree|].
  destruct (app_user_form_stores_stripped_and_audits_typed_name
              alice_logged_in (registered_row fresh_world "alice" "admin" "pass1234")
              " bob " "cashier" "abcd " Hsession eq_refl Hname Hlong Hfree Hnext Hnext1)
    as (_ & Husers & Haudit & _).
  split; [exact Husers | exact Haudit].
Defined.

(** ** The Purchase Orders page *)

(** Sequencing, for a property of the world: it holds after [m], and
    from there after what follows, whatever [m] has returned. *)
Lemma keeps_bind :
  forall (A B : Type) (I : World -> Prop) (m : Script A) (k : A -> Script B) (w : World),
    I (snd (m w)) ->
    (forall a w', m w = (Returns a, w') -> I w' -> I (snd (k a w'))) ->
    I (snd (bind m k w)).
Proof.
  intros A B I m k w Hm Hk. unfold bind.
  destruct (m w) as [[a| |e] w'] eqn:E; simpl in *; auto.
Qed.

Lemma getitem_world :
  forall (d : Py.dict) (key : string) (w : World), snd (getitem d key w) = w.
Proof. intros d key w. unfold getitem. destruct (Py.get d key); reflexivity. Qed.

Lemma int_world : forall (x : Py.value) (w : World), snd (int_ x w) = w.
Proof. intros x w. unfold int_. destruct (Py.int x); reflexivity. Qed.

Lemma run_query_frame :
  forall (q : MySQL.Query) (w : World),
    MySQL.plain q = true ->
    now (snd (Hand.run_query q w)) = now w
    /\ server (snd (Hand.run_query q w)) = server w
    /\ pending (snd (Hand.run_query q w)) = pending w.
Proof.
  intros q w Hplain.
  assert (Hfurther : forall w', Hand.further_statements q w' = (Returns tt, w')).
  { intro w'. destruct q; try reflexivity.
    simpl in *. unfold runs_further. rewrite Hplain. reflexivity. }
  unfold Hand.run_query, Hand.get_db_conn, bind, next_reply.
  destruct (replies w) as [|[results|[|]| |] rest]; cbn [ret show update fst snd];
    rewrite ?Hfurther; repeat split.
Qed.

Section PurchaseOrderWork.

Variable w0 : World.
Variables sel_alert item_id : Py.value.

Lemma po_work_start : only_purchase_order_work w0 sel_alert item_id w0.
Proof. split; [reflexivity | intros e H; left; exact H]. Qed.

Lemma po_work_same :
  forall w w',
    now w' = now w -> (forall e, In e (work_so_far w') -> In e (work_so_far w)) ->
    only_purchase_order_work w0 sel_alert item_id w ->
    only_purchase_order_work w0 sel_alert item_id w'.
Proof.
  intros w w' Hnow Hwork (Hclock & Hin). split; [congruence|].
  intros e He. apply Hin, Hwork, He.
Qed.

Lemma po_work_query :
  forall q w,
    MySQL.plain q = true ->
    only_purchase_order_work w0 sel_alert item_id w ->
    only_purchase_order_work w0 sel_alert item_id (snd (Hand.run_query q w)).
Proof.
  intros q w Hplain. destruct (run_query_frame q w Hplain) as (Hnow & Hserver & Hpending).
  apply po_work_same; [exact Hnow|]. unfold work_so_far.
  rewrite Hserver, Hpending. auto.
Qed.

Lemma po_work_show :
  forall m w,
    only_purchase_order_work w0 sel_alert item_id w ->
    only_purchase_order_work w0 sel_alert item_id (snd (show m w)).
Proof. intros m w. apply po_work_same; [reflexivity | auto]. Qed.

(** A statement adds itself to the work, or nothing. *)
Lemma po_work_modification :
  forall text params w,
    purchase_order_work (now w0) sel_alert item_id (MySQL.Executed text params) ->
    only_purchase_order_work w0 sel_alert item_id w ->
    only_purchase_order_work w0 sel_alert item_id
      (snd (Hand.run_modification (MySQL.Modify text params) w)).
Proof.
  intros text params w Hgood (Hclock & Hin). unfold work_so_far in Hin.
  split.
  - rewrite <- Hclock. run_script.
    destruct (replies w) as [|[results|[|]| |] rest]; reflexivity.
  - intros e. unfold work_so_far. run_script.
    destruct (replies w) as [|[results|[|]| |] rest]; simpl;
      rewrite ?app_nil_r; intro He;
      try (apply Hin; apply in_or_app; left; exact He);
      try (apply Hin; exact He);
      (apply in_app_or in He; destruct He as [He|He];
       [apply Hin; apply in_or_app; left; exact He|];
       apply in_app_or in He; destruct He as [He|[He|[]]];
       [apply Hin; apply in_or_app; right; exact He | subst e; right; exact Hgood]).
Qed.

(** The audit record adds no work. *)
Lemma po_work_audit :
  forall uid uname action table_name row_id details w,
    only_purchase_order_work w0 sel_alert item_id w ->
    only_purchase_order_work w0 sel_alert item_id
      (snd (Hand.audit_log uid uname action table_name row_id details w)).
Proof.
  intros uid uname action table_name row_id details w.
  apply po_work_same.
  - unfold Hand.audit_log. run_script.
    destruct (replies w) as [|[results|[|]| |] rest]; reflexivity.
  - intro e. unfold work_so_far, Hand.audit_log. run_script.
    destruct (replies w) as [|[results|[|]| |] rest]; simpl;
      rewrite ?app_nil_r; intro He; try exact He;
      apply in_or_app; left; exact He.
Qed.

Lemma po_work_record :
  forall action table_name row_id details w,
    only_purchase_order_work w0 sel_alert item_id w ->
    only_purchase_order_work w0 sel_alert item_id
      (snd (Hand.record_and_rerun action table_name row_id details w)).
Proof.
  intros action table_name row_id details w Hw. unfold Hand.record_and_rerun.
  apply keeps_bind.
  - unfold Hand.current_user_id. apply keeps_bind; [exact Hw|].
    intros wv w' E Hw'. destruct (app_user wv) as [[|entry user]|]; try exact Hw'.
    apply keeps_bind; [rewrite getitem_world; exact Hw'|]. intros id w1 _ H1.
    apply keeps_bind; [rewrite int_world; exact H1|]. intros n w2 _ H2. exact H2.
  - intros uid w1 _ H1. apply keeps_bind.
    + unfold Hand.session_username. apply keeps_bind; [exact H1|].
      intros wv w' E Hw'. destruct (app_user wv); [|exact Hw'].
      rewrite getitem_world. exact Hw'.
    + intros uname w2 _ H2. apply keeps_bind; [apply po_work_audit; exact H2|].
      intros [] w3 _ H3. exact H3.
Qed.

(** The quantity to order is at least 10. *)
Lemma po_quantity :
  forall (inv_row : MySQL.Frame) (w w' : World) (qty_order : Z),
    match inv_row with
    | [] => ret 10
    | inv :: _ =>
        level <- getitem inv "reorder_level" ;;
        rq <- int_ level ;;
        ret (Z.max 10 (rq * 2))
    end w = (Returns qty_order, w') ->
    10 <= qty_order /\ w' = w.
Proof.
  intros inv_row w w' qty_order. destruct inv_row as [|inv others].
  - intro H. injection H as Hq Hw. subst. split; [lia | reflexivity].
  - unfold bind, getitem, int_, ret, raise.
    destruct (Py.get inv "reorder_level") as [level|]; [|discriminate].
    destruct (Py.int level) as [e|rq]; [discriminate|].
    intro H. injection H as Hq Hw. subst. split; [lia | reflexivity].
Qed.

Lemma po_work_button :
  forall w,
    only_purchase_order_work w0 sel_alert item_id w ->
    only_purchase_order_work w0 sel_alert item_id
      (snd (Hand.auto_create_po sel_alert item_id w)).
Proof.
  intros w Hw. unfold Hand.auto_create_po.
  apply keeps_bind; [apply po_work_query; [reflexivity | exact Hw]|].
  intros sup_df w1 _ H1. destruct sup_df as [|sup_row others].
  { apply po_work_show. exact H1. }
  apply keeps_bind; [rewrite getitem_world; exact H1|]. intros sup w2 _ H2.
  apply keeps_bind; [rewrite int_world; exact H2|]. intros supplier_id w3 _ H3.
  apply keeps_bind; [apply po_work_query; [reflexivity | exact H3]|]. intros inv_row w4 _ H4.
  apply keeps_bind.
  { destruct inv_row as [|inv rest]; [exact H4|].
    apply keeps_bind; [rewrite getitem_world; exact H4|]. intros level w5 _ H5.
    apply keeps_bind; [rewrite int_world; exact H5|]. intros rq w6 _ H6. exact H6. }
  intros qty_order w5 Hqty H5. apply po_quantity in Hqty. destruct Hqty as (Hten & _).
  apply keeps_bind; [exact H5|]. intros wv w6 Hworld H6.
  injection Hworld as Hwv _. subst wv. cbv zeta.
  assert (Hdate : (now w5 + 7 * 86400) / 86400 = now w0 / 86400 + 7).
  { destruct H5 as (Hclock & _). rewrite Hclock. apply Z.div_add. lia. }
  rewrite Hdate.
  apply keeps_bind.
  { apply po_work_modification; [|exact H6].
    left. exists supplier_id, qty_order. split; [reflexivity | exact Hten]. }
  intros ok w7 _ H7. destruct ok; [|exact H7].
  apply keeps_bind; [apply po_work_show; exact H7|]. intros [] w8 _ H8.
  apply keeps_bind; [apply po_work_query; [reflexivity | exact H8]|]. intros po_df w9 _ H9.
  destruct po_df as [|po_row rest]; [exact H9|].
  apply keeps_bind; [rewrite getitem_world; exact H9|]. intros po w10 _ H10.
  apply keeps_bind; [rewrite int_world; exact H10|]. intros po_id w11 _ H11.
  apply keeps_bind.
  { apply po_work_modification; [|exact H11]. right. exists po_id. reflexivity. }
  intros marked w12 _ H12. apply po_work_record. exact H12.
Qed.

End PurchaseOrderWork.

(** X17: whatever the database answers, the work that the button
    "Auto-create PO for selected alert" leaves committed was committed
    or pending before, or is one of two statements: the INSERT of an
    order for the alert's item, whose quantity is at least 10 and whose
    expected delivery is the date 7 days after the day of the run, and
    the UPDATE that marks the selected alert with the order's id. *)
Theorem auto_po_orders_at_least_ten_for_next_week :
  forall (w : World) (sel_alert item_id : Py.value) (e : MySQL.Entry),
    In e (MySQL.ledger (server (snd (Hand.auto_create_po sel_alert item_id w)))) ->
    In e (MySQL.ledger (server w))
    \/ In e (pending w)
    \/ purchase_order_work (now w) sel_alert item_id e.
Proof.
  intros w sel_alert item_id e He.
  destruct (po_work_button w sel_alert item_id w (po_work_start w sel_alert item_id))
    as (_ & Hin).
  destruct (Hin e) as [Hold|Hnew].
  - unfold work_so_far. apply in_or_app. left. exact He.
  - unfold work_so_far in Hold. apply in_app_or in Hold. tauto.
  - right. right. exact Hnew.
Qed.

Lemma auto_po_orders_at_least_ten_for_next_week_witness :
  In order_of_sixteen
     (MySQL.ledger (server (snd (Hand.auto_create_po (Py.PyInt 9) (Py.PyInt 3)
                                   world_with_alert))))
  /\ (In order_of_sixteen (MySQL.ledger (server world_with_alert))
      \/ In order_of_sixteen (pending world_with_alert)
      \/ purchase_order_work (now world_with_alert) (Py.PyInt 9) (Py.PyInt 3)
                             order_of_sixteen).
Proof.
  assert (Hin : In order_of_sixteen
                   (MySQL.ledger (server (snd (Hand.auto_create_po (Py.PyInt 9) (Py.PyInt 3)
                                                 world_with_alert))))).
  { vm_compute. left. reflexivity. }
  split; [exact Hin|].
  exact (auto_po_orders_at_least_ten_for_next_week world_with_alert (Py.PyInt 9)
           (Py.PyInt 3) order_of_sixteen Hin).
Defined.

(** ** What becomes of a sale and of an order *)

(** Sequencing, from a property [P] that holds after [m] to a property
    [Q] of the end. *)
Lemma hoare_bind :
  forall (A B : Type) (P Q : World -> Prop) (m : Script A) (k : A -> Script B) (w : World),
    P (snd (m w)) ->
    (forall w', P w' -> Q w') ->
    (forall a w', m w = (Returns a, w') -> P w' -> Q (snd (k a w'))) ->
    Q (snd (bind m k w)).
Proof.
  intros A B P Q m k w Hm Hweak Hk. unfold bind.
  destruct (m w) as [[a| |e] w'] eqn:E; simpl in *; auto.
Qed.

Lemma run_query_select_answers :
  forall (text : string) (params : list Py.value) (w : World)
         (results : list MySQL.Frame) (rest : list Reply),
    MySQL.single_statement text = true ->
    replies w = Answers results :: rest ->
    Hand.run_query (MySQL.Select text params) w
    = (Returns (hd [] results), with_replies rest w).
Proof.
  intros text params w results rest Hplain H.
  unfold Hand.run_query, Hand.get_db_conn, Hand.further_statements, runs_further.
  rewrite Hplain. run_script. rewrite H. reflexivity.
Qed.

Lemma run_modification_answers :
  forall (text : string) (params : list Py.value) (w : World)
         (results : list MySQL.Frame) (rest : list Reply),
    replies w = Answers results :: rest ->
    Hand.run_modification (MySQL.Modify text params) w
    = (Returns true,
       with_pending []
         (with_server (MySQL.commit (pending w ++ [MySQL.Executed text params]) (server w))
                      (with_replies rest w))).
Proof. intros text params w results rest H. run_script. rewrite H. reflexivity. Qed.

Lemma settled_query :
  forall L q w,
    MySQL.plain q = true -> settled L w -> settled L (snd (Hand.run_query q w)).
Proof.
  intros L q w Hplain (Hp & Hl).
  destruct (run_query_frame q w Hplain) as (_ & Hserver & Hpending).
  split; [rewrite Hpending | rewrite Hserver]; assumption.
Qed.

Lemma settled_audit :
  forall L uid uname action table_name row_id details w,
    settled L w ->
    settled L (snd (Hand.audit_log uid uname action table_name row_id details w)).
Proof.
  intros L uid uname action table_name row_id details w (Hp & Hl).
  destruct (audit_log_is_best_effort w uid uname action table_name row_id details)
    as (_ & Hkeep & _).
  destruct (Hkeep Hp) as (Hledger & Hpending).
  split; [exact Hpending | rewrite Hledger; exact Hl].
Qed.

Lemma settled_record :
  forall L action table_name row_id details w,
    settled L w ->
    settled L (snd (Hand.record_and_rerun action table_name row_id details w)).
Proof.
  intros L action table_name row_id details w Hw. unfold Hand.record_and_rerun.
  apply keeps_bind.
  - unfold Hand.current_user_id. apply keeps_bind; [exact Hw|].
    intros wv w' E Hw'. destruct (app_user wv) as [[|entry user]|]; try exact Hw'.
    apply keeps_bind; [rewrite getitem_world; exact Hw'|]. intros id w1 _ H1.
    apply keeps_bind; [rewrite int_world; exact H1|]. intros n w2 _ H2. exact H2.
  - intros uid w1 _ H1. apply keeps_bind.
    + unfold Hand.session_username. apply keeps_bind; [exact H1|].
      intros wv w' E Hw'. destruct (app_user wv); [|exact Hw'].
      rewrite getitem_world. exact Hw'.
    + intros uname w2 _ H2. apply keeps_bind; [apply settled_audit; exact H2|].
      intros [] w3 _ H3. exact H3.
Qed.

Lemma settled_modification :
  forall L text params w,
    settled L w ->
    settled L (snd (Hand.run_modification (MySQL.Modify text params) w))
    \/ settled (L ++ [MySQL.Executed text params])
               (snd (Hand.run_modification (MySQL.Modify text params) w)).
Proof.
  intros L text params w (Hp & Hl). unfold settled. run_script.
  destruct (replies w) as [|[results|[|]| |] rest]; simpl; rewrite ?Hp, ?Hl; simpl; auto.
Qed.

(** X18: when the supplier and the reorder level of the item are found
    and the INSERT goes through, the order is committed at once, for
    [max(10, 2 * reorder_level)] pieces, due 7 days after the day of the
    run, together with the work that was pending on the connection.  It
    stays committed whatever becomes of the rest of the run: the alert
    is marked afterwards by a statement of its own, at most once, and
    the run leaves nothing pending. *)
Theorem purchase_order_is_committed_before_the_alert_is_marked :
  forall (w : World) (sel_alert item_id : Py.value) (sup_row inv : Py.dict)
         (sup_rest inv_rest : MySQL.Frame) (more1 more2 r3 : list MySQL.Frame)
         (supplier_id rq : Z) (rest : list Reply),
    replies w = Answers ((sup_row :: sup_rest) :: more1)
                :: Answers ((inv :: inv_rest) :: more2) :: Answers r3 :: rest ->
    Py.get sup_row "supplier_id" = Some (Py.PyInt supplier_id) ->
    Py.get inv "reorder_level" = Some (Py.PyInt rq) ->
    let w' := snd (Hand.auto_create_po sel_alert item_id w) in
    let order :=
      MySQL.Executed
        "INSERT INTO Purchase_Orders (item_id, supplier_id, quantity_ordered, expected_delivery, notes) VALUES (%s,%s,%s,%s,%s)"
        [item_id; Py.PyInt supplier_id; Py.PyInt (Z.max 10 (rq * 2));
         Py.PyDate (now w / 86400 + 7);
         Py.PyStr (fstring ["Auto PO from alert "; Py.str sel_alert])] in
    pending w' = []
    /\ (MySQL.ledger (server w') = MySQL.ledger (server w) ++ pending w ++ [order]
        \/ exists po_id,
             MySQL.ledger (server w')
             = MySQL.ledger (server w) ++ pending w ++ [order; alert_mark sel_alert po_id]).
Proof.
  intros w sel_alert item_id sup_row inv sup_rest inv_rest more1 more2 r3 supplier_id rq
         rest Hreplies Hsup Hinv w' order.
  set (base := MySQL.ledger (server w) ++ pending w ++ [order]).
  set (Q := fun x : World =>
              settled base x
              \/ exists po_id,
                   settled (base ++ [alert_mark sel_alert po_id]) x).
  assert (Hgoal : Q w').
  2:{ destruct Hgoal as [(Hp & Hl)|(po_id & Hp & Hl)].
      - split; [exact Hp|]. left. exact Hl.
      - split; [exact Hp|]. right. exists po_id. rewrite Hl. unfold base.
        rewrite <- !app_assoc. reflexivity. }
  subst w'. unfold Hand.auto_create_po.
  erewrite bind_returns
    by (apply run_query_select_answers; [reflexivity | exact Hreplies]).
  cbn [hd]. unfold getitem at 1. rewrite Hsup.
  rewrite (bind_returns _ _ _ _ _ _ _ (eq_refl : ret (Py.PyInt supplier_id) _ = (_, _))).
  rewrite (bind_returns _ _ _ _ _ _ _
             (eq_refl : int_ (Py.PyInt supplier_id) _ = (Returns supplier_id, _))).
  erewrite bind_returns
    by (apply run_query_select_answers; [reflexivity | reflexivity]).
  cbn [hd]. unfold getitem at 1. rewrite Hinv.
  rewrite (bind_returns _ _ _ _ _ _ _
             (eq_refl : bind (ret (Py.PyInt rq)) _ _ = (Returns (Z.max 10 (rq * 2)), _))).
  rewrite (bind_returns _ _ _ _ _ _ _ (eq_refl : world _ = (Returns _, _))).
  cbv zeta.
  rewrite (bind_returns _ _ _ _ _ _ _
             (run_modification_answers _ _ _ _ _
                (eq_refl : replies (with_replies (Answers r3 :: rest) w) = _))).
  match goal with
  | |- Q (snd (_ ?x)) => set (w3 := x)
  end.
  assert (H3 : settled base w3).
  { split; [reflexivity|]. unfold w3, base, order.
    cbn [server pending now with_pending with_server with_replies MySQL.commit
         MySQL.ledger MySQL.with_ledger].
    rewrite (Z.div_add (now w) 7 86400) by lia.
    reflexivity. }
  clearbody w3.
  assert (Hweak : forall x, settled base x -> Q x) by (intros x Hx; left; exact Hx).
  apply (hoare_bind _ _ (settled base)); [exact H3 | exact Hweak |]. intros [] w4 _ H4.
  apply (hoare_bind _ _ (settled base)); [apply settled_query; [reflexivity | exact H4] | exact Hweak |].
  intros po_df w5 _ H5. destruct po_df as [|po_row others]; [left; exact H5|].
  apply (hoare_bind _ _ (settled base)); [rewrite getitem_world; exact H5 | exact Hweak |].
  intros po w6 _ H6.
  apply (hoare_bind _ _ (settled base)); [rewrite int_world; exact H6 | exact Hweak |].
  intros po_id w7 _ H7.
  destruct (settled_modification base
              "UPDATE Inventory_Alerts SET message = CONCAT(message, ' | PO_CREATED:', %s) WHERE alert_id = %s"
              [Py.PyStr (Py.str (Py.PyInt po_id)); sel_alert] w7 H7) as [Hsame|Hmarked].
  - apply (hoare_bind _ _ (settled base)); [exact Hsame | exact Hweak |].
    intros marked w8 _ H8. left. apply settled_record. exact H8.
  - apply (hoare_bind _ _ (settled (base ++ [alert_mark sel_alert po_id])));
      [exact Hmarked | intros x Hx; right; exists po_id; exact Hx |].
    intros marked w8 _ H8. right. exists po_id. apply settled_record. exact H8.
Qed.

Lemma purchase_order_is_committed_before_the_alert_is_marked_witness :
  replies world_with_alert
  = Answers ([[("supplier_id", Py.PyInt 5); ("supplier_name", Py.PyStr "Loom & Co")]] :: [])
    :: Answers ([[("inventory_id", Py.PyInt 2); ("quantity_in_stock", Py.PyInt 1);
                  ("reorder_level", Py.PyInt 8)]] :: [])
    :: Answers [] :: [Answers [[[("po_id", Py.PyInt 41)]]]; Answers []; Answers []]
  /\ MySQL.ledger (server (snd (Hand.auto_create_po (Py.PyInt 9) (Py.PyInt 3)
                                  world_with_alert)))
     = [order_of_sixteen; alert_mark (Py.PyInt 9) 41]
  /\ pending (snd (Hand.auto_create_po (Py.PyInt 9) (Py.PyInt 3) world_with_alert)) = [].
Proof.
  assert (Hreplies :
            replies world_with_alert
            = Answers ([[("supplier_id", Py.PyInt 5); ("supplier_name", Py.PyStr "Loom & Co")]]
                       :: [])
              :: Answers ([[("inventory_id", Py.PyInt 2); ("quantity_in_stock", Py.PyInt 1);
                            ("reorder_level", Py.PyInt 8)]] :: [])
              :: Answers [] :: [Answers [[[("po_id", Py.PyInt 41)]]]; Answers []; Answers []])
    by reflexivity.
  split; [exact Hreplies|].
  destruct (purchase_order_is_committed_before_the_alert_is_marked
              world_with_alert (Py.PyInt 9) (Py.PyInt 3) _ _ _ _ _ _ _ 5 8 _
              Hreplies eq_refl eq_refl) as (Hpending & _).
  split; [vm_compute; reflexivity | exact Hpending].
Defined.

(** X19: what becomes of a sale.  A logged-in user submits the Process
    Sale form, the probe and the call of ProcessSale are answered, and
    the procedure does not commit by itself.  The success message is
    shown and the run ends with a rerun in both cases; but the sale is
    committed, with the work pending before it, only by the commit of
    the audit INSERT, which also stores the audit row in the name of the
    user; when the audit INSERT raises, the rollback of
    [run_modification] discards the sale: the server is as before the
    run and nothing is pending. *)
Theorem sale_is_committed_by_the_audit_insert :
  forall (w : World) (user : MySQL.AppUser) (sel_item sel_store : Py.value) (qty : Z)
         (payment : string) (r1 r2 r3 : list MySQL.Frame) (audit_goes_through : bool)
         (rest : list Reply),
    app_user w = Some (MySQL.app_user_row user) ->
    MySQL.commits_itself (server w) "ProcessSale" = false ->
    replies w = sale_replies r1 r2 r3 audit_goes_through rest ->
    let w' := snd (Hand.proc_sale sel_item sel_store qty payment w) in
    let cnt := Z.of_nat (List.length (MySQL.input_parameters (server w) (database w)
                                                             "ProcessSale")) in
    let sale := MySQL.Called "ProcessSale"
                  (sale_call_args (Some cnt) (now w) sel_item sel_store qty payment) in
    fst (Hand.proc_sale sel_item sel_store qty payment w) = Reruns
    /\ (exists errors,
          screen w'
          = screen w ++ st_success "ProcessSale invoked. Check Sales and Inventory."
                        :: errors)
    /\ pending w' = []
    /\ if audit_goes_through then
         MySQL.ledger (server w') = MySQL.ledger (server w) ++ pending w ++ [sale]
         /\ MySQL.audit_log (server w')
            = MySQL.audit_log (server w)
              ++ [MySQL.mkAuditRow (MySQL.next_audit_id (server w))
                    (Some (MySQL.app_user_id user)) (MySQL.username user)
                    (Some "PROCESS_SALE") (Some "Sales") (Some "")
                    (Some (fstring ["item="; Py.str sel_item; ",store=";
                                    Py.str sel_store; ",qty="; Py.str (Py.PyInt qty)]))
                    (now w)]
       else
         server w' = server w.
Proof.
  intros w user sel_item sel_store qty payment r1 r2 r3 audit_goes_through rest
         Hsession Hcommits Hreplies w' cnt sale.
  subst w' sale.
  unfold Hand.proc_sale, Hand.get_proc_param_count, Hand.sale_params,
         Hand.record_and_rerun, Hand.current_user_id, Hand.session_username,
         sale_call_args, five_args, four_args, st_rerun.
  unfold sale_replies in Hreplies.
  run_script. rewrite Hreplies. simpl. fold cnt.
  rewrite Z.geb_leb.
  destruct (5 <=? cnt); simpl; rewrite Hcommits; simpl;
    repeat (rewrite Hsession; simpl); run_script; simpl;
    destruct audit_goes_through; simpl.
  all: split; [reflexivity|].
  all: split; [eexists; rewrite <- ?app_assoc; reflexivity|].
  all: split; [reflexivity|].
  all: rewrite ?app_nil_r, ?text_cell_of_cell, <- ?app_assoc; repeat split.
Qed.

Lemma sale_is_committed_by_the_audit_insert_witness :
  let w := with_replies (sale_replies [] [] [] false []) alice_logged_in in
  app_user w
  = Some (MySQL.app_user_row (registered_row fresh_world "alice" "admin" "pass1234"))
  /\ MySQL.commits_itself (server w) "ProcessSale" = false
  /\ fst (Hand.proc_sale (Py.PyInt 3) (Py.PyInt 7) 2 "Cash" w) = Reruns
  /\ server (snd (Hand.proc_sale (Py.PyInt 3) (Py.PyInt 7) 2 "Cash" w)) = server w
  /\ pending (snd (Hand.proc_sale (Py.PyInt 3) (Py.PyInt 7) 2 "Cash" w)) = [].
Proof.
  cbv zeta.
  assert (Hsession : app_user (with_replies (sale_replies [] [] [] false []) alice_logged_in)
                     = Some (MySQL.app_user_row
                               (registered_row fresh_world "alice" "admin" "pass1234"))).
  { vm_compute. reflexivity. }
  split; [exact Hsession|]. split; [reflexivity|].
  destruct (sale_is_committed_by_the_audit_insert
              (with_replies (sale_replies [] [] [] false []) alice_logged_in)
              (registered_row fresh_world "alice" "admin" "pass1234")
              (Py.PyInt 3) (Py.PyInt 7) 2 "Cash" [] [] [] false [] Hsession eq_refl eq_refl)
    as (Hruns & _ & Hpending & Hserver).
  split; [exact Hruns|]. split; [exact Hserver | exact Hpending].
Defined.

(** ** The SQL Runner *)


Example sha256_abc :
  Sha256.hexdigest (Py.encode "abc")
  = "ba7816bf8f01cfea414140de5dae2223b00361a396177a9cb410ff61f20015ad".
Proof. vm_compute. reflexivity. Qed.

Example sha256_empty :
  Sha256.hexdigest (Py.encode "")
  = "e3b0c44298fc1c149afbf4c8996fb92427ae41e4649b934ca495991b7852b855".
Proof. vm_compute. reflexivity. Qed.

Example sha256_two_blocks :
  Sha256.hexdigest (Py.encode "aaaaaaaaaaaaaaaaaaaaaaaaaaaaaaaaaaaaaaaaaaaaaaaaaaaaaaaa")
  = "b35439a4ac6f0948b6d6f9e3c6af0f5f590ce20f1bde7090ef7970686ec6738a".
Proof. vm_compute. reflexivity. Qed.

Example py_int_examples :
  Py.int (Py.PyStr " +1_0 ") = inr 10 /\ Py.int (Py.PyStr "1__0") = inl Py.ValueError
  /\ Py.int (Py.PyStr "007") = inr 7 /\ Py.int (Py.PyStr "-5") = inr (-5)
  /\ Py.int (Py.PyStr "") = inl Py.ValueError /\ Py.int (Py.PyStr "1_") = inl Py.ValueError.
Proof. vm_compute. repeat split. Qed.

Example py_str_examples :
  Py.str (Py.PyDate 19999) = "2024-10-03" /\ Py.str (Py.PyDate (-400)) = "1968-11-27"
  /\ Py.str (Py.PyDatetime 1700000000) = "2023-11-14 22:13:20"
  /\ Py.str (Py.PyInt (-5)) = "-5" /\ Py.strip (String.append "  ab c " "") = "ab c".
Proof. vm_compute. repeat split. Qed.

(** The scenario of the specification, run on the model: alice is
    registered as a manager, logs in, fails with a wrong password, one
    CREATE_ITEM entry is recorded for her, and the Audit Log page lists
    exactly that entry. *)
Example end_to_end_scenario :
  let registered := snd (Hand.create_app_user "alice" "manager" "pass1234" fresh_world) in
  let logged_in := snd (Hand.login_user "alice" "pass1234" registered) in
  let recorded :=
    snd (Hand.audit_log (Some 1) (Py.PyStr "alice") "CREATE_ITEM" "Clothing_Items"
                        (Py.PyStr "") "Scarf" logged_in) in
  option_map (fun credential => Py.get credential "role")
             (app_user logged_in) = Some (Some (Py.PyStr "manager"))
  /\ fst (Hand.authenticate_user "alice" "wrong" registered) = Returns None
  /\ fst (Hand.run_query MySQL.SelectAuditLog recorded)
     = Returns [[("audit_id", Py.PyInt 1); ("app_user_id", Py.PyInt 1);
                 ("username", Py.PyStr "alice"); ("action", Py.PyStr "CREATE_ITEM");
                 ("table_name", Py.PyStr "Clothing_Items"); ("row_id", Py.PyStr "");
                 ("details", Py.PyStr "Scarf"); ("created_at", Py.PyDatetime 1700000000)]].
Proof. vm_compute. repeat split. Qed.
